(** * Retrieval-augmented generation pipeline over Milvus: a shallow embedding

    The development follows the Python sources of the ingestion API:

    - [rag.py]              detail-level classifier, prompt builder, retriever;
    - [schemas.py]          the [ChatIn] request model;
    - [main.py]             the chat orchestrator and its timeout staging;
    - [embeddings.py]       the embedding client;
    - [milvus_client.py]    collection and index lifecycle;
    - [security_memory/store.py]  the tag-filtered memory query.

    Conventions.  A Python [str] is a Rocq [string]; one [ascii] stands for
    one code point in the range 0..255, and the character predicates below
    agree with CPython on that whole range.  The fixed prompt templates
    contain one character outside that range (an en dash); it is carried
    as the bytes of the source literal.  Configuration read from the
    process environment is fixed at the defaults written in the sources.
    Durations are integers (milliseconds).  Exceptions are values of a sum
    type. *)

From Stdlib Require Import ZArith NArith QArith Bool Ascii List Lia.
From Stdlib Require Import Permutation.
From stdpp Require Import gmap strings pretty.

Set Warnings "-register-all,-abstract-large-number".

(** ** Primitives of the host language on strings *)

Module Py.

Definition ord (c : ascii) : N := N_of_ascii c.

Definition in_range (lo hi n : N) : bool := ((lo <=? n) && (n <=? hi))%N.

(** [str.isspace] on one code point below 256. *)
Definition isspace (c : ascii) : bool :=
  let n := ord c in
  in_range 9 13 n || in_range 28 32 n || (n =? 133)%N || (n =? 160)%N.

(** Code points below 256 that [str.lower] changes: A-Z and the
    Latin-1 capitals, each mapped 32 places up. *)
Definition isupper (c : ascii) : bool :=
  let n := ord c in
  in_range 65 90 n || in_range 192 214 n || in_range 216 222 n.

Definition lower_char (c : ascii) : ascii :=
  if isupper c then ascii_of_N (ord c + 32) else c.

(** The class [\w] of the [re] module for [str] patterns, below 256. *)
Definition isword (c : ascii) : bool :=
  let n := ord c in
  in_range 48 57 n || in_range 65 90 n || (n =? 95)%N || in_range 97 122 n
  || (n =? 170)%N || in_range 178 179 n || (n =? 181)%N
  || in_range 185 186 n || in_range 188 190 n
  || in_range 192 214 n || in_range 216 246 n || in_range 248 255 n.

Fixpoint lower (s : string) : string :=
  match s with
  | EmptyString => EmptyString
  | String c s' => String (lower_char c) (lower s')
  end.

Fixpoint lstrip (s : string) : string :=
  match s with
  | EmptyString => EmptyString
  | String c s' => if isspace c then lstrip s' else s
  end.

Fixpoint rstrip (s : string) : string :=
  match s with
  | EmptyString => EmptyString
  | String c s' =>
      match rstrip s' with
      | EmptyString => if isspace c then EmptyString else String c EmptyString
      | r => String c r
      end
  end.

(** [s.strip()] *)
Definition strip (s : string) : string := rstrip (lstrip s).

(** [len(s)] *)
Definition len (s : string) : nat := String.length s.

(** [s.count(c)] for a one-character needle. *)
Fixpoint count (c : ascii) (s : string) : nat :=
  match s with
  | EmptyString => 0
  | String d s' => (if Ascii.eqb c d then 1 else 0) + count c s'
  end.

(** [s.startswith(p)] *)
Fixpoint startswith (p s : string) : bool :=
  match p, s with
  | EmptyString, _ => true
  | String _ _, EmptyString => false
  | String a p', String b s' => Ascii.eqb a b && startswith p' s'
  end.

(** [p in s] *)
Fixpoint contains (p s : string) : bool :=
  startswith p s ||
  match s with
  | EmptyString => false
  | String _ s' => contains p s'
  end.

(** [s[:n]] for [n >= 0] *)
Fixpoint take (n : nat) (s : string) : string :=
  match n, s with
  | O, _ => EmptyString
  | S _, EmptyString => EmptyString
  | S n', String c s' => String c (take n' s')
  end.

(** [sep.join(parts)] *)
Fixpoint join (sep : string) (parts : list string) : string :=
  match parts with
  | [] => EmptyString
  | [p] => p
  | p :: rest => p +:+ sep +:+ join sep rest
  end.

Definition head (s : string) : option ascii :=
  match s with
  | EmptyString => None
  | String c _ => Some c
  end.

(** *** [re.search] for patterns of the shape [\b(a1|a2|...)\b] *)

Definition word_at (o : option ascii) : bool :=
  match o with
  | Some c => isword c
  | None => false
  end.

(** [\b] between the character before and the character after. *)
Definition boundary (prev next : option ascii) : bool :=
  xorb (word_at prev) (word_at next).

(** The literal [lit] at the head of [s], followed by [\b]. *)
Fixpoint lit_then_boundary (prev : option ascii) (lit s : string) : bool :=
  match lit with
  | EmptyString => boundary prev (head s)
  | String a lit' =>
      match s with
      | EmptyString => false
      | String b s' => Ascii.eqb a b && lit_then_boundary (Some b) lit' s'
      end
  end.

Definition match_here (prev : option ascii) (alts : list string) (s : string) : bool :=
  boundary prev (head s) && existsb (fun a => lit_then_boundary prev a s) alts.

Fixpoint search_from (prev : option ascii) (alts : list string) (s : string) : bool :=
  match_here prev alts s ||
  match s with
  | EmptyString => false
  | String c s' => search_from (Some c) alts s'
  end.

(** [bool(re.search(r"\b(a1|a2|...)\b", s))] *)
Definition search_words (alts : list string) (s : string) : bool :=
  search_from None alts s.

Definition nl : string := String (ascii_of_nat 10) EmptyString.

End Py.

(** ** rag.py: detail-level routing *)

Inductive DetailLevel := basic | standard | advanced.

Definition DetailLevel_str (l : DetailLevel) : string :=
  match l with
  | basic => "basic"
  | standard => "standard"
  | advanced => "advanced"
  end.

Definition has_code_block (m : string) : bool := Py.contains "```" m.

Definition has_cli (lower : string) : bool :=
  Py.search_words ["docker"; "kubectl"; "curl"; "pip"; "conda"; "apt-get"; "brew"] lower.

Definition has_logs (lower : string) : bool :=
  Py.search_words ["traceback"; "exception"; "stack trace"; "error:"; "warn["] lower.

Definition has_protocols (lower : string) : bool :=
  Py.search_words ["http"; "https"; "grpc"; "tcp"; "udp"; "oauth"; "jwt"] lower.

Definition has_acronyms (m : string) : bool :=
  Py.search_words
    ["RAG"; "LLM"; "API"; "SDK"; "TLS"; "SSL"; "CVE"; "XSS"; "CSRF"; "SQLi"; "RBAC"; "IAM"] m.

Definition long_or_multi (m : string) : bool :=
  (180 <? Py.len m) || (2 <=? Py.count "?"%char m) || (3 <=? Py.count (ascii_of_nat 10) m).

(** The six weighted signals, in the order of the source list. *)
Definition signal_weights (m : string) : list nat :=
  let lower := Py.lower m in
  [ if has_code_block m then 2 else 0
  ; if has_cli lower then 2 else 0
  ; if has_logs lower then 2 else 0
  ; if has_protocols lower then 1 else 0
  ; if has_acronyms m then 1 else 0
  ; if long_or_multi m then 1 else 0 ].

Definition advanced_score (m : string) : nat := list_sum (signal_weights m).

(** The disjunction tested by the [basic] branch. *)
Definition content_signal (m : string) : bool :=
  let lower := Py.lower m in
  has_cli lower || has_logs lower || has_protocols lower || has_acronyms m
  || has_code_block m.

Definition classify_detail_level (message : string) : DetailLevel :=
  let m := Py.strip message in
  if Py.len m =? 0 then basic
  else if 3 <=? advanced_score m then advanced
  else if (Py.len m <=? 60) && negb (content_signal m) then basic
  else standard.

(** ** Exceptions of the runtime and of the client libraries *)

Inductive exn :=
| JSONDecodeError
| TypeError
| IndexError
| RuntimeError (msg : string)
| TimeoutError
| HTTPStatusError (status : nat)
| TransportError (msg : string)
| MilvusException (msg : string)
| HTTPException (status_code : nat) (detail : string)
| RecursionError (msg : string)
| AttributeError (msg : string)
| ValidationError (model : string) (errors : nat).

(** A call either returns or raises. *)
Definition result (A : Type) : Type := A + exn.

Definition ret {A} (a : A) : result A := inl a.
Definition raise {A} (e : exn) : result A := inr e.

Definition bind {A B} (r : result A) (k : A -> result B) : result B :=
  match r with
  | inl a => k a
  | inr e => inr e
  end.

Notation "'let*' x ':=' c 'in' k" := (bind c (fun x => k))
  (at level 10, x name, c at level 100, k at level 200).

(** ** The [json] module of the host language: [loads] on a [str]

    The decoder follows the library's scanner: [scan_once] dispatches on
    the first character, [JSONArray] and [JSONObject] loop over items, and
    [scanstring] reads a string body in strict mode.  Decoded strings are
    lists of code points, because a [\uXXXX] escape may leave the range of
    [ascii].  The scanner enters one level of recursion for each array or
    object it opens, and the interpreter raises [RecursionError] when no
    level is left; the digit limit of integers is not part of the
    model. *)

Module Json.

Inductive value :=
| Null
| Bool (b : bool)
| Int (z : Z)
| Float (literal : string)
| Str (code_points : list N)
| Arr (items : list value)
| Obj (members : list (list N * value)).

Definition is_ws (c : ascii) : bool :=
  let n := Py.ord c in (n =? 32)%N || (n =? 9)%N || (n =? 10)%N || (n =? 13)%N.

Fixpoint skip_ws (s : string) : string :=
  match s with
  | EmptyString => EmptyString
  | String c s' => if is_ws c then skip_ws s' else s
  end.

Definition is_digit (c : ascii) : bool := Py.in_range 48 57 (Py.ord c).

Definition hexval (c : ascii) : option N :=
  let n := Py.ord c in
  if Py.in_range 48 57 n then Some (n - 48)%N
  else if Py.in_range 97 102 n then Some (n - 87)%N
  else if Py.in_range 65 70 n then Some (n - 55)%N
  else None.

Definition hex4 (a b c d : ascii) : option N :=
  match hexval a, hexval b, hexval c, hexval d with
  | Some x, Some y, Some z, Some w => Some (((x * 16 + y) * 16 + z) * 16 + w)%N
  | _, _, _, _ => None
  end.

(** The one-character escapes [BACKSLASH] of the decoder. *)
Definition simple_escape (c : ascii) : option N :=
  let n := Py.ord c in
  if (n =? 34)%N then Some 34%N          (* quote *)
  else if (n =? 92)%N then Some 92%N     (* backslash *)
  else if (n =? 47)%N then Some 47%N     (* slash *)
  else if (n =? 98)%N then Some 8%N      (* b *)
  else if (n =? 102)%N then Some 12%N    (* f *)
  else if (n =? 110)%N then Some 10%N    (* n *)
  else if (n =? 114)%N then Some 13%N    (* r *)
  else if (n =? 116)%N then Some 9%N     (* t *)
  else None.

(** Body of a string, after the opening quote, up to and including the
    closing quote.  Every escape yields one code point here; surrogate
    pairs are joined afterwards. *)
Fixpoint scanstring (s : string) : option (list N * string) :=
  match s with
  | EmptyString => None
  | String c s' =>
      let n := Py.ord c in
      if (n =? 34)%N then Some ([], s')
      else if (n =? 92)%N then
        match s' with
        | EmptyString => None
        | String e s'' =>
            if (Py.ord e =? 117)%N then
              match s'' with
              | String h1 (String h2 (String h3 (String h4 r))) =>
                  match hex4 h1 h2 h3 h4 with
                  | Some u =>
                      match scanstring r with
                      | Some (cps, rest) => Some (u :: cps, rest)
                      | None => None
                      end
                  | None => None
                  end
              | _ => None
              end
            else
              match simple_escape e with
              | Some u =>
                  match scanstring s'' with
                  | Some (cps, rest) => Some (u :: cps, rest)
                  | None => None
                  end
              | None => None
              end
        end
      else if (n <? 32)%N then None
      else
        match scanstring s' with
        | Some (cps, rest) => Some (n :: cps, rest)
        | None => None
        end
  end.

Definition is_high_surrogate (u : N) : bool := Py.in_range 55296 56319 u.
Definition is_low_surrogate (u : N) : bool := Py.in_range 56320 57343 u.

(** A high surrogate directly followed by a low one is one code point. *)
Fixpoint join_surrogates (cps : list N) : list N :=
  match cps with
  | [] => []
  | u :: rest =>
      match rest with
      | v :: rest' =>
          if is_high_surrogate u && is_low_surrogate v
          then (65536 + (u - 55296) * 1024 + (v - 56320))%N :: join_surrogates rest'
          else u :: join_surrogates rest
      | [] => [u]
      end
  end.

(** Longest prefix of decimal digits. *)
Fixpoint span_digits (s : string) : string * string :=
  match s with
  | EmptyString => (EmptyString, EmptyString)
  | String c s' =>
      if is_digit c
      then let (ds, rest) := span_digits s' in (String c ds, rest)
      else (EmptyString, s)
  end.

Fixpoint digits_value (acc : Z) (ds : string) : Z :=
  match ds with
  | EmptyString => acc
  | String c ds' => digits_value (acc * 10 + Z.of_N (Py.ord c - 48)) ds'
  end.

(** Integer part of [NUMBER_RE]: [0] alone or a digit run not starting
    with [0]. *)
Definition scan_int_part (s : string) : option (string * string) :=
  match s with
  | EmptyString => None
  | String c s' =>
      if (Py.ord c =? 48)%N then Some (String c EmptyString, s')
      else if is_digit c
      then let (ds, rest) := span_digits s' in Some (String c ds, rest)
      else None
  end.

(** Optional fraction [\.\d+] *)
Definition scan_frac (s : string) : string * string :=
  match s with
  | String c s' =>
      if (Py.ord c =? 46)%N then
        match span_digits s' with
        | (EmptyString, _) => (EmptyString, s)
        | (ds, rest) => (String c ds, rest)
        end
      else (EmptyString, s)
  | EmptyString => (EmptyString, s)
  end.

(** Optional exponent [[eE][-+]?\d+] *)
Definition scan_exp (s : string) : string * string :=
  match s with
  | String c s' =>
      if (Py.ord c =? 101)%N || (Py.ord c =? 69)%N then
        match s' with
        | String g s'' =>
            if (Py.ord g =? 43)%N || (Py.ord g =? 45)%N then
              match span_digits s'' with
              | (EmptyString, _) => (EmptyString, s)
              | (ds, rest) => (String c (String g ds), rest)
              end
            else
              match span_digits s' with
              | (EmptyString, _) => (EmptyString, s)
              | (ds, rest) => (String c ds, rest)
              end
        | EmptyString => (EmptyString, s)
        end
      else (EmptyString, s)
  | EmptyString => (EmptyString, s)
  end.

Definition scan_number (s : string) : option (value * string) :=
  let '(neg, s1) :=
    match s with
    | String c s' => if (Py.ord c =? 45)%N then (true, s') else (false, s)
    | EmptyString => (false, s)
    end in
  match scan_int_part s1 with
  | None => None
  | Some (ip, s2) =>
      let '(fp, s3) := scan_frac s2 in
      let '(ep, s4) := scan_exp s3 in
      match fp, ep with
      | EmptyString, EmptyString =>
          let z := digits_value 0 ip in
          Some (Int (if neg then - z else z), s4)
      | _, _ =>
          Some (Float ((if neg then "-" else "") +:+ ip +:+ fp +:+ ep), s4)
      end
  end.

Fixpoint drop (n : nat) (s : string) : string :=
  match n, s with
  | O, _ => s
  | S _, EmptyString => EmptyString
  | S n', String _ s' => drop n' s'
  end.

(** Outcome of a scan: a value and the unread input, a syntax error, or
    an exhausted step budget. *)
Inductive scan :=
| Found (v : value) (rest : string)
| Bad
| TooDeep (container : string)
| Exhausted.

Definition scan_constant (s : string) : scan :=
  if Py.startswith "null" s then Found Null (drop 4 s)
  else if Py.startswith "true" s then Found (Bool true) (drop 4 s)
  else if Py.startswith "false" s then Found (Bool false) (drop 5 s)
  else if Py.startswith "NaN" s then Found (Float "NaN") (drop 3 s)
  else if Py.startswith "Infinity" s then Found (Float "Infinity") (drop 8 s)
  else if Py.startswith "-Infinity" s then Found (Float "-Infinity") (drop 9 s)
  else
    match scan_number s with
    | Some (v, rest) => Found v rest
    | None => Bad
    end.

(** [scan_once] with [depth] levels of recursion left: an opening brace
    or bracket takes one level before anything else of the object or
    array is read, and its items are scanned with the levels that
    remain. *)
Fixpoint scan_once (fuel depth : nat) (s : string) : scan :=
  match fuel with
  | O => Exhausted
  | S fuel' =>
      match s with
      | EmptyString => Bad
      | String c r =>
          let n := Py.ord c in
          if (n =? 34)%N then
            match scanstring r with
            | Some (cps, rest) => Found (Str (join_surrogates cps)) rest
            | None => Bad
            end
          else if (n =? 123)%N then
            match depth with
            | O => TooDeep "object"
            | S depth' =>
                match skip_ws r with
                | String d r' =>
                    if (Py.ord d =? 125)%N then Found (Obj []) r'
                    else if (Py.ord d =? 34)%N then JSONObject fuel' depth' [] r'
                    else Bad
                | EmptyString => Bad
                end
            end
          else if (n =? 91)%N then
            match depth with
            | O => TooDeep "array"
            | S depth' =>
                match skip_ws r with
                | String d r' =>
                    if (Py.ord d =? 93)%N then Found (Arr []) r'
                    else JSONArray fuel' depth' [] (String d r')
                | EmptyString => Bad
                end
            end
          else scan_constant s
      end
  end

(** Items of an array; [s] starts at the next item. *)
with JSONArray (fuel depth : nat) (acc : list value) (s : string) : scan :=
  match fuel with
  | O => Exhausted
  | S fuel' =>
      match scan_once fuel' depth s with
      | Found v r =>
          match skip_ws r with
          | String d r' =>
              if (Py.ord d =? 93)%N then Found (Arr (rev (v :: acc))) r'
              else if (Py.ord d =? 44)%N then JSONArray fuel' depth (v :: acc) (skip_ws r')
              else Bad
          | EmptyString => Bad
          end
      | Bad => Bad
      | TooDeep container => TooDeep container
      | Exhausted => Exhausted
      end
  end

(** Members of an object; [s] starts just after the opening quote of
    the next key. *)
with JSONObject (fuel depth : nat) (acc : list (list N * value)) (s : string) : scan :=
  match fuel with
  | O => Exhausted
  | S fuel' =>
      match scanstring s with
      | None => Bad
      | Some (key, r) =>
          match skip_ws r with
          | String d r' =>
              if (Py.ord d =? 58)%N then
                match scan_once fuel' depth (skip_ws r') with
                | Found v r2 =>
                    let acc' := (join_surrogates key, v) :: acc in
                    match skip_ws r2 with
                    | String e r3 =>
                        if (Py.ord e =? 125)%N then Found (Obj (rev acc')) r3
                        else if (Py.ord e =? 44)%N then
                          match skip_ws r3 with
                          | String q r4 =>
                              if (Py.ord q =? 34)%N then JSONObject fuel' depth acc' r4
                              else Bad
                          | EmptyString => Bad
                          end
                        else Bad
                    | EmptyString => Bad
                    end
                | Bad => Bad
                | TooDeep container => TooDeep container
                | Exhausted => Exhausted
                end
              else Bad
          | EmptyString => Bad
          end
      end
  end.

(** Every recursive call of the scanner follows the reading of at least
    one character within the two preceding calls. *)
Definition budget (s : string) : nat := 2 * String.length s + 2.

Definition recursion_message (container : string) : string :=
  "maximum recursion depth exceeded while decoding a JSON " +:+ container
  +:+ " from a unicode string".

(** [json.loads(s)] for a [str] argument, in an interpreter that has
    [depth] levels of recursion left. *)
Definition loads_within (depth : nat) (s : string) : result value :=
  let s0 := skip_ws s in
  match scan_once (budget s0) depth s0 with
  | Found v rest =>
      match skip_ws rest with
      | EmptyString => ret v
      | String _ _ => raise JSONDecodeError
      end
  | TooDeep container => raise (RecursionError (recursion_message container))
  | Bad | Exhausted => raise JSONDecodeError
  end.

(** [sys.getrecursionlimit()] by default. *)
Definition RECURSION_LIMIT : nat := 1000.

(** [json.loads(s)] where the levels left are the most there can be: the
    call of the scanner takes one level of the limit itself.  The frames
    of the callers, which take further levels, are not counted. *)
Definition loads (s : string) : result value :=
  loads_within (RECURSION_LIMIT - 1) s.

(** *** [json.dumps] on a list of strings (default separators and
    [ensure_ascii]) *)

Definition hex_digit (n : N) : ascii :=
  ascii_of_N (if (n <? 10)%N then 48 + n else 87 + n).

Definition escape_char (c : ascii) : string :=
  let n := Py.ord c in
  let bs := String (ascii_of_nat 92) EmptyString in
  if (n =? 34)%N then bs +:+ String c EmptyString
  else if (n =? 92)%N then bs +:+ bs
  else if (n =? 10)%N then bs +:+ "n"
  else if (n =? 13)%N then bs +:+ "r"
  else if (n =? 9)%N then bs +:+ "t"
  else if (n =? 12)%N then bs +:+ "f"
  else if (n =? 8)%N then bs +:+ "b"
  else if Py.in_range 32 126 n then String c EmptyString
  else bs +:+ "u00" +:+ String (hex_digit (n / 16)) (String (hex_digit (n mod 16)) EmptyString).

Fixpoint escape (s : string) : string :=
  match s with
  | EmptyString => EmptyString
  | String c s' => escape_char c +:+ escape s'
  end.

Definition quote : string := String (ascii_of_nat 34) EmptyString.

Definition dumps_str (s : string) : string := quote +:+ escape s +:+ quote.

Definition dumps_list (tags : list string) : string :=
  "[" +:+ Py.join ", " (map dumps_str tags) +:+ "]".

End Json.

(** ** rag.py: style instructions and prompt building *)

(** A normalised source: the dictionary built by [retrieve_sources].
    Scores are floats on which the program performs no arithmetic; they
    are carried as rationals. *)
Record SourceRecord := {
  title : string;
  url : string;
  source : string;
  published_date : string;
  tags : Json.value;
  distance : Q;
  snippet : string;
}.

Definition _detail_instructions (level : DetailLevel) : string :=
  match level with
  | basic =>
      "Write for a beginner." +:+ Py.nl +:+
      "- Keep it short (3–8 sentences)." +:+ Py.nl +:+
      "- Explain jargon in plain language." +:+ Py.nl +:+
      "- Prefer bullets." +:+ Py.nl +:+
      "- Avoid deep implementation details unless asked." +:+ Py.nl
  | advanced =>
      "Write for a technical audience." +:+ Py.nl +:+
      "- Be precise." +:+ Py.nl +:+
      "- Include concrete steps, commands, and edge cases when helpful." +:+ Py.nl +:+
      "- Mention security/reliability considerations if relevant." +:+ Py.nl +:+
      "- If you make assumptions, state them." +:+ Py.nl
  | standard =>
      "Write at an intermediate level." +:+ Py.nl +:+
      "- Clear explanation with practical guidance." +:+ Py.nl +:+
      "- Use bullets and short sections." +:+ Py.nl +:+
      "- Include commands only when they add real value." +:+ Py.nl
  end.

(** [detail_level or classify_detail_level(user_message)]: the three
    level names are non-empty strings, hence truthy. *)
Definition selected_level (user_message : string) (detail_level : option DetailLevel)
  : DetailLevel :=
  match detail_level with
  | Some l => l
  | None => classify_detail_level user_message
  end.

(** One entry of [ctx_lines]: [f"[{i}] {title} ({url})\n{snippet}"]. *)
Definition ctx_line (i : nat) (s : SourceRecord) : string :=
  "[" +:+ pretty i +:+ "] " +:+ title s +:+ " (" +:+ url s +:+ ")" +:+ Py.nl +:+ snippet s.

(** The loop over [enumerate(sources, start=i)]. *)
Fixpoint ctx_lines_from (i : nat) (sources : list SourceRecord) : list string :=
  match sources with
  | [] => []
  | s :: rest => ctx_line i s :: ctx_lines_from (S i) rest
  end.

Definition context_of (sources : list SourceRecord) : string :=
  match ctx_lines_from 1 sources with
  | [] => "(no sources retrieved)"
  | lines => Py.join (Py.nl +:+ Py.nl) lines
  end.

Definition build_prompt (user_message : string) (sources : list SourceRecord)
    (detail_level : option DetailLevel) : string :=
  let level := selected_level user_message detail_level in
  let context := context_of sources in
  "You are a retrieval-augmented assistant." +:+ Py.nl +:+
  "Rules:" +:+ Py.nl +:+
  "1) Use ONLY the provided Sources for factual claims." +:+ Py.nl +:+
  "2) If Sources are insufficient, say what is missing and what you would check next." +:+ Py.nl +:+
  "3) When you cite a source, cite it inline like [1], [2]." +:+ Py.nl +:+
  "4) Do not invent URLs, quotes, or document titles." +:+ Py.nl +:+ Py.nl +:+
  "Response style:" +:+ Py.nl +:+ _detail_instructions level +:+ Py.nl +:+
  "Detail level selected: " +:+ DetailLevel_str level +:+ Py.nl +:+ Py.nl +:+
  "Sources:" +:+ Py.nl +:+ context +:+ Py.nl +:+ Py.nl +:+
  "User question:" +:+ Py.nl +:+ user_message +:+ Py.nl +:+ Py.nl +:+
  "Answer:" +:+ Py.nl.

(** The four regions of the prompt, named for the statements below. *)
Definition rules_preamble : string :=
  "You are a retrieval-augmented assistant." +:+ Py.nl +:+
  "Rules:" +:+ Py.nl +:+
  "1) Use ONLY the provided Sources for factual claims." +:+ Py.nl +:+
  "2) If Sources are insufficient, say what is missing and what you would check next." +:+ Py.nl +:+
  "3) When you cite a source, cite it inline like [1], [2]." +:+ Py.nl +:+
  "4) Do not invent URLs, quotes, or document titles." +:+ Py.nl +:+ Py.nl.

Definition style_block (level : DetailLevel) : string :=
  "Response style:" +:+ Py.nl +:+ _detail_instructions level +:+ Py.nl.

Definition level_line (level : DetailLevel) : string :=
  "Detail level selected: " +:+ DetailLevel_str level +:+ Py.nl.

Definition source_block (sources : list SourceRecord) : string :=
  Py.nl +:+ "Sources:" +:+ Py.nl +:+ context_of sources +:+ Py.nl +:+ Py.nl.

Definition question_block (user_message : string) : string :=
  "User question:" +:+ Py.nl +:+ user_message +:+ Py.nl +:+ Py.nl +:+ "Answer:" +:+ Py.nl.

(** ** schemas.py: the chat request model *)

Record ChatIn := {
  message : string;
  detail_level : option DetailLevel;
}.

(** A field of the request body as the client sent it. *)
Inductive provided (A : Type) :=
| Omitted
| ExplicitNull
| Given (a : A).
Arguments Omitted {A}.
Arguments ExplicitNull {A}.
Arguments Given {A} a.

Record ChatBody := {
  body_message : string;
  body_detail_level : provided DetailLevel;
}.

(** Validation of a request body against [ChatIn]: [message] has 2 to
    2000 characters; [detail_level] defaults to ["standard"] when the key
    is omitted, and accepts [null]. *)
Definition ChatIn_validate (b : ChatBody) : result ChatIn :=
  let n := Py.len (body_message b) in
  if (2 <=? n) && (n <=? 2000) then
    ret {| message := body_message b;
           detail_level :=
             match body_detail_level b with
             | Omitted => Some standard
             | ExplicitNull => None
             | Given l => Some l
             end |}
  else raise (HTTPException 422 "validation error").

(** ** schemas.py: the ingest request model *)

Module schemas.

Record ArticleIn := {
  title : string;
  url : string;
  source : string;
  published_date : string;
  text : string;
  tags : list string;
}.

(** The fields of a request body; [None] is a key left out. *)
Record ArticleBody := {
  body_title : option string;
  body_url : option string;
  body_source : option string;
  body_published_date : option string;
  body_text : option string;
  body_tags : option (list string);
}.

Definition at_most (n : nat) (s : string) : bool := Py.len s <=? n.

(** Validation of a request body against [ArticleIn]: [text] is required
    and has 1 to 30000 characters; the other strings default to [""] and
    are bounded; [tags] defaults to the empty list. *)
Definition ArticleIn_validate (b : ArticleBody) : result ArticleIn :=
  match body_text b with
  | None => raise (HTTPException 422 "validation error")
  | Some text =>
      let title := default "" (body_title b) in
      let url := default "" (body_url b) in
      let source := default "" (body_source b) in
      let published_date := default "" (body_published_date b) in
      if at_most 200 title && at_most 2048 url && at_most 200 source
         && at_most 30 published_date && (1 <=? Py.len text) && at_most 30000 text
      then ret {| title := title; url := url; source := source;
                  published_date := published_date; text := text;
                  tags := default [] (body_tags b) |}
      else raise (HTTPException 422 "validation error")
  end.

End schemas.

(** ** HTTP calls to the model server

    A POST either fails in transport or comes back with a status code and
    a body.  The body is a JSON object, of which [data] is what the
    caller reads out of it; or it is not JSON; or it is JSON of another
    type, named as the interpreter names it ([list], [str], ...).
    [raise_for_status] accepts the 2xx codes. *)

Inductive post_outcome (D : Type) :=
| ConnectionFailed (msg : string)
| Replied (status : nat) (data : D)
| RepliedNotJson (status : nat)
| RepliedNotObject (status : nat) (type_name : string).
Arguments ConnectionFailed {D} msg.
Arguments Replied {D} status data.
Arguments RepliedNotJson {D} status.
Arguments RepliedNotObject {D} status type_name.

Definition is_success (status : nat) : bool := (200 <=? status) && (status <=? 299).

Definition no_get_message (type_name : string) : string :=
  "'" +:+ type_name +:+ "' object has no attribute 'get'".

(** [r = await client.post(...); r.raise_for_status(); data = r.json()],
    up to the [data.get(...)] of the caller: the status is looked at
    first, then the body is decoded, then the entry is read. *)
Definition post_json {D} (o : post_outcome D) : result D :=
  match o with
  | ConnectionFailed msg => raise (TransportError msg)
  | Replied status data =>
      if is_success status then ret data else raise (HTTPStatusError status)
  | RepliedNotJson status =>
      if is_success status then raise JSONDecodeError
      else raise (HTTPStatusError status)
  | RepliedNotObject status type_name =>
      if is_success status then raise (AttributeError (no_get_message type_name))
      else raise (HTTPStatusError status)
  end.

(** ** embeddings.py *)

Module embeddings.

Definition OLLAMA_EMBED_MODEL : string := "nomic-embed-text".
Definition EMBEDDINGS_DIM : Z := 768.

(** Decoded body of [/api/embed]: the value under ["embeddings"], [None]
    when the key is missing or null. *)
Record EmbedData := { embeddings : option (list (list Q)) }.

(** The service: model name and input texts to the outcome of the POST. *)
Definition service : Type := string -> list string -> post_outcome EmbedData.

Definition no_embeddings_message : string :=
  "Ollama returned no embeddings for model '" +:+ OLLAMA_EMBED_MODEL +:+ "'. " +:+
  "Run: docker exec ollama ollama pull nomic-embed-text".

Definition embed_texts (ollama : service) (texts : list string)
  : result (list (list Q)) :=
  let* data := post_json (ollama OLLAMA_EMBED_MODEL texts) in
  let embeddings := default [] (embeddings data) in
  match embeddings with
  | [] => raise (RuntimeError no_embeddings_message)
  | _ :: _ => ret embeddings
  end.

End embeddings.

(** ** The vector store behind the client SDK

    The server holds named collections; each has a schema, a list of
    indexes and a loaded flag.  SDK calls run in a state monad over the
    server and record the requests they send. *)

Module pymilvus.

Inductive DataType := INT64 | FLOAT_VECTOR | VARCHAR.

Record FieldSchema := {
  name : string;
  dtype : DataType;
  is_primary : bool;
  auto_id : bool;
  dim : option Z;
  max_length : option Z;
}.

Record CollectionSchema := {
  fields : list FieldSchema;
  description : string;
  enable_dynamic_field : bool;
}.

Record IndexParams := {
  metric_type : string;
  index_type : string;
  M : Z;
  efConstruction : Z;
}.

Record Index := {
  field_name : string;
  index_params : IndexParams;
}.

Record CollectionState := {
  schema : CollectionSchema;
  indexes : list Index;
  loaded : bool;
}.

Record Server := {
  reachable : bool;
  collections : gmap string CollectionState;
}.

(** Requests sent to the server. *)
Inductive Call :=
| Connect
| HasCollection (collection : string)
| CreateCollection (collection : string)
| DescribeCollection (collection : string)
| HasIndex (collection : string)
| CreateIndex (collection : string) (field : string)
| Load (collection : string).

Definition is_create (c : Call) : bool :=
  match c with
  | CreateCollection _ | CreateIndex _ _ => true
  | _ => false
  end.

(** A client-side handle names its collection. *)
Abbreviation Collection := string (only parsing).

Definition sdk (A : Type) : Type := Server -> result A * Server * list Call.

Definition sdk_ret {A} (a : A) : sdk A := fun s => (ret a, s, []).

Definition sdk_bind {A B} (m : sdk A) (k : A -> sdk B) : sdk B :=
  fun s =>
    match m s with
    | (inl a, s1, calls1) =>
        let '(r, s2, calls2) := k a s1 in (r, s2, calls1 ++ calls2)
    | (inr e, s1, calls1) => (inr e, s1, calls1)
    end.

Definition set_collection (n : string) (c : CollectionState) (s : Server) : Server :=
  {| reachable := reachable s; collections := <[n := c]> (collections s) |}.

(** [connections.connect(...)] *)
Definition connect : sdk unit :=
  fun s =>
    if reachable s then (ret tt, s, [Connect])
    else (raise (MilvusException "connection failed"), s, [Connect]).

(** [utility.has_collection(name)] *)
Definition has_collection (n : string) : sdk bool :=
  fun s => (ret (bool_decide (is_Some (collections s !! n))), s, [HasCollection n]).

(** [Collection(name=n, schema=schema)]: creates the collection when the
    server does not have it. *)
Definition Collection_with_schema (n : string) (sch : CollectionSchema) : sdk Collection :=
  fun s =>
    match collections s !! n with
    | Some _ => (ret n, s, [DescribeCollection n])
    | None =>
        (ret n,
         set_collection n {| schema := sch; indexes := []; loaded := false |} s,
         [CreateCollection n])
    end.

(** [Collection(name=n)]: a handle on an existing collection. *)
Definition Collection_existing (n : string) : sdk Collection :=
  fun s =>
    match collections s !! n with
    | Some _ => (ret n, s, [DescribeCollection n])
    | None => (raise (MilvusException "collection not found"), s, [DescribeCollection n])
    end.

(** [collection.has_index()] *)
Definition has_index (c : Collection) : sdk bool :=
  fun s =>
    match collections s !! c with
    | Some st => (ret (negb (bool_decide (indexes st = []))), s, [HasIndex c])
    | None => (raise (MilvusException "collection not found"), s, [HasIndex c])
    end.

(** Whether the schema has a vector field of this name. *)
Definition has_vector_field (sch : CollectionSchema) (f : string) : bool :=
  existsb (fun fs => bool_decide (name fs = f)
                     && match dtype fs with FLOAT_VECTOR => true | _ => false end)
          (fields sch).

(** [collection.create_index(field_name=f, index_params=p)]: the server
    refuses a vector index on a field that the schema does not have. *)
Definition create_index (c : Collection) (f : string) (p : IndexParams) : sdk unit :=
  fun s =>
    match collections s !! c with
    | Some st =>
        if has_vector_field (schema st) f then
          (ret tt,
           set_collection c
             {| schema := schema st;
                indexes := indexes st ++ [{| field_name := f; index_params := p |}];
                loaded := loaded st |} s,
           [CreateIndex c f])
        else (raise (MilvusException "cannot create index on non-existent field"), s,
              [CreateIndex c f])
    | None => (raise (MilvusException "collection not found"), s, [CreateIndex c f])
    end.

(** [collection.load()] *)
Definition load (c : Collection) : sdk unit :=
  fun s =>
    match collections s !! c with
    | Some st =>
        (ret tt,
         set_collection c
           {| schema := schema st; indexes := indexes st; loaded := true |} s,
         [Load c])
    | None => (raise (MilvusException "collection not found"), s, [Load c])
    end.

(** Arguments of [collection.search]. *)
Record SearchRequest := {
  data : list (list Q);
  anns_field : string;
  search_metric_type : string;
  ef : Z;
  limit : Z;
  expr : option string;
  output_fields : list string;
}.

(** One hit: the requested columns of the row (a missing or null column
    has no entry) and the score. *)
Record Hit := {
  entity : gmap string string;
  score : Q;
}.

End pymilvus.

Notation "'let!' x ':=' c 'in' k" := (pymilvus.sdk_bind c (fun x => k))
  (at level 10, x name, c at level 100, k at level 200).

(** ** milvus_client.py *)

Module milvus_client.
Import pymilvus.

Definition MILVUS_COLLECTION : string := "LabDoc".
Definition EMBEDDINGS_DIM : Z := 768.
Definition HNSW_M : Z := 16.
Definition HNSW_EF_CONSTRUCT : Z := 200.

Definition _connect : sdk unit := connect.

Definition varchar (n : string) (len : Z) : FieldSchema :=
  {| name := n; dtype := VARCHAR; is_primary := false; auto_id := false;
     dim := None; max_length := Some len |}.

Definition _build_schema : CollectionSchema :=
  {| fields :=
       [ {| name := "id"; dtype := INT64; is_primary := true; auto_id := false;
            dim := None; max_length := None |}
       ; {| name := "embedding"; dtype := FLOAT_VECTOR; is_primary := false;
            auto_id := false; dim := Some EMBEDDINGS_DIM; max_length := None |}
       ; varchar "text" 65535
       ; varchar "title" 1024
       ; varchar "url" 2048
       ; varchar "source" 512
       ; varchar "published_date" 64
       ; varchar "tags" 2048 ];
     description := "RAG lab document collection — Milvus version";
     enable_dynamic_field := true |}.

Definition hnsw_index_params : IndexParams :=
  {| metric_type := "COSINE"; index_type := "HNSW";
     M := HNSW_M; efConstruction := HNSW_EF_CONSTRUCT |}.

Definition _ensure_index (collection : Collection) : sdk unit :=
  let! indexed := has_index collection in
  if indexed then sdk_ret tt
  else create_index collection "embedding" hnsw_index_params.

Definition ensure_collection : sdk Collection :=
  let! _ := _connect in
  let! present := has_collection MILVUS_COLLECTION in
  let! collection :=
    (if negb present
     then Collection_with_schema MILVUS_COLLECTION _build_schema
     else Collection_existing MILVUS_COLLECTION) in
  let! _ := _ensure_index collection in
  let! _ := load collection in
  sdk_ret collection.

(** The tags column written by [insert_doc]:
    [json.dumps(doc.get("tags") or [])[:2048]]. *)
Definition stored_tags (tags : option (list string)) : string :=
  Py.take 2048 (Json.dumps_list (default [] tags)).


(** [embed_texts] delegates to embeddings.py. *)
Definition embed_texts (ollama : embeddings.service) (texts : list string)
  : result (list (list Q)) :=
  embeddings.embed_texts ollama texts.

(** [int.from_bytes(bs, "big")] *)
Definition from_bytes_big (bs : list Byte.byte) : Z :=
  fold_left (fun acc b => acc * 256 + Z.of_N (Byte.to_N b))%Z bs 0%Z.

(** [_make_id], from the 16 bytes of the fresh UUID. *)
Definition _make_id (raw : list Byte.byte) : Z :=
  Z.land (from_bytes_big (firstn 8 raw)) 0x7FFFFFFFFFFFFFFF.

(** The dictionary handed to [insert_doc]; [None] is a key that is
    missing or null. *)
Record Doc := {
  text : option string;
  title : option string;
  url : option string;
  source : option string;
  published_date : option string;
  tags : option (list string);
}.

(** [article.model_dump(mode="json")] *)
Definition model_dump (a : schemas.ArticleIn) : Doc :=
  {| text := Some (schemas.text a);
     title := Some (schemas.title a);
     url := Some (schemas.url a);
     source := Some (schemas.source a);
     published_date := Some (schemas.published_date a);
     tags := Some (schemas.tags a) |}.

(** One inserted row: primary key, vector, and the string columns. *)
Record Row := {
  row_id : Z;
  row_embedding : list Q;
  row_columns : gmap string string;
}.

(** The [data] of [insert_doc], for the stripped text and its vector. *)
Definition insert_data (point_id : Z) (vec : list Q) (text : string) (doc : Doc) : Row :=
  {| row_id := point_id;
     row_embedding := vec;
     row_columns :=
       {[ "text" := Py.take 65535 text;
          "title" := Py.take 1024 (default "" (title doc));
          "url" := Py.take 2048 (default "" (url doc));
          "source" := Py.take 512 (default "" (source doc));
          "published_date" := Py.take 64 (default "" (published_date doc));
          "tags" := stored_tags (tags doc) ]} |}.

(** The server with the rows of the collection: those a search sees, and
    those written but not yet flushed; and the fault, if any, with which
    the server answers a flush request. *)
Record Store := {
  server : Server;
  rows : list Row;
  unflushed : list Row;
  flush_fault : option string;
}.






End milvus_client.

(** ** rag.py: retrieval *)

Definition RAG_TOP_K : Z := 4.
Definition RAG_MAX_SOURCE_CHARS : nat := 800.

(** [x or d] for a string column that may be absent. *)
Definition get_or (e : gmap string string) (key d : string) : string :=
  match e !! key with
  | Some v => if String.eqb v "" then d else v
  | None => d
  end.

(** [k or d]: [None] and [0] are falsy. *)
Definition top_k_or_default_with (d : Z) (k : option Z) : Z :=
  match k with
  | Some n => if (n =? 0)%Z then d else n
  | None => d
  end.

(** [k or RAG_TOP_K] *)
Definition top_k_or_default (k : option Z) : Z :=
  top_k_or_default_with RAG_TOP_K k.

(** The [try: json.loads(raw_tags) except (JSONDecodeError, TypeError)]
    block, with [depth] levels of recursion left for the decoder. *)
Definition parse_tags_within (depth : nat) (raw_tags : string) : result Json.value :=
  match Json.loads_within depth raw_tags with
  | inl v => ret v
  | inr JSONDecodeError => ret (Json.Arr [])
  | inr TypeError => ret (Json.Arr [])
  | inr e => raise e
  end.

Definition parse_tags (raw_tags : string) : result Json.value :=
  parse_tags_within (Json.RECURSION_LIMIT - 1) raw_tags.

(** Body of the loop over [results[0]]. *)
Definition source_of_hit_within (depth : nat) (hit : pymilvus.Hit) : result SourceRecord :=
  let entity := pymilvus.entity hit in
  let raw_tags := get_or entity "tags" "[]" in
  let* tags := parse_tags_within depth raw_tags in
  let full_text := get_or entity "text" "" in
  ret {| title := get_or entity "title" "";
         url := get_or entity "url" "";
         source := get_or entity "source" "";
         published_date := get_or entity "published_date" "";
         tags := tags;
         distance := pymilvus.score hit;
         snippet := Py.take RAG_MAX_SOURCE_CHARS full_text |}.

Definition source_of_hit (hit : pymilvus.Hit) : result SourceRecord :=
  source_of_hit_within (Json.RECURSION_LIMIT - 1) hit.

Fixpoint sources_of_hits (hits : list pymilvus.Hit) : result (list SourceRecord) :=
  match hits with
  | [] => ret []
  | hit :: rest =>
      let* s := source_of_hit hit in
      let* ss := sources_of_hits rest in
      ret (s :: ss)
  end.

Definition search_request (qvec : list Q) (k : Z) : pymilvus.SearchRequest :=
  {| pymilvus.data := [qvec];
     pymilvus.anns_field := "embedding";
     pymilvus.search_metric_type := "COSINE";
     pymilvus.ef := Z.max (k * 4) 64;
     pymilvus.limit := k;
     pymilvus.expr := None;
     pymilvus.output_fields := ["text"; "title"; "url"; "source"; "published_date"; "tags"] |}.

(** What lies outside the process: the model server, the vector store and
    its answer to a search, and how long each stage of a chat takes. *)
Record World := {
  ollama_embed : embeddings.service;
  milvus : pymilvus.Server;
  milvus_search : pymilvus.SearchRequest -> result (list pymilvus.Hit);
  ollama_generate_reply : string -> post_outcome (option string);
  retrieve_ms : Z;
  prompt_ms : Z;
  generate_ms : Z;
}.

(** The request that [retrieve_sources] sends for a query vector. *)
Definition retrieve_request (qvec : list Q) (k : option Z) : pymilvus.SearchRequest :=
  search_request qvec (top_k_or_default k).

(** [retrieve_sources]; the store is left as [ensure_collection] leaves
    it, which the result does not show. *)
Definition retrieve_sources (w : World) (query : string) (k : option Z)
  : result (list SourceRecord) :=
  let k := top_k_or_default k in
  let* vectors := embeddings.embed_texts (ollama_embed w) [query] in
  match vectors with
  | [] => raise IndexError
  | qvec :: _ =>
      let '(r, _, _) := milvus_client.ensure_collection (milvus w) in
      let* collection := r in
      let* hits := milvus_search w (search_request qvec k) in
      sources_of_hits hits
  end.

(** [ollama_generate]: the reply text, or [""] when absent, stripped. *)
Definition ollama_generate (w : World) (prompt : string) : result string :=
  let* response := post_json (ollama_generate_reply w prompt) in
  ret (Py.strip (default "" response)).

(** ** The store's boolean filter expressions

    The fragment of the expression language that the memory query emits:
    [field like 'pattern'] clauses joined by [or].  In a pattern [%]
    stands for any run of characters, [_] for any one character, and a
    backslash makes the next wildcard literal. *)

Module milvus_expr.

Definition is_wildcard (c : ascii) : bool :=
  Ascii.eqb c "%" || Ascii.eqb c "_".

Fixpoint like (p s : string) : bool :=
  match p with
  | EmptyString =>
      match s with
      | EmptyString => true
      | String _ _ => false
      end
  | String c p' =>
      if Ascii.eqb c "%" then
        (fix any (t : string) : bool :=
           like p' t ||
           match t with
           | EmptyString => false
           | String _ t' => any t'
           end) s
      else if Ascii.eqb c "_" then
        match s with
        | EmptyString => false
        | String _ s' => like p' s'
        end
      else
        let literal :=
          match s with
          | EmptyString => false
          | String d s' => Ascii.eqb c d && like p' s'
          end in
        if Ascii.eqb c (ascii_of_nat 92) then
          match p' with
          | String w p'' =>
              if is_wildcard w then
                match s with
                | EmptyString => false
                | String d s' => Ascii.eqb w d && like p'' s'
                end
              else literal
          | EmptyString => literal
          end
        else literal
  end.

Definition is_ident_char (c : ascii) : bool :=
  let n := Py.ord c in
  Py.in_range 48 57 n || Py.in_range 65 90 n || (n =? 95)%N || Py.in_range 97 122 n.

Fixpoint read_ident (s : string) : string * string :=
  match s with
  | EmptyString => (EmptyString, EmptyString)
  | String c s' =>
      if is_ident_char c
      then let (i, rest) := read_ident s' in (String c i, rest)
      else (EmptyString, s)
  end.

(** Body of a single-quoted literal, up to the closing quote. *)
Fixpoint read_quoted (s : string) : option (string * string) :=
  match s with
  | EmptyString => None
  | String c s' =>
      if Ascii.eqb c "'" then Some (EmptyString, s')
      else
        match read_quoted s' with
        | Some (body, rest) => Some (String c body, rest)
        | None => None
        end
  end.

Fixpoint strip_prefix (p s : string) : option string :=
  match p with
  | EmptyString => Some s
  | String a p' =>
      match s with
      | EmptyString => None
      | String b s' => if Ascii.eqb a b then strip_prefix p' s' else None
      end
  end.

(** [clause (" or " clause)*] as a list of (field, pattern). *)
Fixpoint parse (fuel : nat) (s : string) : option (list (string * string)) :=
  match fuel with
  | O => None
  | S fuel' =>
      let (field, r1) := read_ident s in
      match field with
      | EmptyString => None
      | String _ _ =>
          match strip_prefix " like '" r1 with
          | None => None
          | Some r2 =>
              match read_quoted r2 with
              | None => None
              | Some (pattern, r3) =>
                  match r3 with
                  | EmptyString => Some [(field, pattern)]
                  | String _ _ =>
                      match strip_prefix " or " r3 with
                      | None => None
                      | Some r4 =>
                          match parse fuel' r4 with
                          | Some cs => Some ((field, pattern) :: cs)
                          | None => None
                          end
                      end
                  end
              end
          end
      end
  end.

Definition clause_holds (row : gmap string string) (c : string * string) : bool :=
  match row !! c.1 with
  | Some v => like c.2 v
  | None => false
  end.

(** Whether a row satisfies the expression; [None] when the expression
    is outside the fragment. *)
Definition eval (expr : string) (row : gmap string string) : option bool :=
  match parse (S (String.length expr)) expr with
  | Some cs => Some (existsb (clause_holds row) cs)
  | None => None
  end.

(** A row is a search candidate when there is no filter or the filter
    holds. *)
Definition candidate (expr : option string) (row : gmap string string) : bool :=
  match expr with
  | None => true
  | Some e => default false (eval e row)
  end.

End milvus_expr.

(** ** security_memory/store.py: the memory query *)

Module store.

Definition SECURITY_TOP_K : Z := 6.

Record MemoryQueryIn := {
  query : string;
  tags : option (list string);
  top_k : option Z;
}.

(** [f'tags like \'%"{tag}"%\''] *)
Definition tag_clause (tag : string) : string :=
  "tags like '%" +:+ Json.quote +:+ tag +:+ Json.quote +:+ "%'".

(** The filter expression: absent unless [payload.tags] is a non-empty
    list. *)
Definition build_expr (tags : option (list string)) : option string :=
  match tags with
  | Some (t :: ts) => Some (Py.join " or " (map tag_clause (t :: ts)))
  | Some [] | None => None
  end.

Definition search_request (payload : MemoryQueryIn) (qvec : list Q)
  : pymilvus.SearchRequest :=
  let top_k := top_k_or_default_with SECURITY_TOP_K (top_k payload) in
  {| pymilvus.data := [qvec];
     pymilvus.anns_field := "embedding";
     pymilvus.search_metric_type := "COSINE";
     pymilvus.ef := Z.max (top_k * 4) 64;
     pymilvus.limit := top_k;
     pymilvus.expr := build_expr (tags payload);
     pymilvus.output_fields := ["text"; "title"; "source"; "tags"; "chunk_index"; "doc_path"] |}.

(** Whether the search of [payload] keeps a row with the given [tags]
    column among its candidates. *)
Definition row_is_candidate (payload : MemoryQueryIn) (tags_column : string) : bool :=
  milvus_expr.candidate (build_expr (tags payload)) {[ "tags" := tags_column ]}.








Definition SECURITY_COLLECTION : string := "ExpandedVSCodeMemory".
Definition SECURITY_EMBED_DIM : Z := 768.

(** Validation of a request body against [MemoryQueryIn]: [query] has 2
    to 5000 characters; [top_k], when given, lies between 1 and 25. *)
Definition MemoryQueryIn_validate (b : MemoryQueryIn) : result MemoryQueryIn :=
  let n := Py.len (query b) in
  if (2 <=? n) && (n <=? 5000)
     && match top_k b with
        | Some k => (1 <=? k)%Z && (k <=? 25)%Z
        | None => true
        end
  then ret b
  else raise (HTTPException 422 "validation error").

Definition _build_security_schema : pymilvus.CollectionSchema :=
  {| pymilvus.fields :=
       [ {| pymilvus.name := "id"; pymilvus.dtype := pymilvus.INT64;
            pymilvus.is_primary := true; pymilvus.auto_id := true;
            pymilvus.dim := None; pymilvus.max_length := None |}
       ; {| pymilvus.name := "embedding"; pymilvus.dtype := pymilvus.FLOAT_VECTOR;
            pymilvus.is_primary := false; pymilvus.auto_id := false;
            pymilvus.dim := Some SECURITY_EMBED_DIM; pymilvus.max_length := None |}
       ; milvus_client.varchar "text" 65535
       ; milvus_client.varchar "title" 1024
       ; milvus_client.varchar "source" 512
       ; milvus_client.varchar "tags" 2048
       ; {| pymilvus.name := "chunk_index"; pymilvus.dtype := pymilvus.INT64;
            pymilvus.is_primary := false; pymilvus.auto_id := false;
            pymilvus.dim := None; pymilvus.max_length := None |}
       ; milvus_client.varchar "doc_path" 2048 ];
     pymilvus.description := "Security memory corpus";
     pymilvus.enable_dynamic_field := false |}.

Definition security_index_params : pymilvus.IndexParams :=
  {| pymilvus.metric_type := "COSINE"; pymilvus.index_type := "HNSW";
     pymilvus.M := 16; pymilvus.efConstruction := 200 |}.

Definition _ensure_collection : pymilvus.sdk string :=
  let! _ := pymilvus.connect in
  let! present := pymilvus.has_collection SECURITY_COLLECTION in
  let! collection :=
    (if negb present
     then
       let! collection :=
         pymilvus.Collection_with_schema SECURITY_COLLECTION _build_security_schema in
       let! _ := pymilvus.create_index collection "embedding" security_index_params in
       pymilvus.sdk_ret collection
     else pymilvus.Collection_existing SECURITY_COLLECTION) in
  let! _ := pymilvus.load collection in
  pymilvus.sdk_ret collection.

End store.

(** ** main.py: the chat orchestrator

    An awaited call is described by how long it runs and how it ends.
    Budgets are in seconds, durations in milliseconds. *)

Module main.

Record Config := {
  EDGE_API_KEY : string;
  RETRIEVE_TIMEOUT_S : Z;
  PROMPT_TIMEOUT_S : Z;
  OLLAMA_TIMEOUT_S : Z;
  CHAT_TOTAL_TIMEOUT_S : Z;
}.

Definition default_config (key : string) : Config :=
  {| EDGE_API_KEY := key;
     RETRIEVE_TIMEOUT_S := 10;
     PROMPT_TIMEOUT_S := 5;
     OLLAMA_TIMEOUT_S := 120;
     CHAT_TOTAL_TIMEOUT_S := 180 |}.

Record timed (A : Type) := {
  took : Z;
  outcome : result A;
}.
Arguments took {A} t.
Arguments outcome {A} t.

(** [await asyncio.wait_for(aw, timeout=timeout_s)]: a call that runs
    longer than the budget is abandoned when the budget is spent and
    [asyncio.TimeoutError] is raised in its place. *)
Definition wait_for {A} (aw : timed A) (timeout_s : Z) : timed A :=
  if (1000 * timeout_s <? took aw)%Z
  then {| took := 1000 * timeout_s; outcome := raise TimeoutError |}
  else aw.

(** Sequencing: the continuation receives the value and the time the
    first call took. *)
Definition and_then {A B} (a : timed A) (k : A -> Z -> timed B) : timed B :=
  match outcome a with
  | inl x =>
      let b := k x (took a) in
      {| took := took a + took b; outcome := outcome b |}
  | inr e => {| took := took a; outcome := inr e |}
  end.

Record ChatResult := {
  answer : string;
  sources : list SourceRecord;
  timing_retrieve : Z;
  timing_prompt : Z;
  timing_generate : Z;
  timing_total : Z;
  _prompt_chars : nat;
}.

Definition _chat_impl (cfg : Config) (w : World) (message rid : string)
    (detail_level : option DetailLevel) : timed ChatResult :=
  and_then
    (wait_for {| took := retrieve_ms w; outcome := retrieve_sources w message None |}
              (RETRIEVE_TIMEOUT_S cfg))
    (fun sources t_retr =>
  and_then
    (wait_for {| took := prompt_ms w;
                 outcome := ret (build_prompt message sources detail_level) |}
              (PROMPT_TIMEOUT_S cfg))
    (fun prompt t_pr =>
  and_then
    (wait_for {| took := generate_ms w; outcome := ollama_generate w prompt |}
              (OLLAMA_TIMEOUT_S cfg))
    (fun answer t_llm =>
       {| took := 0;
          outcome := ret {| answer := answer;
                            sources := sources;
                            timing_retrieve := t_retr;
                            timing_prompt := t_pr;
                            timing_generate := t_llm;
                            timing_total := t_retr + t_pr + t_llm;
                            _prompt_chars := Py.len prompt |} |}))).

Definition require_api_key (cfg : Config) (x_api_key : option string) : result unit :=
  if String.eqb (EDGE_API_KEY cfg) "" then
    raise (HTTPException 500 "EDGE_API_KEY is not set on the server.")
  else
    let incoming := default "" x_api_key in
    if String.eqb incoming "" then raise (HTTPException 401 "Missing X-API-Key header.")
    else if negb (String.eqb incoming (EDGE_API_KEY cfg))
    then raise (HTTPException 403 "Invalid API key.")
    else ret tt.

(** [str(e)] in the generic handler.  The position that a decoding error
    reports is not modelled, and of a validation report only the headline
    is. *)
Definition str_of_exn (e : exn) : string :=
  match e with
  | RuntimeError msg | TransportError msg | MilvusException msg => msg
  | RecursionError msg | AttributeError msg => msg
  | HTTPStatusError status => "HTTP status " +:+ pretty status
  | HTTPException _ detail => detail
  | IndexError => "list index out of range"
  | ValidationError model errors =>
      pretty errors +:+ " validation error" +:+ (if errors =? 1 then "" else "s")
      +:+ " for " +:+ model
  | JSONDecodeError | TypeError | TimeoutError => ""
  end.

Record ChatOut := {
  out_answer : string;
  out_sources : list SourceRecord;
}.

(** The [/chat] handler.  The request counters and the log lines are
    left out. *)
Definition chat (cfg : Config) (w : World) (payload : ChatIn)
    (x_api_key : option string) (rid : string) : result ChatOut :=
  let* _ := require_api_key cfg x_api_key in
  match outcome (wait_for (_chat_impl cfg w (message payload) rid (detail_level payload))
                          (CHAT_TOTAL_TIMEOUT_S cfg)) with
  | inl result =>
      ret {| out_answer := answer result; out_sources := sources result |}
  | inr TimeoutError => raise (HTTPException 504 "Chat timed out.")
  | inr e => raise (HTTPException 500 (str_of_exn e))
  end.

(** The level that the prompt of a chat request is built with. *)
Definition chat_detail_level (payload : ChatIn) : DetailLevel :=
  selected_level (message payload) (detail_level payload).

(** The route [POST /chat]: the framework validates the body against
    [ChatIn] and answers 422 itself when that fails; only then does the
    handler run, and with it the key check. *)
Definition post_chat (cfg : Config) (w : World) (body : ChatBody)
    (x_api_key : option string) (rid : string) : result ChatOut :=
  let* payload := ChatIn_validate body in
  chat cfg w payload x_api_key rid.


(** The request counters of the module. *)
Record Counters := {
  INGEST_COUNT : nat;
  CHAT_COUNT : nat;
  ERROR_COUNT : nat;
}.

Definition count_chat (c : Counters) : Counters :=
  {| INGEST_COUNT := INGEST_COUNT c; CHAT_COUNT := S (CHAT_COUNT c);
     ERROR_COUNT := ERROR_COUNT c |}.

Definition count_error (c : Counters) : Counters :=
  {| INGEST_COUNT := INGEST_COUNT c; CHAT_COUNT := CHAT_COUNT c;
     ERROR_COUNT := S (ERROR_COUNT c) |}.

(** The [/chat] handler with its counters. *)
Definition chat_counting (cfg : Config) (w : World) (payload : ChatIn)
    (x_api_key : option string) (rid : string) (c : Counters)
  : result ChatOut * Counters :=
  match require_api_key cfg x_api_key with
  | inr e => (inr e, c)
  | inl _ =>
      match outcome (wait_for (_chat_impl cfg w (message payload) rid (detail_level payload))
                              (CHAT_TOTAL_TIMEOUT_S cfg)) with
      | inl result =>
          (ret {| out_answer := answer result; out_sources := sources result |},
           count_chat c)
      | inr TimeoutError => (raise (HTTPException 504 "Chat timed out."), count_error c)
      | inr e => (raise (HTTPException 500 (str_of_exn e)), count_error c)
      end
  end.

(** [/debug/retrieve] *)
Definition debug_retrieve (cfg : Config) (w : World) (q : string)
    (x_api_key : option string) : result (string * list SourceRecord) :=
  let* _ := require_api_key cfg x_api_key in
  match outcome (wait_for {| took := retrieve_ms w; outcome := retrieve_sources w q None |}
                          (RETRIEVE_TIMEOUT_S cfg)) with
  | inl sources => ret (q, sources)
  | inr TimeoutError => raise (HTTPException 504 "Retrieve timed out.")
  | inr e => raise (HTTPException 500 (str_of_exn e))
  end.

Record PromptOut := {
  prompt : string;
  prompt_sources : list SourceRecord;
  prompt_chars : nat;
}.

(** [/debug/prompt] *)
Definition debug_prompt (cfg : Config) (w : World) (payload : ChatIn)
    (x_api_key : option string) : result PromptOut :=
  let* _ := require_api_key cfg x_api_key in
  match outcome
          (and_then
             (wait_for {| took := retrieve_ms w;
                          outcome := retrieve_sources w (message payload) None |}
                       (RETRIEVE_TIMEOUT_S cfg))
             (fun sources _ =>
           and_then
             (wait_for {| took := prompt_ms w;
                          outcome := ret (build_prompt (message payload) sources
                                                       (detail_level payload)) |}
                       (PROMPT_TIMEOUT_S cfg))
             (fun prompt _ =>
                {| took := 0;
                   outcome := ret {| prompt := prompt; prompt_sources := sources;
                                     prompt_chars := Py.len prompt |} |}))) with
  | inl out => ret out
  | inr TimeoutError => raise (HTTPException 504 "Prompt build timed out.")
  | inr e => raise (HTTPException 500 (str_of_exn e))
  end.

(** [/debug/chat] *)
Definition debug_chat (cfg : Config) (w : World) (payload : ChatIn)
    (x_api_key : option string) (rid : string) : result ChatResult :=
  let* _ := require_api_key cfg x_api_key in
  match outcome (wait_for (_chat_impl cfg w (message payload) rid (detail_level payload))
                          (CHAT_TOTAL_TIMEOUT_S cfg)) with
  | inl result => ret result
  | inr TimeoutError => raise (HTTPException 504 "debug/chat timed out.")
  | inr e => raise (HTTPException 500 (str_of_exn e))
  end.

(** [/debug/ollama]: one handler for every exception; the answer stands
    for the returned dictionary, whose other entries are constants. *)
Definition debug_ollama (cfg : Config) (w : World) (payload : ChatIn)
    (x_api_key : option string) : result string :=
  let* _ := require_api_key cfg x_api_key in
  match outcome (wait_for {| took := generate_ms w;
                             outcome := ollama_generate w (message payload) |}
                          (OLLAMA_TIMEOUT_S cfg)) with
  | inl answer => ret answer
  | inr e => raise (HTTPException 500 (str_of_exn e))
  end.

End main.

(** ** gradio-ui/app.py: the request of the chat UI *)

Module gradio_ui.

(** The body [{"message": message}] that [chat_fn] posts to [/chat]. *)
Definition chat_payload (message : string) : ChatBody :=
  {| body_message := message; body_detail_level := Omitted |}.

End gradio_ui.

(** * Vocabulary of the statements *)

(** The decision rule in the words of the specification: [advanced] from
    a score of 3; otherwise [basic] for a blank query, or for one of at
    most 60 characters on which none of the six signals fired; otherwise
    [standard]. *)
Definition no_signal_fired (m : string) : bool :=
  negb (content_signal m) && negb (long_or_multi m).

Definition decision_rule_as_specified (message : string) : DetailLevel :=
  let m := Py.strip message in
  if 3 <=? advanced_score m then advanced
  else if (Py.len m =? 0) || ((Py.len m <=? 60) && no_signal_fired m) then basic
  else standard.

(** The collection as [ensure_collection] leaves it. *)
Definition loaded_copy (c : pymilvus.CollectionState) : pymilvus.CollectionState :=
  {| pymilvus.schema := pymilvus.schema c;
     pymilvus.indexes := pymilvus.indexes c;
     pymilvus.loaded := true |}.

(** The requests of [ensure_collection] on a collection that exists and
    is indexed. *)
Definition calls_on_existing : list pymilvus.Call :=
  [ pymilvus.Connect;
    pymilvus.HasCollection milvus_client.MILVUS_COLLECTION;
    pymilvus.DescribeCollection milvus_client.MILVUS_COLLECTION;
    pymilvus.HasIndex milvus_client.MILVUS_COLLECTION;
    pymilvus.Load milvus_client.MILVUS_COLLECTION ].

(** Characters with a meaning of their own in a quoted pattern. *)
Definition is_meta (c : ascii) : bool :=
  Ascii.eqb c "'" || Ascii.eqb c "%" || Ascii.eqb c "_" || Ascii.eqb c (ascii_of_nat 92).

Fixpoint plain (s : string) : bool :=
  match s with
  | EmptyString => true
  | String c s' => negb (is_meta c) && plain s'
  end.

Fixpoint no_apostrophe (s : string) : bool :=
  match s with
  | EmptyString => true
  | String c s' => negb (Ascii.eqb c "'") && no_apostrophe s'
  end.

(** The filter in the words of the specification: the column contains
    one of the requested tags as a substring. *)
Definition plain_substring_filter (tags : list string) (tags_column : string) : bool :=
  existsb (fun tag => Py.contains tag tags_column) tags.

Definition quoted (tag : string) : string := Json.quote +:+ tag +:+ Json.quote.

Definition tag_pattern (tag : string) : string := "%" +:+ quoted tag +:+ "%".

Definition is_quote (c : ascii) : bool := Ascii.eqb c (ascii_of_nat 34).

(** A character that [json.dumps] writes as itself: printable ASCII other
    than the double quote and the backslash. *)
Definition is_ordinary (c : ascii) : bool :=
  Py.in_range 32 126 (Py.ord c) && negb (is_quote c)
  && negb (Ascii.eqb c (ascii_of_nat 92)).

Fixpoint ordinary (s : string) : bool :=
  match s with
  | EmptyString => true
  | String c s' => is_ordinary c && ordinary s'
  end.

(** The pieces of a text between its double quotes. *)
Fixpoint segments (s : string) : list string :=
  match s with
  | EmptyString => [EmptyString]
  | String c s' =>
      if is_quote c then EmptyString :: segments s'
      else
        match segments s' with
        | h :: t => String c h :: t
        | [] => [String c EmptyString]
        end
  end.

Fixpoint intersperse (sep : string) (l : list string) : list string :=
  match l with
  | [] => []
  | [x] => [x]
  | x :: rest => x :: sep :: intersperse sep rest
  end.

(** The generation stage is reached in time and overruns its budget. *)
Definition generation_overruns (cfg : main.Config) (w : World) (payload : ChatIn) : Prop :=
  (retrieve_ms w <= 1000 * main.RETRIEVE_TIMEOUT_S cfg)%Z
  /\ (exists sources, retrieve_sources w (message payload) None = inl sources)
  /\ (prompt_ms w <= 1000 * main.PROMPT_TIMEOUT_S cfg)%Z
  /\ (1000 * main.OLLAMA_TIMEOUT_S cfg < generate_ms w)%Z.

(** Every stage stays within its own budget and succeeds, and together
    they overrun the total budget. *)
Definition total_overruns (cfg : main.Config) (w : World) (payload : ChatIn) : Prop :=
  (retrieve_ms w <= 1000 * main.RETRIEVE_TIMEOUT_S cfg)%Z
  /\ (exists sources,
        retrieve_sources w (message payload) None = inl sources
        /\ exists answer,
             ollama_generate w (build_prompt (message payload) sources
                                             (detail_level payload)) = inl answer)
  /\ (prompt_ms w <= 1000 * main.PROMPT_TIMEOUT_S cfg)%Z
  /\ (generate_ms w <= 1000 * main.OLLAMA_TIMEOUT_S cfg)%Z
  /\ (1000 * main.CHAT_TOTAL_TIMEOUT_S cfg
      < retrieve_ms w + prompt_ms w + generate_ms w)%Z.

Definition chat_timed_out : result main.ChatOut :=
  inr (HTTPException 504 "Chat timed out.").

(** The code points of a text, and a list of texts as a decoded value. *)
Fixpoint code_points (s : string) : list N :=
  match s with
  | EmptyString => []
  | String c s' => Py.ord c :: code_points s'
  end.

Definition json_strings (l : list string) : Json.value :=
  Json.Arr (map (fun s => Json.Str (code_points s)) l).

(** What decoding the tags column of a written row can give: a value or
    a decoding error. *)
Definition parse_result (r : result Json.value) : Prop :=
  match r with
  | inl _ | inr JSONDecodeError => True
  | inr _ => False
  end.

(** The scanner gave the text up: it found no value, and not for want of
    levels. *)
Definition rejected (x : Json.scan) : Prop :=
  match x with
  | Json.Bad | Json.Exhausted => True
  | Json.Found _ _ | Json.TooDeep _ => False
  end.

(** The hit that a search returns for a stored row: its six output
    columns and a score. *)
Definition hit_of_row (row : milvus_client.Row) (score : Q) : pymilvus.Hit :=
  {| pymilvus.entity := milvus_client.row_columns row; pymilvus.score := score |}.

(** The row that [insert_doc] writes for a document whose stripped text
    embeds to [vec]. *)
Definition row_written (raw_uuid : list Byte.byte) (vec : list Q)
    (doc : milvus_client.Doc) : milvus_client.Row :=
  milvus_client.insert_data (milvus_client._make_id raw_uuid) vec
    (Py.strip (default "" (milvus_client.text doc))) doc.

(** A text of whitespace only. *)
Fixpoint all_space (s : string) : bool :=
  match s with
  | EmptyString => true
  | String c s' => Py.isspace c && all_space s'
  end.

(** A request body that gives the text and nothing else. *)
Definition body_with_text (text : string) : schemas.ArticleBody :=
  {| schemas.body_title := None; schemas.body_url := None;
     schemas.body_source := None; schemas.body_published_date := None;
     schemas.body_text := Some text; schemas.body_tags := None |}.


(** The character before the boundary that closes a literal. *)
Fixpoint last_before (prev : option ascii) (lit : string) : option ascii :=
  match lit with
  | EmptyString => prev
  | String a lit' => last_before (Some a) lit'
  end.

(** The text [lit] occurs in [s] with a word character right after it. *)
Definition followed_by_word (lit s : string) : Prop :=
  exists c : ascii,
    Py.isword c = true /\ Py.contains (lit +:+ String c EmptyString) s = true.


(** A text of [n] opening brackets. *)
Fixpoint brackets (n : nat) : string :=
  match n with
  | O => EmptyString
  | S n' => String "[" (brackets n')
  end.

(** * Sample data *)

Definition example_source : SourceRecord :=
  {| title := "TLS notes"; url := "https://example.org/tls"; source := "lab";
     published_date := "2024-01-01"; tags := Json.Arr [];
     distance := 1 # 2; snippet := "X uses TLS 1.3" |}.

(** A chat request without a [detail_level] key, and its validated form. *)
Definition chat_body_without_level : ChatBody :=
  {| body_message := "hi"; body_detail_level := Omitted |}.

Definition chat_without_level : ChatIn :=
  {| message := "hi"; detail_level := Some standard |}.

(** A hit on a document ingested with 200 tags: their dump has 3400
    characters and was cut at 2048, in the middle of the list. *)
Definition hit_with_cut_tags : pymilvus.Hit :=
  {| pymilvus.entity :=
       {[ "title" := "TLS notes"; "text" := "X uses TLS 1.3";
          "tags" := milvus_client.stored_tags (Some (repeat "observability" 200)) ]};
     pymilvus.score := 9 # 10 |}.



(** A server on which a first call has already run. *)
Definition indexed_collection : pymilvus.CollectionState :=
  {| pymilvus.schema := milvus_client._build_schema;
     pymilvus.indexes :=
       [ {| pymilvus.field_name := "embedding";
            pymilvus.index_params := milvus_client.hnsw_index_params |} ];
     pymilvus.loaded := false |}.

Definition server_with_collection : pymilvus.Server :=
  {| pymilvus.reachable := true;
     pymilvus.collections := {[ milvus_client.MILVUS_COLLECTION := indexed_collection ]} |}.

Definition docker_query : store.MemoryQueryIn :=
  {| store.query := "container hardening";
     store.tags := Some ["docker"];
     store.top_k := None |}.

Definition go_query : store.MemoryQueryIn :=
  {| store.query := "modules"; store.tags := Some ["go"]; store.top_k := None |}.

Definition separator_query : store.MemoryQueryIn :=
  {| store.query := "lists"; store.tags := Some [", "]; store.top_k := None |}.

(** Two runs under one configuration (budgets 10 s, 5 s, 120 s; total
    125 s): in the first the generation stage overruns its budget after
    121.01 s in all; in the second every stage is within its budget and
    the total is overrun. *)
Definition tight_config : main.Config :=
  {| main.EDGE_API_KEY := "secret";
     main.RETRIEVE_TIMEOUT_S := 10;
     main.PROMPT_TIMEOUT_S := 5;
     main.OLLAMA_TIMEOUT_S := 120;
     main.CHAT_TOTAL_TIMEOUT_S := 125 |}.

Definition lab_world (retrieve prompt generate : Z) : World :=
  {| ollama_embed := fun _ _ =>
       Replied 200 {| embeddings.embeddings := Some [[1 # 2; 1 # 3]] |};
     milvus := server_with_collection;
     milvus_search := fun _ => ret [hit_with_cut_tags];
     ollama_generate_reply := fun _ => Replied 200 (Some "X uses TLS 1.3 [1]");
     retrieve_ms := retrieve;
     prompt_ms := prompt;
     generate_ms := generate |}.

Definition slow_generation : World := lab_world 1000 10 121000.

Definition slow_overall : World := lab_world 9000 1000 119000.

Definition tls_question : ChatIn :=
  {| message := "What protocol does X use?"; detail_level := Some standard |}.


Definition one_letter_body : ChatBody :=
  {| body_message := "X"; body_detail_level := Omitted |}.

(** An article as submitted, the bytes of a UUID, a model server that
    answers with one 768-dimensional vector per text, and a reachable
    server without collections. *)
Definition sample_body : schemas.ArticleBody :=
  {| schemas.body_title := Some "Milvus";
     schemas.body_url := Some "https://example.org/milvus";
     schemas.body_source := None;
     schemas.body_published_date := Some "2024-05-01";
     schemas.body_text := Some "  Milvus stores vectors.  ";
     schemas.body_tags := Some ["milvus"; "vector"] |}.

Definition sample_article : schemas.ArticleIn :=
  {| schemas.title := "Milvus";
     schemas.url := "https://example.org/milvus";
     schemas.source := "";
     schemas.published_date := "2024-05-01";
     schemas.text := "  Milvus stores vectors.  ";
     schemas.tags := ["milvus"; "vector"] |}.

Definition sample_uuid : list Byte.byte :=
  [ Byte.xf4; Byte.x7a; Byte.xc1; Byte.x0b; Byte.x58; Byte.xcc; Byte.x43; Byte.x72;
    Byte.xa5; Byte.x67; Byte.x0e; Byte.x02; Byte.xb2; Byte.xc3; Byte.xd4; Byte.x79 ].

Definition sample_vector : list Q := repeat (1 # 2) 768.


Definition empty_store : milvus_client.Store :=
  {| milvus_client.server :=
       {| pymilvus.reachable := true; pymilvus.collections := ∅ |};
     milvus_client.rows := [];
     milvus_client.unflushed := [];
     milvus_client.flush_fault := None |}.

(** A document with 200 tags, whose dump has 3400 characters. *)
Definition doc_with_many_tags : milvus_client.Doc :=
  {| milvus_client.text := Some "X uses TLS 1.3";
     milvus_client.title := Some "TLS notes";
     milvus_client.url := None;
     milvus_client.source := None;
     milvus_client.published_date := None;
     milvus_client.tags := Some (repeat "observability" 200) |}.

(** A server that holds the memory collection without an index. *)
Definition server_with_unindexed_memory : pymilvus.Server :=
  {| pymilvus.reachable := true;
     pymilvus.collections :=
       {[ store.SECURITY_COLLECTION :=
            {| pymilvus.schema := store._build_security_schema;
               pymilvus.indexes := [];
               pymilvus.loaded := false |} ]} |}.

(** The server and the requests after a first [ensure_collection] on a
    reachable server without collections. *)
Definition server_after_first_call : pymilvus.Server :=
  {| pymilvus.reachable := true;
     pymilvus.collections :=
       {[ milvus_client.MILVUS_COLLECTION :=
            {| pymilvus.schema := milvus_client._build_schema;
               pymilvus.indexes :=
                 [ {| pymilvus.field_name := "embedding";
                      pymilvus.index_params := milvus_client.hnsw_index_params |} ];
               pymilvus.loaded := true |} ]} |}.

Definition calls_of_first_call : list pymilvus.Call :=
  [ pymilvus.Connect;
    pymilvus.HasCollection milvus_client.MILVUS_COLLECTION;
    pymilvus.CreateCollection milvus_client.MILVUS_COLLECTION;
    pymilvus.HasIndex milvus_client.MILVUS_COLLECTION;
    pymilvus.CreateIndex milvus_client.MILVUS_COLLECTION "embedding";
    pymilvus.Load milvus_client.MILVUS_COLLECTION ].






(** A memory query whose only tag is the wildcard character. *)
Definition wildcard_query : store.MemoryQueryIn :=
  {| store.query := "anything"; store.tags := Some ["%"]; store.top_k := Some 5%Z |}.

(** What [/debug/prompt] returns for the sample question. *)
Definition retrieved_tls_source : SourceRecord :=
  {| title := "TLS notes"; url := ""; source := ""; published_date := "";
     tags := Json.Arr []; distance := 9 # 10; snippet := "X uses TLS 1.3" |}.

Definition tls_prompt_out : main.PromptOut :=
  {| main.prompt :=
       build_prompt "What protocol does X use?" [retrieved_tls_source] (Some standard);
     main.prompt_sources := [retrieved_tls_source];
     main.prompt_chars :=
       Py.len (build_prompt "What protocol does X use?" [retrieved_tls_source]
                 (Some standard)) |}.

(** A hit whose tags column is a thousand opening brackets, and a hit of
    the memory search whose tags column is the text [null]. *)
Definition hit_with_nested_tags : pymilvus.Hit :=
  {| pymilvus.entity :=
       {[ "title" := "TLS notes"; "text" := "X uses TLS 1.3";
          "tags" := brackets 1000 ]};
     pymilvus.score := 9 # 10 |}.


(** * Properties *)

(** ** The detail-level classifier *)

Lemma len_zero_empty (m : string) : Py.len m = 0 -> m = EmptyString.
Proof. destruct m; simpl; [reflexivity | discriminate]. Qed.

Lemma advanced_score_empty : advanced_score EmptyString = 0.
Proof. reflexivity. Qed.

(** The score written out as the weighted sum of the six signals. *)
Lemma advanced_score_weights (m : string) :
  advanced_score m =
    (if has_code_block m then 2 else 0) + (if has_cli (Py.lower m) then 2 else 0)
    + (if has_logs (Py.lower m) then 2 else 0)
    + (if has_protocols (Py.lower m) then 1 else 0)
    + (if has_acronyms m then 1 else 0) + (if long_or_multi m then 1 else 0).
Proof. unfold advanced_score, signal_weights; simpl; lia. Qed.

Lemma list_sum_permutation (l l' : list nat) :
  Permutation l l' -> list_sum l = list_sum l'.
Proof.
  induction 1 as [ | x l l' _ IH | x y l | l l' l'' _ IH1 _ IH2 ]; simpl.
  - reflexivity.
  - now rewrite IH.
  - lia.
  - congruence.
Qed.

(** Without a content signal only the structural signal can count. *)
Lemma quiet_score_le_1 (m : string) :
  content_signal m = false -> advanced_score m <= 1.
Proof.
  unfold content_signal; intros H.
  repeat (apply orb_false_elim in H; destruct H as [H ?]).
  rewrite advanced_score_weights.
  repeat match goal with E : _ = false |- _ => rewrite E; clear E end.
  destruct (long_or_multi m); simpl; lia.
Qed.

Lemma classify_unfold (q : string) :
  classify_detail_level q =
    if Py.len (Py.strip q) =? 0 then basic
    else if 3 <=? advanced_score (Py.strip q) then advanced
    else if (Py.len (Py.strip q) <=? 60) && negb (content_signal (Py.strip q)) then basic
    else standard.
Proof. reflexivity. Qed.

(** C2, as the code has it: the query scores 2, from the CLI signal
    alone, and is classified [standard]. *)
Theorem classify_docker_run_standard :
  signal_weights (Py.strip "docker run -it ubuntu") = [0; 2; 0; 0; 0; 0]
  /\ long_or_multi (Py.strip "docker run -it ubuntu") = false
  /\ advanced_score (Py.strip "docker run -it ubuntu") = 2
  /\ classify_detail_level "docker run -it ubuntu" = standard.
Proof.
  split; [vm_compute; reflexivity | ].
  split; [vm_compute; reflexivity | ].
  split; vm_compute; reflexivity.
Qed.

(** C2 as stated fails: the score does not reach 3 and the level is not
    [advanced]. *)
Lemma classify_docker_run_not_advanced :
  ~ (3 <= advanced_score (Py.strip "docker run -it ubuntu")
     /\ classify_detail_level "docker run -it ubuntu" = advanced).
Proof.
  intros [_ H].
  assert (E : classify_detail_level "docker run -it ubuntu" = standard)
    by (vm_compute; reflexivity).
  rewrite E in H; discriminate.
Qed.

(** C5, as the code has it: [advanced] exactly from a score of 3 on a
    non-blank query; [basic] exactly for a blank query or one of at most 60
    characters with none of the five content signals (the structural
    signal is not consulted); [standard] in every other case.  The score
    is the sum of the six weights in any order. *)
Theorem classify_decision_rule (q : string) :
  let m := Py.strip q in
  (classify_detail_level q = advanced <-> 3 <= advanced_score m)
  /\ (classify_detail_level q = basic <->
        m = EmptyString \/ (Py.len m <= 60 /\ content_signal m = false))
  /\ (classify_detail_level q = standard <->
        m <> EmptyString /\ advanced_score m < 3
        /\ (60 < Py.len m \/ content_signal m = true))
  /\ (forall ws, Permutation ws (signal_weights m) -> list_sum ws = advanced_score m).
Proof.
  intros m. rewrite classify_unfold. fold m.
  assert (Hq := quiet_score_le_1 m).
  split; [ | split; [ | split ] ].
  - destruct (Nat.eqb_spec (Py.len m) 0) as [E | E].
    + apply len_zero_empty in E. rewrite E, advanced_score_empty.
      split; [discriminate | lia].
    + destruct (Nat.leb_spec 3 (advanced_score m)).
      * split; [lia | reflexivity].
      * destruct ((Py.len m <=? 60) && negb (content_signal m));
          (split; [discriminate | lia]).
  - destruct (Nat.eqb_spec (Py.len m) 0) as [E | E].
    + apply len_zero_empty in E. split; [now left | reflexivity].
    + assert (m <> EmptyString) by (intros ->; now apply E).
      destruct (Nat.leb_spec 3 (advanced_score m)).
      * split; [discriminate | ].
        intros [? | [_ Hc]]; [contradiction | ]. apply Hq in Hc. lia.
      * destruct (Nat.leb_spec (Py.len m) 60);
          destruct (content_signal m); simpl.
        -- split; [discriminate | ]. intros [? | [_ ?]]; [contradiction | discriminate].
        -- split; [ | reflexivity]. intros _. right. split; [lia | reflexivity].
        -- split; [discriminate | ]. intros [? | [? _]]; [contradiction | lia].
        -- split; [discriminate | ]. intros [? | [? _]]; [contradiction | lia].
  - destruct (Nat.eqb_spec (Py.len m) 0) as [E | E].
    + apply len_zero_empty in E. split; [discriminate | ]. intros [? _]; contradiction.
    + assert (m <> EmptyString) by (intros ->; now apply E).
      destruct (Nat.leb_spec 3 (advanced_score m)).
      * split; [discriminate | ]. intros (_ & ? & _); lia.
      * destruct (Nat.leb_spec (Py.len m) 60);
          destruct (content_signal m) eqn:Hc; simpl.
        -- split; [ | reflexivity]. intros _. repeat split; auto.
        -- split; [discriminate | ]. intros (_ & _ & [? | ?]); [lia | discriminate].
        -- split; [ | reflexivity]. intros _. repeat split; auto.
        -- split; [ | reflexivity]. intros _. repeat split; auto.
  - intros ws Hp. unfold advanced_score. now apply list_sum_permutation.
Qed.

(** The rule at a short question with two question marks. *)
Lemma classify_decision_rule_witness :
  (classify_detail_level "why? how?" = basic <->
     Py.strip "why? how?" = EmptyString
     \/ (Py.len (Py.strip "why? how?") <= 60
         /\ content_signal (Py.strip "why? how?") = false)).
Proof. exact (proj1 (proj2 (classify_decision_rule "why? how?"))). Defined.

(** C5 as stated fails: for a short query whose only signal is the
    structural one, the rule of the specification gives [standard] and the
    classifier gives [basic]. *)
Lemma classify_ignores_structural_signal :
  long_or_multi (Py.strip "why? how?") = true
  /\ no_signal_fired (Py.strip "why? how?") = false
  /\ decision_rule_as_specified "why? how?" = standard
  /\ classify_detail_level "why? how?" = basic
  /\ ~ (forall q, classify_detail_level q = decision_rule_as_specified q).
Proof.
  assert (E1 : decision_rule_as_specified "why? how?" = standard)
    by (vm_compute; reflexivity).
  assert (E2 : classify_detail_level "why? how?" = basic)
    by (vm_compute; reflexivity).
  split; [vm_compute; reflexivity | ].
  split; [vm_compute; reflexivity | ].
  split; [exact E1 | ].
  split; [exact E2 | ].
  intros H. specialize (H "why? how?"). rewrite E1, E2 in H. discriminate.
Qed.

(** ** The prompt builder *)

Lemma append_assoc (a b c : string) : (a +:+ b) +:+ c = a +:+ (b +:+ c).
Proof.
  induction a as [ | x a IH]; [reflexivity | ].
  change (String x ((a +:+ b) +:+ c) = String x (a +:+ (b +:+ c))).
  now f_equal.
Qed.

(** The prompt is the concatenation of its four regions; the level enters
    the second and third only. *)
Lemma build_prompt_regions (q : string) (sources : list SourceRecord)
    (d : option DetailLevel) :
  build_prompt q sources d =
    rules_preamble +:+ style_block (selected_level q d)
    +:+ level_line (selected_level q d) +:+ source_block sources +:+ question_block q.
Proof.
  unfold build_prompt, rules_preamble, style_block, level_line, source_block,
    question_block.
  rewrite !append_assoc. reflexivity.
Qed.

(** C6: [build_prompt] is a function of (question, sources, tier), so
    equal arguments give equal prompts; and with the question and the
    sources fixed, the tier reaches only the style-instruction block and
    the "Detail level selected" line: the rules preamble before them and
    the source block and verbatim question after them do not depend on
    it. *)
Theorem build_prompt_pure_and_tier_local (q : string) (sources : list SourceRecord) :
  (forall q' sources' d d',
      q' = q -> sources' = sources -> d' = d ->
      build_prompt q' sources' d' = build_prompt q sources d)
  /\ (forall tier,
        build_prompt q sources (Some tier) =
          rules_preamble +:+ style_block tier +:+ level_line tier
          +:+ source_block sources +:+ question_block q).
Proof.
  split.
  - intros q' sources' d d' -> -> ->. reflexivity.
  - intros tier. apply (build_prompt_regions q sources (Some tier)).
Qed.

Lemma build_prompt_pure_and_tier_local_witness :
  build_prompt "What protocol does X use?" [example_source] (Some basic)
  = build_prompt "What protocol does X use?" [example_source] (Some basic)
  /\ build_prompt "What protocol does X use?" [example_source] (Some advanced) =
       rules_preamble +:+ style_block advanced +:+ level_line advanced
       +:+ source_block [example_source] +:+ question_block "What protocol does X use?".
Proof.
  destruct (build_prompt_pure_and_tier_local "What protocol does X use?" [example_source])
    as [Hpure Htier].
  split.
  - apply Hpure; reflexivity.
  - apply Htier.
Defined.

(** ** Level selection in a chat request *)

(** C3, as the code has it: [build_prompt] called without a level uses the
    classifier's; in a chat request a [detail_level] key left out takes the
    schema default [standard] and the classifier is not consulted, an
    explicit [null] selects classification, and an explicit level is used
    as given.  The prompt of the request is built with that level. *)
Theorem chat_level_selection (b : ChatBody) (p : ChatIn) :
  ChatIn_validate b = inl p ->
  main.chat_detail_level p =
    match body_detail_level b with
    | Omitted => standard
    | ExplicitNull => classify_detail_level (body_message b)
    | Given l => l
    end
  /\ (forall sources,
        build_prompt (message p) sources (detail_level p) =
        build_prompt (message p) sources (Some (main.chat_detail_level p)))
  /\ (forall q sources,
        build_prompt q sources None =
        build_prompt q sources (Some (classify_detail_level q))).
Proof.
  unfold ChatIn_validate. intros H.
  destruct ((2 <=? Py.len (body_message b)) && (Py.len (body_message b) <=? 2000));
    [ | discriminate].
  injection H as <-. unfold main.chat_detail_level; simpl.
  split; [ | split].
  - destruct (body_detail_level b); reflexivity.
  - intros sources. rewrite !build_prompt_regions.
    destruct (body_detail_level b); reflexivity.
  - intros q sources. rewrite !build_prompt_regions. reflexivity.
Qed.

Lemma chat_level_selection_witness :
  main.chat_detail_level chat_without_level = standard.
Proof.
  exact (proj1 (chat_level_selection chat_body_without_level chat_without_level eq_refl)).
Defined.

(** C3 as stated fails: a request that leaves [detail_level] out is
    answered at [standard] although the classifier puts its question at
    [basic]; the prompt is not the one the classifier's level would give. *)
Lemma chat_default_level_bypasses_classifier :
  body_detail_level chat_body_without_level = Omitted
  /\ ChatIn_validate chat_body_without_level = inl chat_without_level
  /\ main.chat_detail_level chat_without_level = standard
  /\ classify_detail_level (message chat_without_level) = basic
  /\ build_prompt (message chat_without_level) [] (detail_level chat_without_level)
     <> build_prompt (message chat_without_level) []
          (Some (classify_detail_level (message chat_without_level))).
Proof.
  split; [reflexivity | ]. split; [reflexivity | ]. split; [reflexivity | ].
  split; [vm_compute; reflexivity | ].
  intros H. vm_compute in H. discriminate H.
Qed.

(** ** The JSON decoder

    The scanner is driven by a step budget; the lemmas below show that the
    budget of [loads] always suffices, so that [loads] fails on syntax
    errors only. *)

Section JsonBudget.
Import Json.

Lemma skip_ws_length (s : string) : String.length (skip_ws s) <= String.length s.
Proof.
  induction s as [ | c s IH]; simpl; [lia | ].
  destruct (is_ws c); simpl; lia.
Qed.

Lemma skip_ws_cons (s : string) (d : ascii) (r : string) :
  skip_ws s = String d r -> String.length r < String.length s.
Proof.
  intros E. pose proof (skip_ws_length s) as H. rewrite E in H. simpl in H. lia.
Qed.

Lemma scanstring_length (s : string) (cps : list N) (r : string) :
  scanstring s = Some (cps, r) -> String.length r < String.length s.
Proof.
  remember (String.length s) as n eqn:Hn. revert s Hn cps r.
  induction n as [n IH] using lt_wf_ind. intros s Hn cps r.
  destruct s as [ | c s]; simpl; [discriminate | ].
  destruct (Py.ord c =? 34)%N.
  { intros [= <- <-]. simpl in Hn. lia. }
  destruct (Py.ord c =? 92)%N.
  - destruct s as [ | e s]; [discriminate | ].
    destruct (Py.ord e =? 117)%N.
    + destruct s as [ | h1 [ | h2 [ | h3 [ | h4 s]]]]; try discriminate.
      destruct (hex4 h1 h2 h3 h4); [ | discriminate].
      destruct (scanstring s) as [[cps' r'] | ] eqn:E; [ | discriminate].
      intros [= <- <-]. apply (IH (String.length s)) in E; simpl in *; lia.
    + destruct (simple_escape e); [ | discriminate].
      destruct (scanstring s) as [[cps' r'] | ] eqn:E; [ | discriminate].
      intros [= <- <-]. apply (IH (String.length s)) in E; simpl in *; lia.
  - destruct (Py.ord c <? 32)%N; [discriminate | ].
    destruct (scanstring s) as [[cps' r'] | ] eqn:E; [ | discriminate].
    intros [= <- <-]. apply (IH (String.length s)) in E; simpl in *; lia.
Qed.

Lemma span_digits_length (s ds r : string) :
  span_digits s = (ds, r) -> String.length r <= String.length s.
Proof.
  revert ds r; induction s as [ | c s IH]; simpl; intros ds r.
  - intros [= <- <-]. simpl. lia.
  - destruct (is_digit c).
    + destruct (span_digits s) as [ds' r'] eqn:E. intros [= <- <-].
      specialize (IH _ _ eq_refl). lia.
    + intros [= <- <-]. simpl. lia.
Qed.

Lemma scan_int_part_length (s ip r : string) :
  scan_int_part s = Some (ip, r) -> String.length r < String.length s.
Proof.
  destruct s as [ | c s]; simpl; [discriminate | ].
  destruct (Py.ord c =? 48)%N; [intros [= <- <-]; lia | ].
  destruct (is_digit c); [ | discriminate].
  destruct (span_digits s) as [ds r'] eqn:E. intros [= <- <-].
  apply span_digits_length in E. lia.
Qed.

Lemma scan_frac_length (s fp r : string) : scan_frac s = (fp, r) -> String.length r <= String.length s.
Proof.
  destruct s as [ | c s]; simpl; [intros [= <- <-]; simpl; lia | ].
  destruct (Py.ord c =? 46)%N; [ | intros [= <- <-]; simpl; lia].
  destruct (span_digits s) as [ds r'] eqn:E. apply span_digits_length in E.
  destruct ds; intros [= <- <-]; simpl; lia.
Qed.

Lemma scan_exp_length (s ep r : string) : scan_exp s = (ep, r) -> String.length r <= String.length s.
Proof.
  destruct s as [ | c s]; simpl; [intros [= <- <-]; simpl; lia | ].
  destruct ((Py.ord c =? 101)%N || (Py.ord c =? 69)%N); [ | intros [= <- <-]; simpl; lia].
  destruct s as [ | g s]; [intros [= <- <-]; simpl; lia | ].
  destruct ((Py.ord g =? 43)%N || (Py.ord g =? 45)%N).
  - destruct (span_digits s) as [ds r'] eqn:E. apply span_digits_length in E.
    destruct ds; intros [= <- <-]; simpl; lia.
  - destruct (span_digits (String g s)) as [ds r'] eqn:E. apply span_digits_length in E.
    destruct ds; intros [= <- <-]; simpl in *; lia.
Qed.

Lemma scan_number_length (s : string) (v : value) (r : string) :
  scan_number s = Some (v, r) -> String.length r < String.length s.
Proof.
  unfold scan_number.
  set (p := match s with
            | EmptyString => (false, s)
            | String c s' => if (Py.ord c =? 45)%N then (true, s') else (false, s)
            end).
  assert (Hp : String.length (snd p) <= String.length s).
  { subst p. destruct s as [ | c s]; simpl; [lia | ].
    destruct (Py.ord c =? 45)%N; simpl; lia. }
  destruct p as [neg s1]. simpl in Hp.
  destruct (scan_int_part s1) as [[ip s2] | ] eqn:E1; [ | discriminate].
  apply scan_int_part_length in E1.
  destruct (scan_frac s2) as [fp s3] eqn:E2. apply scan_frac_length in E2.
  destruct (scan_exp s3) as [ep s4] eqn:E3. apply scan_exp_length in E3.
  destruct fp; destruct ep; intros [= <- <-]; lia.
Qed.

Lemma drop_length (n : nat) (s : string) : String.length (drop n s) = String.length s - n.
Proof.
  revert s; induction n as [ | n IH]; intros [ | c s]; simpl; try lia. apply IH.
Qed.

Lemma startswith_length (p s : string) : Py.startswith p s = true -> String.length p <= String.length s.
Proof.
  revert s; induction p as [ | a p IH]; intros [ | b s]; simpl; try lia; try discriminate.
  intros H. apply andb_prop in H as [_ H]. apply IH in H. lia.
Qed.

Lemma found_after_drop (n : nat) (s : string) (v0 v : value) (r : string) :
  0 < n -> n <= String.length s -> Found v0 (drop n s) = Found v r -> String.length r < String.length s.
Proof.
  intros Hn Hs E. assert (Er : r = drop n s) by congruence.
  rewrite Er, drop_length. lia.
Qed.

Lemma scan_constant_length (s : string) (v : value) (r : string) :
  scan_constant s = Found v r -> String.length r < String.length s.
Proof.
  unfold scan_constant.
  repeat match goal with
         | |- (if Py.startswith ?p s then _ else _) = _ -> _ =>
             let H := fresh "H" in
             destruct (Py.startswith p s) eqn:H;
             [ apply startswith_length in H; simpl in H;
               apply found_after_drop; [lia | exact H] | clear H ]
         end.
  destruct (scan_number s) as [[v' r'] | ] eqn:E; [ | discriminate].
  intros [= <- <-]. now apply scan_number_length in E.
Qed.

(** Whatever the scanner finds, it has read at least one character. *)
Lemma scanner_progress (fuel : nat) :
  (forall depth s v r,
     scan_once fuel depth s = Found v r -> String.length r < String.length s)
  /\ (forall depth acc s v r,
        JSONArray fuel depth acc s = Found v r -> String.length r < String.length s)
  /\ (forall depth acc s v r,
        JSONObject fuel depth acc s = Found v r -> String.length r < String.length s).
Proof.
  induction fuel as [ | fuel (IH1 & IH2 & IH3)];
    [repeat split; intros; discriminate | ].
  split; [ | split].
  - intros depth s v r. simpl.
    destruct s as [ | c s]; [discriminate | ].
    destruct (Py.ord c =? 34)%N.
    { destruct (scanstring s) as [[cps rest] | ] eqn:E; [ | discriminate].
      intros [= <- <-]. apply scanstring_length in E. simpl. lia. }
    destruct (Py.ord c =? 123)%N.
    { destruct depth as [ | depth]; [discriminate | ].
      destruct (skip_ws s) as [ | d r'] eqn:E; [discriminate | ].
      apply skip_ws_cons in E.
      destruct (Py.ord d =? 125)%N; [intros [= <- <-]; simpl; lia | ].
      destruct (Py.ord d =? 34)%N; [ | discriminate].
      intros H. apply IH3 in H. simpl. lia. }
    destruct (Py.ord c =? 91)%N.
    { destruct depth as [ | depth]; [discriminate | ].
      destruct (skip_ws s) as [ | d r'] eqn:E; [discriminate | ].
      pose proof (skip_ws_length s) as Hl. rewrite E in Hl.
      destruct (Py.ord d =? 93)%N; [intros [= <- <-]; simpl in *; lia | ].
      intros H. apply IH2 in H. simpl in *. lia. }
    apply scan_constant_length.
  - intros depth acc s v r. simpl.
    destruct (scan_once fuel depth s) as [v1 r1 | | | ] eqn:E1; try discriminate.
    apply IH1 in E1.
    destruct (skip_ws r1) as [ | d r'] eqn:E2; [discriminate | ].
    apply skip_ws_cons in E2.
    destruct (Py.ord d =? 93)%N; [intros [= <- <-]; lia | ].
    destruct (Py.ord d =? 44)%N; [ | discriminate].
    intros H. apply IH2 in H. pose proof (skip_ws_length r') as Hws. lia.
  - intros depth acc s v r. simpl.
    destruct (scanstring s) as [[key r1] | ] eqn:E1; [ | discriminate].
    apply scanstring_length in E1.
    destruct (skip_ws r1) as [ | d r'] eqn:E2; [discriminate | ].
    apply skip_ws_cons in E2.
    destruct (Py.ord d =? 58)%N; [ | discriminate].
    destruct (scan_once fuel depth (skip_ws r')) as [v1 r2 | | | ] eqn:E3;
      try discriminate.
    apply IH1 in E3. pose proof (skip_ws_length r') as Hws.
    destruct (skip_ws r2) as [ | e r3] eqn:E4; [discriminate | ].
    apply skip_ws_cons in E4.
    destruct (Py.ord e =? 125)%N; [intros [= <- <-]; lia | ].
    destruct (Py.ord e =? 44)%N; [ | discriminate].
    destruct (skip_ws r3) as [ | q r4] eqn:E5; [discriminate | ].
    apply skip_ws_cons in E5.
    destruct (Py.ord q =? 34)%N; [ | discriminate].
    intros H. apply IH3 in H. lia.
Qed.

(** With two steps per character and one to spare the scanner never runs
    out of steps. *)
Lemma scanner_budget (fuel : nat) :
  (forall depth s, 2 * String.length s < fuel -> scan_once fuel depth s <> Exhausted)
  /\ (forall depth acc s,
        2 * String.length s + 1 < fuel -> JSONArray fuel depth acc s <> Exhausted)
  /\ (forall depth acc s,
        2 * String.length s + 1 < fuel -> JSONObject fuel depth acc s <> Exhausted).
Proof.
  induction fuel as [ | fuel (IH1 & IH2 & IH3)]; [repeat split; intros; lia | ].
  destruct (scanner_progress fuel) as (P1 & P2 & P3).
  split; [ | split].
  - intros depth s Hf. simpl.
    destruct s as [ | c s]; [discriminate | ].
    destruct (Py.ord c =? 34)%N.
    { destruct (scanstring s) as [[cps rest] | ]; discriminate. }
    destruct (Py.ord c =? 123)%N.
    { destruct depth as [ | depth]; [discriminate | ].
      destruct (skip_ws s) as [ | d r'] eqn:E; [discriminate | ].
      apply skip_ws_cons in E.
      destruct (Py.ord d =? 125)%N; [discriminate | ].
      destruct (Py.ord d =? 34)%N; [ | discriminate].
      apply IH3. simpl in Hf. lia. }
    destruct (Py.ord c =? 91)%N.
    { destruct depth as [ | depth]; [discriminate | ].
      destruct (skip_ws s) as [ | d r'] eqn:E; [discriminate | ].
      pose proof (skip_ws_length s) as Hl. rewrite E in Hl.
      destruct (Py.ord d =? 93)%N; [discriminate | ].
      apply IH2. simpl in *. lia. }
    unfold scan_constant.
    repeat match goal with
           | |- (if ?b then _ else _) <> _ => destruct b; [discriminate | ]
           end.
    destruct (scan_number _) as [[v r] | ]; discriminate.
  - intros depth acc s Hf. simpl.
    destruct (scan_once fuel depth s) as [v1 r1 | | | ] eqn:E1; try discriminate.
    + apply P1 in E1.
      destruct (skip_ws r1) as [ | d r'] eqn:E2; [discriminate | ].
      apply skip_ws_cons in E2.
      destruct (Py.ord d =? 93)%N; [discriminate | ].
      destruct (Py.ord d =? 44)%N; [ | discriminate].
      apply IH2. pose proof (skip_ws_length r') as Hws. lia.
    + exfalso. apply (IH1 depth s); [lia | exact E1].
  - intros depth acc s Hf. simpl.
    destruct (scanstring s) as [[key r1] | ] eqn:E1; [ | discriminate].
    apply scanstring_length in E1.
    destruct (skip_ws r1) as [ | d r'] eqn:E2; [discriminate | ].
    apply skip_ws_cons in E2.
    destruct (Py.ord d =? 58)%N; [ | discriminate].
    pose proof (skip_ws_length r') as Hws.
    destruct (scan_once fuel depth (skip_ws r')) as [v1 r2 | | | ] eqn:E3;
      try discriminate.
    + apply P1 in E3.
      destruct (skip_ws r2) as [ | e r3] eqn:E4; [discriminate | ].
      apply skip_ws_cons in E4.
      destruct (Py.ord e =? 125)%N; [discriminate | ].
      destruct (Py.ord e =? 44)%N; [ | discriminate].
      destruct (skip_ws r3) as [ | q r4] eqn:E5; [discriminate | ].
      apply skip_ws_cons in E5.
      destruct (Py.ord q =? 34)%N; [ | discriminate].
      apply IH3. lia.
    + exfalso. apply (IH1 depth (skip_ws r')); [lia | exact E3].
Qed.


(** [loads] fails only on a syntax error, never for want of steps. *)
Lemma loads_never_exhausted (depth : nat) (s : string) :
  scan_once (budget (skip_ws s)) depth (skip_ws s) <> Exhausted.
Proof.
  apply (proj1 (scanner_budget _)). unfold budget. lia.
Qed.

End JsonBudget.

(** ** Normalising search hits *)

Lemma take_length (n : nat) (s : string) : Py.len (Py.take n s) <= n.
Proof.
  unfold Py.len.
  revert s; induction n as [ | n IH]; intros [ | c s]; simpl; try lia.
  specialize (IH s). lia.
Qed.

Lemma take_prefix (n : nat) (s : string) : exists rest, s = Py.take n s +:+ rest.
Proof.
  revert s; induction n as [ | n IH]; intros s.
  - exists s. reflexivity.
  - destruct s as [ | c s]; [exists EmptyString; reflexivity | ].
    destruct (IH s) as [rest E]. exists rest.
    change (String c s = String c (Py.take n s +:+ rest)). now f_equal.
Qed.

Lemma take_all (n : nat) (s : string) : Py.len s <= n -> Py.take n s = s.
Proof.
  unfold Py.len.
  revert s; induction n as [ | n IH]; intros [ | c s]; simpl; intros H;
    try reflexivity; try lia.
  f_equal. apply IH. lia.
Qed.

(** The decoder raises [JSONDecodeError] or, when it runs out of levels,
    [RecursionError]; nothing else. *)
Lemma loads_within_raises (depth : nat) (s : string) (e : exn) :
  Json.loads_within depth s = inr e ->
  e = JSONDecodeError
  \/ exists container, e = RecursionError (Json.recursion_message container).
Proof.
  unfold Json.loads_within.
  destruct (Json.scan_once _ _ _) as [v rest | | container | ].
  - destruct (Json.skip_ws rest); [discriminate | intros [= <-]; now left].
  - intros [= <-]. now left.
  - intros [= <-]. right. now exists container.
  - intros [= <-]. now left.
Qed.

(** [loads] fails with [JSONDecodeError] exactly when the scanner rejects
    the text or leaves something other than white space unread. *)
Lemma loads_error_is_syntax_error (depth : nat) (s : string) :
  Json.loads_within depth s = inr JSONDecodeError <->
  Json.scan_once (Json.budget (Json.skip_ws s)) depth (Json.skip_ws s) = Json.Bad
  \/ exists v rest,
       Json.scan_once (Json.budget (Json.skip_ws s)) depth (Json.skip_ws s)
       = Json.Found v rest
       /\ Json.skip_ws rest <> EmptyString.
Proof.
  unfold Json.loads_within. pose proof (loads_never_exhausted depth s) as Hne.
  destruct (Json.scan_once _ _ _) as [v rest | | container | ] eqn:E.
  - destruct (Json.skip_ws rest) as [ | c r] eqn:Er.
    + split; [discriminate | ].
      intros [? | (v' & r' & [= <- <-] & Hr)]; [discriminate | ].
      now rewrite Er in Hr.
    + split; [ | reflexivity]. intros _. right.
      exists v, rest. split; [reflexivity | ]. now rewrite Er.
  - split; [now left | reflexivity].
  - split; [discriminate | ].
    intros [? | (v' & r' & ? & _)]; discriminate.
  - contradiction.
Qed.



Lemma parse_tags_within_cases (depth : nat) (raw : string) :
  parse_tags_within depth raw =
    match Json.loads_within depth raw with
    | inl v => inl v
    | inr JSONDecodeError => inl (Json.Arr [])
    | inr e => inr e
    end.
Proof.
  unfold parse_tags_within.
  destruct (Json.loads_within depth raw) as [v | e] eqn:E; [reflexivity | ].
  apply loads_within_raises in E as [-> | [container ->]]; reflexivity.
Qed.

Lemma get_or_lookup (e : gmap string string) (key : string) :
  get_or e key "" = default "" (e !! key).
Proof.
  unfold get_or. destruct (e !! key) as [v | ]; [ | reflexivity].
  cbn [from_option id]. destruct (String.eqb_spec v ""); [now subst | reflexivity].
Qed.








(** ** The retriever's top-k *)

(** C10: [k = 0] and [k] left out both select the default top-k: the
    search goes out with limit 4 and search breadth [max(4*4, 64) = 64], and
    the retrieval is the same as with [k = 4]; no [k] makes the limit 0. *)
Theorem retrieve_zero_k_is_default :
  (forall qvec,
      retrieve_request qvec (Some 0%Z) = retrieve_request qvec None
      /\ pymilvus.limit (retrieve_request qvec None) = 4%Z
      /\ pymilvus.ef (retrieve_request qvec None) = 64%Z
      /\ pymilvus.ef (retrieve_request qvec None) = Z.max (4 * 4) 64)
  /\ (forall w q,
        retrieve_sources w q (Some 0%Z) = retrieve_sources w q None
        /\ retrieve_sources w q None = retrieve_sources w q (Some 4%Z))
  /\ (forall w q k,
        retrieve_sources w q k =
          let* vectors := embeddings.embed_texts (ollama_embed w) [q] in
          match vectors with
          | [] => raise IndexError
          | qvec :: _ =>
              let '(r, _, _) := milvus_client.ensure_collection (milvus w) in
              let* collection := r in
              let* hits := milvus_search w (retrieve_request qvec k) in
              sources_of_hits hits
          end)
  /\ (forall qvec k, pymilvus.limit (retrieve_request qvec k) <> 0%Z).
Proof.
  split; [ | split; [ | split ] ].
  - intros qvec. split; [reflexivity | ]. split; [reflexivity | ].
    split; reflexivity.
  - intros w q. split; reflexivity.
  - intros w q k. reflexivity.
  - intros qvec k. unfold retrieve_request, search_request, top_k_or_default,
      top_k_or_default_with, RAG_TOP_K. simpl.
    destruct k as [n | ]; [ | discriminate].
    destruct (Z.eqb_spec n 0); [discriminate | assumption].
Qed.

(** ** The embedding client *)






(** ** Collection lifecycle *)

Section EnsureCollection.
Import pymilvus.

Lemma sdk_bind_ok {A B} (m : sdk A) (k : A -> sdk B) (s s1 : Server)
    (a : A) (calls1 : list Call) :
  m s = (inl a, s1, calls1) ->
  sdk_bind m k s = (let '(r, s2, calls2) := k a s1 in (r, s2, calls1 ++ calls2)).
Proof. intros E. unfold sdk_bind. rewrite E. reflexivity. Qed.

Lemma has_collection_present (s : Server) (n : string) (c : CollectionState) :
  collections s !! n = Some c ->
  has_collection n s = (inl true, s, [HasCollection n]).
Proof.
  intros Hc. unfold has_collection.
  rewrite bool_decide_eq_true_2 by (rewrite Hc; eexists; reflexivity).
  reflexivity.
Qed.

Lemma has_collection_absent (s : Server) (n : string) :
  collections s !! n = None ->
  has_collection n s = (inl false, s, [HasCollection n]).
Proof.
  intros Hc. unfold has_collection.
  rewrite bool_decide_eq_false_2 by (rewrite Hc; intros [? ?]; discriminate).
  reflexivity.
Qed.

Lemma _ensure_index_indexed (s : Server) (n : string) (c : CollectionState) :
  collections s !! n = Some c ->
  indexes c <> [] ->
  milvus_client._ensure_index n s = (inl tt, s, [HasIndex n]).
Proof.
  intros Hc Hi. unfold milvus_client._ensure_index.
  rewrite (sdk_bind_ok _ _ s s true [HasIndex n]).
  - reflexivity.
  - unfold has_index. cbv beta. rewrite Hc.
    now rewrite bool_decide_eq_false_2 by assumption.
Qed.

Lemma _ensure_index_unindexed (s : Server) (n : string) (c : CollectionState) :
  collections s !! n = Some c ->
  indexes c = [] ->
  has_vector_field (schema c) "embedding" = true ->
  milvus_client._ensure_index n s =
    (inl tt,
     set_collection n
       {| schema := schema c;
          indexes := [ {| field_name := "embedding";
                          index_params := milvus_client.hnsw_index_params |} ];
          loaded := loaded c |} s,
     [HasIndex n; CreateIndex n "embedding"]).
Proof.
  intros Hc Hi Hv. unfold milvus_client._ensure_index.
  rewrite (sdk_bind_ok _ _ s s false [HasIndex n]).
  - unfold create_index. rewrite Hc, Hv, Hi. reflexivity.
  - unfold has_index. cbv beta. rewrite Hc.
    now rewrite bool_decide_eq_true_2 by assumption.
Qed.

Lemma _ensure_index_refused (s : Server) (n : string) (c : CollectionState) :
  collections s !! n = Some c ->
  indexes c = [] ->
  has_vector_field (schema c) "embedding" = false ->
  milvus_client._ensure_index n s =
    (inr (MilvusException "cannot create index on non-existent field"), s,
     [HasIndex n; CreateIndex n "embedding"]).
Proof.
  intros Hc Hi Hv. unfold milvus_client._ensure_index.
  rewrite (sdk_bind_ok _ _ s s false [HasIndex n]).
  - unfold create_index. rewrite Hc, Hv. reflexivity.
  - unfold has_index. cbv beta. rewrite Hc.
    now rewrite bool_decide_eq_true_2 by assumption.
Qed.

Lemma lookup_set_collection (n : string) (c : CollectionState) (s : Server) :
  collections (set_collection n c s) !! n = Some c.
Proof. simpl. apply lookup_insert_eq. Qed.

Lemma load_present (s : Server) (n : string) (c : CollectionState) :
  collections s !! n = Some c ->
  load n s = (inl tt, set_collection n (loaded_copy c) s, [Load n]).
Proof. intros Hc. unfold load. rewrite Hc. reflexivity. Qed.

Lemma ensure_collection_existing (s : Server) (c : CollectionState) :
  reachable s = true ->
  collections s !! milvus_client.MILVUS_COLLECTION = Some c ->
  indexes c <> [] ->
  milvus_client.ensure_collection s =
    (inl milvus_client.MILVUS_COLLECTION,
     set_collection milvus_client.MILVUS_COLLECTION (loaded_copy c) s,
     calls_on_existing).
Proof.
  intros Hr Hc Hi. unfold milvus_client.ensure_collection.
  rewrite (sdk_bind_ok _ _ s s tt [Connect])
    by (unfold milvus_client._connect, connect; cbv beta; now rewrite Hr).
  rewrite (sdk_bind_ok _ _ s s true _ (has_collection_present s _ c Hc)).
  cbn [negb].
  rewrite (sdk_bind_ok _ _ s s milvus_client.MILVUS_COLLECTION
             [DescribeCollection milvus_client.MILVUS_COLLECTION])
    by (unfold Collection_existing; cbv beta; now rewrite Hc).
  rewrite (sdk_bind_ok _ _ s s tt _ (_ensure_index_indexed s _ c Hc Hi)).
  rewrite (sdk_bind_ok _ _ s _ tt _ (load_present s _ c Hc)).
  reflexivity.
Qed.

Lemma set_collection_twice (n : string) (c c' : CollectionState) (s : Server) :
  set_collection n c' (set_collection n c s) = set_collection n c' s.
Proof.
  unfold set_collection; simpl. f_equal. apply insert_insert_eq.
Qed.

(** C9: when the collection and its index exist, [ensure_collection]
    sends no create request; the server keeps the same collections, and
    this one keeps its schema and its indexes and is loaded; the handle
    names the same collection; and a further call changes nothing. *)
Theorem ensure_collection_idempotent (s : Server) (c : CollectionState) :
  reachable s = true ->
  collections s !! milvus_client.MILVUS_COLLECTION = Some c ->
  indexes c <> [] ->
  exists (s' : Server) (calls : list Call),
    milvus_client.ensure_collection s =
      (inl milvus_client.MILVUS_COLLECTION, s', calls)
    /\ (forall call, In call calls -> is_create call = false)
    /\ dom (collections s') = dom (collections s)
    /\ (forall n, n <> milvus_client.MILVUS_COLLECTION ->
          collections s' !! n = collections s !! n)
    /\ collections s' !! milvus_client.MILVUS_COLLECTION =
         Some {| schema := schema c; indexes := indexes c; loaded := true |}
    /\ milvus_client.ensure_collection s' =
         (inl milvus_client.MILVUS_COLLECTION, s', calls).
Proof.
  intros Hr Hc Hi.
  exists (set_collection milvus_client.MILVUS_COLLECTION (loaded_copy c) s),
    calls_on_existing.
  split; [now apply ensure_collection_existing | ].
  split.
  { intros call Hin. simpl in Hin.
    repeat (destruct Hin as [<- | Hin]; [reflexivity | ]). destruct Hin. }
  split.
  { simpl. rewrite dom_insert_L.
    assert (Hin : milvus_client.MILVUS_COLLECTION ∈ dom (collections s))
      by (apply elem_of_dom; eexists; exact Hc).
    apply subseteq_union_1_L. now apply singleton_subseteq_l. }
  split.
  { intros n Hn. simpl. now rewrite lookup_insert_ne. }
  split.
  { simpl. now rewrite lookup_insert_eq. }
  rewrite (ensure_collection_existing _ (loaded_copy c)).
  - now rewrite set_collection_twice.
  - exact Hr.
  - simpl. now rewrite lookup_insert_eq.
  - exact Hi.
Qed.

Lemma ensure_collection_idempotent_witness :
  exists (s' : Server) (calls : list Call),
    milvus_client.ensure_collection server_with_collection =
      (inl milvus_client.MILVUS_COLLECTION, s', calls)
    /\ milvus_client.ensure_collection s' =
         (inl milvus_client.MILVUS_COLLECTION, s', calls).
Proof.
  destruct (ensure_collection_idempotent server_with_collection indexed_collection)
    as (s' & calls & H1 & _ & _ & _ & _ & H2).
  - reflexivity.
  - reflexivity.
  - discriminate.
  - exists s', calls. split; assumption.
Defined.


End EnsureCollection.

(** ** The tag filter of the memory query *)

Section TagFilter.
Import milvus_expr.

Lemma plain_app (a b : string) : plain (a +:+ b) = plain a && plain b.
Proof.
  induction a as [ | c a IH]; [reflexivity | ].
  change (negb (is_meta c) && plain (a +:+ b) = negb (is_meta c) && plain a && plain b).
  rewrite IH. now rewrite andb_assoc.
Qed.

Lemma plain_quoted (tag : string) : plain tag = true -> plain (quoted tag) = true.
Proof.
  intros H. unfold quoted. rewrite !plain_app, H. reflexivity.
Qed.

Lemma meta_cases (c : ascii) :
  is_meta c = false ->
  Ascii.eqb c "'" = false /\ Ascii.eqb c "%" = false /\ Ascii.eqb c "_" = false
  /\ Ascii.eqb c (ascii_of_nat 92) = false.
Proof.
  unfold is_meta. intros H.
  repeat (apply orb_false_elim in H; destruct H as [H ?]). auto.
Qed.

Lemma like_percent_unfold (p s : string) :
  like (String "%" p) s =
    like p s || match s with
                | EmptyString => false
                | String _ s' => like (String "%" p) s'
                end.
Proof. destruct s; reflexivity. Qed.

Lemma like_percent_only (s : string) : like "%" s = true.
Proof.
  induction s as [ | c s IH]; [reflexivity | ].
  rewrite like_percent_unfold, IH. apply orb_true_r.
Qed.

(** A plain pattern followed by [%] matches the strings it starts. *)
Lemma like_prefix (p s : string) :
  plain p = true -> like (p +:+ "%") s = Py.startswith p s.
Proof.
  revert s; induction p as [ | c p IH]; intros s Hp.
  - simpl Py.startswith. destruct s; [reflexivity | apply like_percent_only].
  - simpl in Hp. apply andb_prop in Hp as [Hc Hp].
    apply negb_true_iff, meta_cases in Hc as (_ & H1 & H2 & H3).
    change (String c p +:+ "%") with (String c (p +:+ "%")).
    destruct s as [ | d s]; simpl; rewrite H1, H2, H3; [reflexivity | ].
    now rewrite IH.
Qed.

(** [%p%] with a plain [p] is substring containment of [p]. *)
Lemma like_infix (p s : string) :
  plain p = true -> like ("%" +:+ p +:+ "%") s = Py.contains p s.
Proof.
  intros Hp. change ("%" +:+ p +:+ "%") with (String "%" (p +:+ "%")).
  induction s as [ | d s IH]; rewrite like_percent_unfold, like_prefix by assumption.
  - simpl. now rewrite orb_false_r.
  - rewrite IH. reflexivity.
Qed.

Lemma plain_no_apostrophe (s : string) : plain s = true -> no_apostrophe s = true.
Proof.
  induction s as [ | c s IH]; [reflexivity | ]. simpl. intros Hp.
  apply andb_prop in Hp as [Hc Hp].
  apply negb_true_iff, meta_cases in Hc as (H0 & _).
  now rewrite H0, IH.
Qed.

Lemma no_apostrophe_app (a b : string) :
  no_apostrophe (a +:+ b) = no_apostrophe a && no_apostrophe b.
Proof.
  induction a as [ | c a IH]; [reflexivity | ].
  change (negb (Ascii.eqb c "'") && no_apostrophe (a +:+ b)
          = negb (Ascii.eqb c "'") && no_apostrophe a && no_apostrophe b).
  rewrite IH. now rewrite andb_assoc.
Qed.

Lemma no_apostrophe_pattern (tag : string) :
  plain tag = true -> no_apostrophe (tag_pattern tag) = true.
Proof.
  intros H. unfold tag_pattern, quoted.
  rewrite !no_apostrophe_app, (plain_no_apostrophe tag H). reflexivity.
Qed.

Lemma read_quoted_app (p rest : string) :
  no_apostrophe p = true -> read_quoted (p +:+ String "'" rest) = Some (p, rest).
Proof.
  induction p as [ | c p IH]; intros Hp; [reflexivity | ].
  simpl in Hp. apply andb_prop in Hp as [Hc Hp].
  apply negb_true_iff in Hc.
  change (String c p +:+ String "'" rest) with (String c (p +:+ String "'" rest)).
  simpl. rewrite Hc, (IH Hp). reflexivity.
Qed.

Lemma tag_clause_shape (tag rest : string) :
  store.tag_clause tag +:+ rest =
    "tags like '" +:+ (tag_pattern tag +:+ String "'" rest).
Proof.
  unfold store.tag_clause, tag_pattern, quoted.
  rewrite !append_assoc. reflexivity.
Qed.

Lemma append_empty_r (s : string) : s +:+ "" = s.
Proof.
  induction s as [ | c s IH]; [reflexivity | ].
  change (String c (s +:+ "") = String c s). now f_equal.
Qed.

Lemma read_ident_tags (X : string) :
  read_ident ("tags like '" +:+ X) = ("tags", " like '" +:+ X).
Proof. reflexivity. Qed.

Lemma strip_like (X : string) : strip_prefix " like '" (" like '" +:+ X) = Some X.
Proof. reflexivity. Qed.

Lemma strip_or (X : string) : strip_prefix " or " (" or " +:+ X) = Some X.
Proof. reflexivity. Qed.

Lemma parse_S (fuel : nat) (s : string) :
  parse (S fuel) s =
    let (field, r1) := read_ident s in
    match field with
    | EmptyString => None
    | String _ _ =>
        match strip_prefix " like '" r1 with
        | None => None
        | Some r2 =>
            match read_quoted r2 with
            | None => None
            | Some (pattern, r3) =>
                match r3 with
                | EmptyString => Some [(field, pattern)]
                | String _ _ =>
                    match strip_prefix " or " r3 with
                    | None => None
                    | Some r4 =>
                        match parse fuel r4 with
                        | Some cs => Some ((field, pattern) :: cs)
                        | None => None
                        end
                    end
                end
            end
        end
    end.
Proof. reflexivity. Qed.

(** Reading one clause off the front of an expression. *)
Lemma parse_clause (fuel : nat) (tag rest : string) :
  plain tag = true ->
  parse (S fuel) (store.tag_clause tag +:+ rest) =
    match rest with
    | EmptyString => Some [("tags", tag_pattern tag)]
    | String _ _ =>
        match strip_prefix " or " rest with
        | None => None
        | Some r4 =>
            match parse fuel r4 with
            | Some cs => Some (("tags", tag_pattern tag) :: cs)
            | None => None
            end
        end
    end.
Proof.
  intros Hp. rewrite tag_clause_shape, parse_S, read_ident_tags.
  cbv beta iota. rewrite strip_like.
  rewrite (read_quoted_app _ rest (no_apostrophe_pattern tag Hp)).
  reflexivity.
Qed.

(** The expression of the source reads back as one clause per tag. *)
Lemma parse_build_expr (tags : list string) (t : string) (fuel : nat) :
  forallb plain (t :: tags) = true ->
  length tags < fuel ->
  parse fuel (Py.join " or " (map store.tag_clause (t :: tags))) =
    Some (map (fun tag => ("tags", tag_pattern tag)) (t :: tags)).
Proof.
  revert t fuel; induction tags as [ | t' tags IH]; intros t fuel Hp Hf;
    (destruct fuel as [ | fuel]; [simpl in Hf; lia | ]);
    simpl in Hp; apply andb_prop in Hp as [Ht Hp].
  - change (Py.join " or " (map store.tag_clause [t])) with (store.tag_clause t).
    rewrite <- (append_empty_r (store.tag_clause t)).
    now rewrite parse_clause.
  - change (Py.join " or " (map store.tag_clause (t :: t' :: tags)))
      with (store.tag_clause t +:+
              (" or " +:+ Py.join " or " (map store.tag_clause (t' :: tags)))).
    rewrite parse_clause by assumption.
    change (" or " +:+ Py.join " or " (map store.tag_clause (t' :: tags)))
      with (String " " ("or " +:+ Py.join " or " (map store.tag_clause (t' :: tags)))).
    cbv beta iota.
    change (String " " ("or " +:+ Py.join " or " (map store.tag_clause (t' :: tags))))
      with (" or " +:+ Py.join " or " (map store.tag_clause (t' :: tags))).
    rewrite strip_or, IH; [reflexivity | exact Hp | simpl in Hf; lia].
Qed.

Lemma clause_holds_tags (column tag : string) :
  plain tag = true ->
  clause_holds {[ "tags" := column ]} ("tags", tag_pattern tag)
  = Py.contains (quoted tag) column.
Proof.
  intros Hp. unfold clause_holds. cbn [fst snd].
  rewrite lookup_singleton_eq. unfold tag_pattern.
  apply like_infix, plain_quoted, Hp.
Qed.

Lemma existsb_clauses (column : string) (tags : list string) :
  forallb plain tags = true ->
  existsb (clause_holds {[ "tags" := column ]})
          (map (fun tag => ("tags", tag_pattern tag)) tags)
  = existsb (fun tag => Py.contains (quoted tag) column) tags.
Proof.
  induction tags as [ | t tags IH]; [reflexivity | ].
  simpl. intros Hp. apply andb_prop in Hp as [Ht Hp].
  now rewrite clause_holds_tags, IH.
Qed.

Lemma join_length_ge (sep : string) (parts : list string) :
  0 < String.length sep ->
  length parts <= S (String.length (Py.join sep parts)).
Proof.
  intros Hsep.
  assert (Happ : forall a b, String.length (a +:+ b) = String.length a + String.length b).
  { intros a b. induction a as [ | c a IH]; [reflexivity | ].
    change (S (String.length (a +:+ b)) = S (String.length a) + String.length b).
    now rewrite IH. }
  induction parts as [ | p parts IH]; [simpl; lia | ].
  destruct parts as [ | p' parts]; [simpl; lia | ].
  change (Py.join sep (p :: p' :: parts)) with (p +:+ sep +:+ Py.join sep (p' :: parts)).
  rewrite !Happ. cbn [length] in *. lia.
Qed.

(** What the store makes of the expression built for plain tags. *)
Lemma eval_build_expr (t : string) (ts : list string) (column : string) :
  forallb plain (t :: ts) = true ->
  eval (Py.join " or " (map store.tag_clause (t :: ts))) {[ "tags" := column ]}
  = Some (existsb (fun tag => Py.contains (quoted tag) column) (t :: ts)).
Proof.
  intros Hp. unfold eval. rewrite parse_build_expr.
  - now rewrite existsb_clauses.
  - exact Hp.
  - assert (Hl := join_length_ge " or " (map store.tag_clause (t :: ts))
                    ltac:(simpl; lia)).
    rewrite length_map in Hl. simpl in Hl. simpl. lia.
Qed.

Lemma row_is_candidate_quoted (payload : store.MemoryQueryIn)
    (t : string) (ts : list string) (column : string) :
  store.tags payload = Some (t :: ts) ->
  forallb plain (t :: ts) = true ->
  store.row_is_candidate payload column = true <->
  exists tag, In tag (t :: ts) /\ Py.contains (quoted tag) column = true.
Proof.
  intros Htags Hp. unfold store.row_is_candidate, candidate. rewrite Htags.
  cbn [store.build_expr]. rewrite (eval_build_expr t ts column Hp).
  cbn [from_option id]. apply existsb_exists.
Qed.

(** C1, as the code has it: for a non-empty set of requested tags the
    filter is one clause [tags like '%"tag"%'] per tag, joined by [or],
    whatever the tags are; and when no tag holds an apostrophe, a
    backslash or one of the wildcard characters [%] and [_], a row is a
    candidate exactly when its tags column contains one of the requested
    tags together with its surrounding double quotes.  So the tag [go]
    does not select a row whose tags are [["mongo"]], and the tag
    [docker] selects a row whose tags are [["docker"]] but not one whose
    tags are [["mongodb"]]. *)
Theorem tag_filter_quoted_containment (payload : store.MemoryQueryIn)
    (qvec : list Q) (t : string) (ts : list string) (column : string) :
  store.tags payload = Some (t :: ts) ->
  pymilvus.expr (store.search_request payload qvec) =
    Some (Py.join " or " (map store.tag_clause (t :: ts)))
  /\ (forall tag, store.tag_clause tag =
        "tags like '%" +:+ Json.quote +:+ tag +:+ Json.quote +:+ "%'")
  /\ (forall c : ascii,
        is_meta c = true
        <-> c = "'"%char \/ c = "%"%char \/ c = "_"%char \/ c = ascii_of_nat 92)
  /\ (store.row_is_candidate go_query (Json.dumps_list ["mongo"]) = false
      /\ store.row_is_candidate docker_query (Json.dumps_list ["docker"]) = true
      /\ store.row_is_candidate docker_query (Json.dumps_list ["mongodb"]) = false)
  /\ (forallb plain (t :: ts) = true ->
      eval (Py.join " or " (map store.tag_clause (t :: ts))) {[ "tags" := column ]}
      = Some (existsb (fun tag => Py.contains (quoted tag) column) (t :: ts))
      /\ (store.row_is_candidate payload column = true <->
            exists tag, In tag (t :: ts) /\ Py.contains (quoted tag) column = true)).
Proof.
  intros Htags.
  split; [ | split; [ | split; [ | split ] ] ].
  - unfold store.search_request. cbn [pymilvus.expr]. now rewrite Htags.
  - reflexivity.
  - intros c. unfold is_meta. rewrite !orb_true_iff.
    repeat match goal with
           | |- context [Ascii.eqb ?a ?b] =>
               destruct (Ascii.eqb_spec a b)
           end; intuition congruence.
  - repeat split; vm_compute; reflexivity.
  - intros Hp. split.
    + now apply eval_build_expr.
    + now apply row_is_candidate_quoted.
Qed.

Lemma tag_filter_quoted_containment_witness :
  store.row_is_candidate docker_query (Json.dumps_list ["docker"; "security"]) = true.
Proof.
  apply (proj2 (proj2 (proj2 (proj2 (proj2
    (tag_filter_quoted_containment docker_query [] "docker" []
       (Json.dumps_list ["docker"; "security"]) eq_refl)))) eq_refl)).
  exists "docker". split; [left; reflexivity | vm_compute; reflexivity].
Defined.

(** C1 as stated fails: the column [["mongo"]] contains the requested
    tag [go] as a substring, yet the row is not a candidate, because the
    pattern carries the double quotes; likewise [docker] against
    [["mongodb"]], while [["docker"]] is matched. *)
Lemma quoted_tag_does_not_match_longer_tag :
  Json.dumps_list ["mongo"] = "[" +:+ Json.quote +:+ "mongo" +:+ Json.quote +:+ "]"
  /\ plain_substring_filter ["go"] (Json.dumps_list ["mongo"]) = true
  /\ store.row_is_candidate go_query (Json.dumps_list ["mongo"]) = false
  /\ store.row_is_candidate docker_query (Json.dumps_list ["mongodb"]) = false
  /\ store.row_is_candidate docker_query (Json.dumps_list ["docker"]) = true
  /\ ~ (forall payload tags column,
          store.tags payload = Some tags -> tags <> [] ->
          store.row_is_candidate payload column = plain_substring_filter tags column).
Proof.
  assert (E1 : plain_substring_filter ["go"] (Json.dumps_list ["mongo"]) = true)
    by (vm_compute; reflexivity).
  assert (E2 : store.row_is_candidate go_query (Json.dumps_list ["mongo"]) = false)
    by (vm_compute; reflexivity).
  split; [vm_compute; reflexivity | ].
  split; [exact E1 | ].
  split; [exact E2 | ].
  split; [vm_compute; reflexivity | ].
  split; [vm_compute; reflexivity | ].
  intros H.
  specialize (H go_query ["go"] (Json.dumps_list ["mongo"]) eq_refl).
  rewrite E1, E2 in H. discriminate H. discriminate.
Qed.

(** *** Tags stored by [json.dumps]

    When the tags column is the dump of a list of ordinary tags, the
    quoted pattern meets the quotes that delimit the items, and the filter
    is set membership, but for one request: the separator of the dump. *)

Lemma app_cons (c : ascii) (a b : string) : String c a +:+ b = String c (a +:+ b).
Proof. reflexivity. Qed.

Lemma segments_nonempty (s : string) : segments s <> [].
Proof.
  induction s as [ | c s IH]; simpl; [discriminate | ].
  destruct (is_quote c); [discriminate | ].
  destruct (segments s); discriminate.
Qed.

Lemma segments_app_quote (x y : string) :
  segments (x +:+ Json.quote +:+ y) = segments x ++ segments y.
Proof.
  induction x as [ | c x IH].
  - reflexivity.
  - rewrite app_cons. simpl. rewrite IH.
    destruct (is_quote c); [reflexivity | ].
    pose proof (segments_nonempty x) as Hne.
    destruct (segments x); [contradiction | reflexivity].
Qed.

Lemma ordinary_is_ordinary_char (c : ascii) :
  is_ordinary c = true -> is_quote c = false /\ Json.escape_char c = String c EmptyString.
Proof.
  unfold is_ordinary, is_quote, Json.escape_char.
  intros H. apply andb_prop in H as [H Hb]. apply andb_prop in H as [Hr Hq].
  apply negb_true_iff in Hq, Hb. split; [exact Hq | ].
  assert (E34 : (Py.ord c =? 34)%N = false).
  { destruct (N.eqb_spec (Py.ord c) 34) as [E | ]; [ | reflexivity].
    unfold Py.ord in E. apply (f_equal ascii_of_N) in E.
    rewrite ascii_N_embedding in E. subst c. discriminate. }
  assert (E92 : (Py.ord c =? 92)%N = false).
  { destruct (N.eqb_spec (Py.ord c) 92) as [E | ]; [ | reflexivity].
    unfold Py.ord in E. apply (f_equal ascii_of_N) in E.
    rewrite ascii_N_embedding in E. subst c. discriminate. }
  rewrite E34, E92.
  unfold Py.in_range in Hr. apply andb_prop in Hr as [H1 H2].
  apply N.leb_le in H1, H2.
  repeat match goal with
         | |- context [(Py.ord c =? ?k)%N] =>
             destruct (N.eqb_spec (Py.ord c) k); [lia | ]
         end.
  unfold Py.in_range.
  destruct (N.leb_spec 32 (Py.ord c)); [ | lia].
  destruct (N.leb_spec (Py.ord c) 126); [reflexivity | lia].
Qed.

Lemma escape_ordinary (s : string) : ordinary s = true -> Json.escape s = s.
Proof.
  induction s as [ | c s IH]; [reflexivity | ]. simpl. intros H.
  apply andb_prop in H as [Hc Hs].
  apply ordinary_is_ordinary_char in Hc as [_ Hc].
  rewrite Hc, (IH Hs). reflexivity.
Qed.

Lemma segments_ordinary (s : string) : ordinary s = true -> segments s = [s].
Proof.
  induction s as [ | c s IH]; [reflexivity | ]. simpl. intros H.
  apply andb_prop in H as [Hc Hs].
  apply ordinary_is_ordinary_char in Hc as [Hq _].
  rewrite Hq, (IH Hs). reflexivity.
Qed.

Lemma segments_ordinary_app (s y : string) :
  ordinary s = true ->
  segments (s +:+ y) =
    match segments y with
    | h :: t => (s +:+ h) :: t
    | [] => [s]
    end.
Proof.
  induction s as [ | c s IH]; intros H.
  - change (segments y = match segments y with
                          | h :: t => h :: t
                          | [] => [EmptyString]
                          end).
    destruct (segments y) eqn:E; [ | reflexivity].
    now apply segments_nonempty in E.
  - simpl in H. apply andb_prop in H as [Hc Hs].
    apply ordinary_is_ordinary_char in Hc as [Hq _].
    rewrite app_cons. simpl. rewrite Hq, (IH Hs).
    pose proof (segments_nonempty y). destruct (segments y); [contradiction | reflexivity].
Qed.

Lemma startswith_spec (p s : string) :
  Py.startswith p s = true <-> exists b, s = p +:+ b.
Proof.
  revert s; induction p as [ | a p IH]; intros s.
  - split; [exists s; reflexivity | reflexivity].
  - destruct s as [ | c s]; simpl.
    + split; [discriminate | intros [b Hb]; discriminate].
    + split.
      * intros H. apply andb_prop in H as [Ha Hp].
        apply Ascii.eqb_eq in Ha. subst c.
        apply IH in Hp as [b ->]. exists b. reflexivity.
      * intros [b Hb]. rewrite app_cons in Hb. injection Hb as <- ->.
        rewrite Ascii.eqb_refl. simpl. apply IH. exists b. reflexivity.
Qed.

Lemma contains_spec (p s : string) :
  Py.contains p s = true <-> exists a b, s = a +:+ p +:+ b.
Proof.
  induction s as [ | c s IH].
  - simpl. rewrite orb_false_r. rewrite startswith_spec. split.
    + intros [b Hb]. exists EmptyString, b. exact Hb.
    + intros (a & b & H). destruct a; [exists b; exact H | discriminate].
  - simpl. rewrite orb_true_iff, startswith_spec, IH. split.
    + intros [[b Hb] | (a & b & ->)].
      * exists EmptyString, b. exact Hb.
      * exists (String c a), b. reflexivity.
    + intros (a & b & H). destruct a as [ | c' a].
      * left. exists b. exact H.
      * right. rewrite app_cons in H. injection H as _ ->. exists a, b. reflexivity.
Qed.

Lemma dumps_str_ordinary (s : string) :
  ordinary s = true -> Json.dumps_str s = quoted s.
Proof. intros H. unfold Json.dumps_str, quoted. now rewrite escape_ordinary. Qed.

(** The text between the quotes of a dumped list: the bracket, the items
    with the separator between them, the bracket. *)
Lemma segments_joined (stored : list string) (tail : string) :
  forallb ordinary stored = true -> stored <> [] -> ordinary tail = true ->
  segments (Py.join ", " (map Json.dumps_str stored) +:+ tail) =
    EmptyString :: intersperse ", " stored ++ [tail].
Proof.
  induction stored as [ | s stored IH]; [contradiction | ].
  intros Ho _ Ht. simpl in Ho. apply andb_prop in Ho as [Hs Ho].
  destruct stored as [ | s' stored].
  - change (Py.join ", " (map Json.dumps_str [s])) with (Json.dumps_str s).
    rewrite (dumps_str_ordinary s Hs). unfold quoted.
    rewrite !append_assoc.
    change (Json.quote +:+ s +:+ Json.quote +:+ tail)
      with (EmptyString +:+ Json.quote +:+ (s +:+ Json.quote +:+ tail)).
    rewrite segments_app_quote, segments_app_quote.
    rewrite (segments_ordinary s Hs), (segments_ordinary tail Ht). reflexivity.
  - change (Py.join ", " (map Json.dumps_str (s :: s' :: stored)))
      with (Json.dumps_str s +:+ ", " +:+ Py.join ", " (map Json.dumps_str (s' :: stored))).
    rewrite (dumps_str_ordinary s Hs). unfold quoted.
    rewrite !append_assoc.
    change (Json.quote +:+ s +:+ Json.quote +:+ ", " +:+
              Py.join ", " (map Json.dumps_str (s' :: stored)) +:+ tail)
      with (EmptyString +:+ Json.quote +:+
              (s +:+ Json.quote +:+
                 (", " +:+ (Py.join ", " (map Json.dumps_str (s' :: stored)) +:+ tail)))).
    rewrite segments_app_quote, segments_app_quote.
    rewrite (segments_ordinary s Hs).
    rewrite (segments_ordinary_app ", ") by reflexivity.
    rewrite IH by (try assumption; discriminate).
    reflexivity.
Qed.

Lemma segments_dumps_list (stored : list string) :
  forallb ordinary stored = true -> stored <> [] ->
  segments (Json.dumps_list stored) = "[" :: intersperse ", " stored ++ ["]"].
Proof.
  intros Ho Hne. unfold Json.dumps_list.
  rewrite (segments_ordinary_app "[") by reflexivity.
  rewrite segments_joined by (try assumption; reflexivity).
  reflexivity.
Qed.

Lemma in_intersperse (sep x : string) (l : list string) :
  In x (intersperse sep l) -> x = sep \/ In x l.
Proof.
  induction l as [ | a l IH]; [intros [] | ].
  destruct l as [ | b l].
  - simpl. intros [<- | []]. right. now left.
  - change (intersperse sep (a :: b :: l)) with (a :: sep :: intersperse sep (b :: l)).
    intros [<- | [<- | H]].
    + right. now left.
    + now left.
    + apply IH in H as [-> | H]; [now left | right; now right].
Qed.

(** An interior element of [x :: middle ++ [y]] lies in [middle]. *)
Lemma interior_in_middle (A : Type) (x y t : A) (middle l r : list A) :
  l <> [] -> r <> [] -> x :: middle ++ [y] = l ++ t :: r -> In t middle.
Proof.
  intros Hl Hr E.
  destruct l as [ | x' l]; [contradiction | ].
  injection E as _ E.
  destruct (exists_last Hr) as (r' & z & ->).
  change (l ++ t :: r' ++ [z]) with (l ++ (t :: r') ++ [z]) in E.
  rewrite app_assoc in E.
  apply app_inj_tail in E as [-> _].
  apply in_elt.
Qed.

(** In the dump of a list of ordinary tags, a quoted ordinary tag occurs
    exactly when the tag is in the list, or is the separator itself and
    the list has two items to separate. *)
Lemma quoted_in_dumps_list (t : string) (stored : list string) :
  ordinary t = true -> forallb ordinary stored = true ->
  Py.contains (quoted t) (Json.dumps_list stored) = true ->
  In t stored \/ t = ", ".
Proof.
  intros Ht Ho Hc.
  destruct stored as [ | s0 stored0] eqn:Es.
  { exfalso. apply contains_spec in Hc as (a & b & E).
    apply (f_equal segments) in E. unfold quoted in E.
    rewrite !append_assoc in E.
    rewrite segments_app_quote, segments_app_quote in E.
    change (segments (Json.dumps_list [])) with ["[]"] in E.
    pose proof (segments_nonempty a) as Ha. pose proof (segments_nonempty b) as Hb.
    rewrite (segments_ordinary t Ht) in E.
    destruct (segments a) as [ | x [ | ? ?]]; try contradiction;
      destruct (segments b); try contradiction; discriminate. }
  rewrite <- Es in *.
  assert (Hne : stored <> []) by (rewrite Es; discriminate).
  apply contains_spec in Hc as (a & b & E).
  apply (f_equal segments) in E. unfold quoted in E.
  rewrite !append_assoc in E.
  rewrite segments_app_quote, segments_app_quote in E.
  rewrite (segments_ordinary t Ht), (segments_dumps_list stored Ho Hne) in E.
  apply interior_in_middle in E;
    [ | apply segments_nonempty | apply segments_nonempty].
  apply in_intersperse in E as [-> | H]; [now right | now left].
Qed.

Lemma contains_app_l (p a b : string) :
  Py.contains p a = true -> Py.contains p (a +:+ b) = true.
Proof.
  rewrite !contains_spec. intros (x & y & ->). exists x, (y +:+ b).
  now rewrite !append_assoc.
Qed.

Lemma contains_app_r (p a b : string) :
  Py.contains p b = true -> Py.contains p (a +:+ b) = true.
Proof.
  rewrite !contains_spec. intros (x & y & ->). exists (a +:+ x), y.
  now rewrite !append_assoc.
Qed.

Lemma contains_refl (p : string) : Py.contains p p = true.
Proof.
  apply contains_spec. exists EmptyString, EmptyString.
  change (p = p +:+ EmptyString). now rewrite append_empty_r.
Qed.

Lemma dumped_contains_member (t : string) (stored : list string) :
  ordinary t = true -> In t stored ->
  Py.contains (quoted t) (Json.dumps_list stored) = true.
Proof.
  intros Ht Hin. unfold Json.dumps_list.
  apply contains_app_r, contains_app_l.
  induction stored as [ | s stored IH]; [destruct Hin | ].
  destruct stored as [ | s' stored].
  - destruct Hin as [-> | []].
    change (Py.join ", " (map Json.dumps_str [t])) with (Json.dumps_str t).
    rewrite (dumps_str_ordinary t Ht). apply contains_refl.
  - change (Py.join ", " (map Json.dumps_str (s :: s' :: stored)))
      with (Json.dumps_str s +:+ ", " +:+ Py.join ", " (map Json.dumps_str (s' :: stored))).
    destruct Hin as [-> | Hin].
    + apply contains_app_l. rewrite (dumps_str_ordinary t Ht). apply contains_refl.
    + apply contains_app_r, contains_app_r, IH, Hin.
Qed.

(** X23: for ordinary tags, none of them the separator, a row whose
    column is the dump of its tag list is a candidate exactly when it
    carries one of the requested tags. *)
Lemma tag_filter_exact_on_dumped_lists (payload : store.MemoryQueryIn)
    (t : string) (ts stored : list string) :
  store.tags payload = Some (t :: ts) ->
  forallb plain (t :: ts) = true ->
  forallb ordinary (t :: ts) = true ->
  forallb ordinary stored = true ->
  ~ In ", " (t :: ts) ->
  store.row_is_candidate payload (Json.dumps_list stored) = true <->
  exists tag, In tag (t :: ts) /\ In tag stored.
Proof.
  intros Htags Hp Ho Hs Hsep.
  rewrite (row_is_candidate_quoted payload t ts _ Htags Hp).
  rewrite forallb_forall in Ho.
  split; intros (tag & Hin & H); exists tag; (split; [exact Hin | ]).
  - apply quoted_in_dumps_list in H as [H | ->];
      [exact H | contradiction | now apply Ho | exact Hs].
  - apply dumped_contains_member; [now apply Ho | exact H].
Qed.

(** The exception: a request for the separator text matches every row
    that stores two tags or more. *)
Lemma separator_request_matches_pairs :
  store.row_is_candidate separator_query (Json.dumps_list ["docker"; "security"]) = true.
Proof. vm_compute. reflexivity. Qed.

End TagFilter.

(** ** Timeouts of the chat orchestrator *)

Section ChatTimeouts.
Import main.

Lemma wait_for_in_time {A} (aw : timed A) (timeout_s : Z) :
  (took aw <= 1000 * timeout_s)%Z -> wait_for aw timeout_s = aw.
Proof.
  intros H. unfold wait_for.
  destruct (Z.ltb_spec (1000 * timeout_s) (took aw)); [lia | reflexivity].
Qed.

Lemma wait_for_overrun {A} (aw : timed A) (timeout_s : Z) :
  (1000 * timeout_s < took aw)%Z ->
  wait_for aw timeout_s = {| took := 1000 * timeout_s; outcome := raise TimeoutError |}.
Proof.
  intros H. unfold wait_for.
  destruct (Z.ltb_spec (1000 * timeout_s) (took aw)); [reflexivity | lia].
Qed.

(** A timeout has one face, whichever budget was spent. *)
Lemma wait_for_timeout_outcome {A} (aw : timed A) (timeout_s : Z) :
  outcome aw = inr TimeoutError -> outcome (wait_for aw timeout_s) = inr TimeoutError.
Proof.
  intros H. unfold wait_for.
  destruct (1000 * timeout_s <? took aw)%Z; [reflexivity | exact H].
Qed.

Lemma chat_on_timeout (cfg : Config) (w : World) (payload : ChatIn)
    (key : option string) (rid : string) :
  require_api_key cfg key = inl tt ->
  outcome (wait_for (_chat_impl cfg w (message payload) rid (detail_level payload))
                    (CHAT_TOTAL_TIMEOUT_S cfg)) = inr TimeoutError ->
  chat cfg w payload key rid = chat_timed_out.
Proof.
  intros Hk Ho. unfold chat. rewrite Hk. cbn [bind]. rewrite Ho. reflexivity.
Qed.

Lemma and_then_ok {A B} (a : timed A) (k : A -> Z -> timed B) (x : A) :
  outcome a = inl x ->
  and_then a k =
    {| took := took a + took (k x (took a)); outcome := outcome (k x (took a)) |}.
Proof. intros E. unfold and_then. rewrite E. reflexivity. Qed.

Lemma and_then_raises {A B} (a : timed A) (k : A -> Z -> timed B) (e : exn) :
  outcome a = inr e -> and_then a k = {| took := took a; outcome := inr e |}.
Proof. intros E. unfold and_then. rewrite E. reflexivity. Qed.

(** The run of [_chat_impl] when retrieval and prompt building finish in
    time: what remains is the generation stage. *)
Lemma _chat_impl_reaches_generation (cfg : Config) (w : World) (message rid : string)
    (detail_level : option DetailLevel) (sources : list SourceRecord) :
  (retrieve_ms w <= 1000 * RETRIEVE_TIMEOUT_S cfg)%Z ->
  retrieve_sources w message None = inl sources ->
  (prompt_ms w <= 1000 * PROMPT_TIMEOUT_S cfg)%Z ->
  outcome (_chat_impl cfg w message rid detail_level) =
    match outcome (wait_for {| took := generate_ms w;
                               outcome := ollama_generate w
                                            (build_prompt message sources detail_level) |}
                            (OLLAMA_TIMEOUT_S cfg)) with
    | inl answer =>
        inl {| answer := answer;
               sources := sources;
               timing_retrieve := retrieve_ms w;
               timing_prompt := prompt_ms w;
               timing_generate :=
                 took (wait_for {| took := generate_ms w;
                                   outcome := ollama_generate w
                                                (build_prompt message sources detail_level) |}
                                (OLLAMA_TIMEOUT_S cfg));
               timing_total :=
                 retrieve_ms w + prompt_ms w
                 + took (wait_for {| took := generate_ms w;
                                     outcome := ollama_generate w
                                                  (build_prompt message sources detail_level) |}
                                  (OLLAMA_TIMEOUT_S cfg));
               _prompt_chars := Py.len (build_prompt message sources detail_level) |}
    | inr e => inr e
    end
  /\ took (_chat_impl cfg w message rid detail_level) =
       (retrieve_ms w + (prompt_ms w +
          match outcome (wait_for {| took := generate_ms w;
                                     outcome := ollama_generate w
                                                  (build_prompt message sources detail_level) |}
                                  (OLLAMA_TIMEOUT_S cfg)) with
          | inl _ =>
              took (wait_for {| took := generate_ms w;
                                outcome := ollama_generate w
                                             (build_prompt message sources detail_level) |}
                             (OLLAMA_TIMEOUT_S cfg)) + 0
          | inr _ =>
              took (wait_for {| took := generate_ms w;
                                outcome := ollama_generate w
                                             (build_prompt message sources detail_level) |}
                             (OLLAMA_TIMEOUT_S cfg))
          end))%Z.
Proof.
  intros Hr Hs Hp. unfold _chat_impl.
  rewrite (and_then_ok _ _ sources)
    by (rewrite wait_for_in_time by exact Hr; exact Hs).
  rewrite (wait_for_in_time _ (RETRIEVE_TIMEOUT_S cfg)) by exact Hr.
  cbn [took outcome].
  rewrite (and_then_ok _ _ (build_prompt message sources detail_level))
    by (rewrite wait_for_in_time by exact Hp; reflexivity).
  rewrite (wait_for_in_time _ (PROMPT_TIMEOUT_S cfg)) by exact Hp.
  cbn [took outcome].
  unfold and_then.
  destruct (outcome (wait_for _ (OLLAMA_TIMEOUT_S cfg))); split; reflexivity.
Qed.

(** C4, as the code has it: a generation stage that overruns its budget
    aborts the chat with HTTP 504 "Chat timed out." and no answer; this
    is the very response given when the stages together overrun the total
    budget. *)
Theorem generate_timeout_is_chat_timeout (cfg : Config) (w : World)
    (payload : ChatIn) (key : option string) (rid : string) :
  require_api_key cfg key = inl tt ->
  (generation_overruns cfg w payload ->
     chat cfg w payload key rid = chat_timed_out
     /\ forall out, chat cfg w payload key rid <> inl out)
  /\ (total_overruns cfg w payload ->
        chat cfg w payload key rid = chat_timed_out).
Proof.
  intros Hk. split.
  - intros (Hr & (sources & Hs) & Hp & Hg).
    assert (E : chat cfg w payload key rid = chat_timed_out).
    { apply chat_on_timeout; [exact Hk | ].
      apply wait_for_timeout_outcome.
      destruct (_chat_impl_reaches_generation cfg w (message payload) rid
                  (detail_level payload) sources Hr Hs Hp) as [Ho _].
      rewrite Ho, wait_for_overrun by exact Hg. reflexivity. }
    split; [exact E | ]. intros out. rewrite E. discriminate.
  - intros (Hr & (sources & Hs & answer & Ha) & Hp & Hg & Ht).
    apply chat_on_timeout; [exact Hk | ].
    destruct (_chat_impl_reaches_generation cfg w (message payload) rid
                (detail_level payload) sources Hr Hs Hp) as [Ho Hd].
    rewrite wait_for_in_time in Ho, Hd by exact Hg.
    cbn [outcome took] in Ho, Hd. rewrite Ha in Ho, Hd.
    rewrite wait_for_overrun; [reflexivity | ].
    rewrite Hd. lia.
Qed.

Lemma slow_generation_overruns : generation_overruns tight_config slow_generation tls_question.
Proof.
  unfold generation_overruns. cbn [tight_config slow_generation lab_world
    retrieve_ms prompt_ms generate_ms RETRIEVE_TIMEOUT_S PROMPT_TIMEOUT_S OLLAMA_TIMEOUT_S].
  split; [lia | ]. split; [ | split; lia].
  eexists. vm_compute. reflexivity.
Qed.

Lemma slow_overall_overruns : total_overruns tight_config slow_overall tls_question.
Proof.
  unfold total_overruns. cbn [tight_config slow_overall lab_world
    retrieve_ms prompt_ms generate_ms RETRIEVE_TIMEOUT_S PROMPT_TIMEOUT_S
    OLLAMA_TIMEOUT_S CHAT_TOTAL_TIMEOUT_S].
  split; [lia | ]. split; [ | repeat split; lia].
  eexists. split; [vm_compute; reflexivity | ].
  eexists. vm_compute. reflexivity.
Qed.

Lemma generate_timeout_is_chat_timeout_witness :
  chat tight_config slow_generation tls_question (Some "secret") "rid-1" = chat_timed_out
  /\ chat tight_config slow_overall tls_question (Some "secret") "rid-2" = chat_timed_out.
Proof.
  split.
  - apply (proj1 (generate_timeout_is_chat_timeout tight_config slow_generation
                    tls_question (Some "secret") "rid-1" eq_refl)).
    split; [vm_compute; discriminate | ].
    split; [eexists; vm_compute; reflexivity | ].
    split; [vm_compute; discriminate | vm_compute; reflexivity].
  - apply (proj2 (generate_timeout_is_chat_timeout tight_config slow_overall
                    tls_question (Some "secret") "rid-2" eq_refl)).
    split; [vm_compute; discriminate | ].
    split.
    { eexists. split; [vm_compute; reflexivity | ]. eexists. vm_compute. reflexivity. }
    split; [vm_compute; discriminate | ].
    split; [vm_compute; discriminate | vm_compute; reflexivity].
Defined.

(** C4 as stated fails: the generation-stage timeout, raised while
    3.99 s of the total budget remain, is reported exactly as the overall
    timeout is. *)
Lemma stage_timeout_not_distinguished :
  generation_overruns tight_config slow_generation tls_question
  /\ (retrieve_ms slow_generation + prompt_ms slow_generation
      + 1000 * OLLAMA_TIMEOUT_S tight_config
      < 1000 * CHAT_TOTAL_TIMEOUT_S tight_config)%Z
  /\ total_overruns tight_config slow_overall tls_question
  /\ chat tight_config slow_generation tls_question (Some "secret") "rid-1"
     = inr (HTTPException 504 "Chat timed out.")
  /\ chat tight_config slow_generation tls_question (Some "secret") "rid-1"
     = chat tight_config slow_overall tls_question (Some "secret") "rid-2".
Proof.
  split; [exact slow_generation_overruns | ].
  split; [vm_compute; reflexivity | ].
  split; [exact slow_overall_overruns | ].
  split; vm_compute; reflexivity.
Qed.

End ChatTimeouts.

(** ** The tags column read back: [json.loads] after [json.dumps] *)

Section JsonRoundTrip.
Import Json.

Lemma app_cons' (c : ascii) (a b : string) : String c a +:+ b = String c (a +:+ b).
Proof. reflexivity. Qed.

(** Reading back one escaped character. *)
Lemma scanstring_escape_char (c : ascii) (x : string) :
  scanstring (escape_char c +:+ x) =
    match scanstring x with
    | Some (cps, rest) => Some (Py.ord c :: cps, rest)
    | None => None
    end.
Proof.
  destruct c as [[] [] [] [] [] [] [] []]; reflexivity.
Qed.

Lemma scanstring_escape (s tail : string) :
  scanstring (escape s +:+ quote +:+ tail) = Some (code_points s, tail).
Proof.
  induction s as [ | c s IH]; [reflexivity | ].
  change (escape (String c s)) with (escape_char c +:+ escape s).
  rewrite append_assoc, scanstring_escape_char, IH. reflexivity.
Qed.

Lemma ord_below_256 (c : ascii) : (Py.ord c < 256)%N.
Proof. apply N_ascii_bounded. Qed.

Lemma join_surrogates_small (l : list N) :
  Forall (fun u => (u < 55296)%N) l -> join_surrogates l = l.
Proof.
  induction l as [ | u l IH]; intros H; [reflexivity | ].
  inversion H as [ | ? ? Hu Hl]; subst.
  destruct l as [ | v l']; [reflexivity | ].
  change (join_surrogates (u :: v :: l'))
    with (if is_high_surrogate u && is_low_surrogate v
          then (65536 + (u - 55296) * 1024 + (v - 56320))%N :: join_surrogates l'
          else u :: join_surrogates (v :: l')).
  assert (Hh : is_high_surrogate u = false).
  { unfold is_high_surrogate, Py.in_range.
    destruct (N.leb_spec 55296 u); [lia | reflexivity]. }
  rewrite Hh. cbn [andb]. f_equal. now apply IH.
Qed.

(** Code points of a [str] of the model are no surrogates. *)
Lemma join_surrogates_code_points (s : string) :
  join_surrogates (code_points s) = code_points s.
Proof.
  apply join_surrogates_small.
  induction s as [ | c s IH]; [constructor | ].
  constructor; [ | exact IH]. pose proof (ord_below_256 c). lia.
Qed.

Lemma scan_once_dumps_str (fuel depth : nat) (s tail : string) :
  scan_once (S fuel) depth (dumps_str s +:+ tail) = Found (Str (code_points s)) tail.
Proof.
  unfold dumps_str. rewrite !append_assoc.
  change (quote +:+ escape s +:+ quote +:+ tail)
    with (String (ascii_of_nat 34) (escape s +:+ quote +:+ tail)).
  cbn [scan_once]. change (Py.ord (ascii_of_nat 34) =? 34)%N with true. cbv iota.
  now rewrite scanstring_escape, join_surrogates_code_points.
Qed.

Lemma dumps_str_head (s : string) :
  exists r, dumps_str s = String (ascii_of_nat 34) r.
Proof. unfold dumps_str. eexists. reflexivity. Qed.

Lemma join_dumps_head (s : string) (l : list string) :
  exists r, Py.join ", " (map dumps_str (s :: l)) = String (ascii_of_nat 34) r.
Proof.
  destruct l as [ | s' l].
  - apply dumps_str_head.
  - change (Py.join ", " (map dumps_str (s :: s' :: l)))
      with (dumps_str s +:+ ", " +:+ Py.join ", " (map dumps_str (s' :: l))).
    unfold dumps_str. eexists. reflexivity.
Qed.

Lemma JSONArray_S (fuel depth : nat) (acc : list value) (s : string) :
  JSONArray (S fuel) depth acc s =
    match scan_once fuel depth s with
    | Found v r =>
        match skip_ws r with
        | String d r' =>
            if (Py.ord d =? 93)%N then Found (Arr (rev (v :: acc))) r'
            else if (Py.ord d =? 44)%N then JSONArray fuel depth (v :: acc) (skip_ws r')
            else Bad
        | EmptyString => Bad
        end
    | Bad => Bad
    | TooDeep container => TooDeep container
    | Exhausted => Exhausted
    end.
Proof. reflexivity. Qed.

(** The items of a dumped list, read back by the array loop. *)
Lemma JSONArray_dumps (l : list string) (s : string) (acc : list value)
    (fuel depth : nat) :
  length l < fuel ->
  JSONArray (S fuel) depth acc (Py.join ", " (map dumps_str (s :: l)) +:+ "]")
  = Found (Arr (rev acc ++ map (fun s => Str (code_points s)) (s :: l))) EmptyString.
Proof.
  revert s acc fuel; induction l as [ | s' l IH]; intros s acc fuel Hf;
    (destruct fuel as [ | fuel]; [simpl in Hf; lia | ]); rewrite JSONArray_S.
  - change (Py.join ", " (map dumps_str [s])) with (dumps_str s).
    rewrite scan_once_dumps_str. reflexivity.
  - change (Py.join ", " (map dumps_str (s :: s' :: l)))
      with (dumps_str s +:+ ", " +:+ Py.join ", " (map dumps_str (s' :: l))).
    rewrite !append_assoc, scan_once_dumps_str.
    destruct (join_dumps_head s' l) as [r Hr].
    change (skip_ws (", " +:+ Py.join ", " (map dumps_str (s' :: l)) +:+ "]"))
      with (String "," (String " " (Py.join ", " (map dumps_str (s' :: l)) +:+ "]"))).
    cbv iota. change (Py.ord "," =? 93)%N with false. change (Py.ord "," =? 44)%N with true.
    cbv iota.
    change (skip_ws (String " " (Py.join ", " (map dumps_str (s' :: l)) +:+ "]")))
      with (skip_ws (Py.join ", " (map dumps_str (s' :: l)) +:+ "]")).
    assert (Hskip : skip_ws (Py.join ", " (map dumps_str (s' :: l)) +:+ "]")
                    = Py.join ", " (map dumps_str (s' :: l)) +:+ "]")
      by (rewrite Hr; reflexivity).
    rewrite Hskip, IH by (simpl in Hf; lia).
    cbn [rev map]. rewrite <- app_assoc. reflexivity.
Qed.

(** [json.loads(json.dumps(tags)) == tags] for a list of strings, with
    one level of recursion or more. *)
Lemma loads_within_dumps_list (depth : nat) (l : list string) :
  loads_within (S depth) (dumps_list l) = inl (json_strings l).
Proof.
  unfold loads_within, dumps_list, json_strings.
  change (skip_ws ("[" +:+ Py.join ", " (map dumps_str l) +:+ "]"))
    with ("[" +:+ Py.join ", " (map dumps_str l) +:+ "]").
  destruct l as [ | s l].
  - reflexivity.
  - set (text := "[" +:+ Py.join ", " (map dumps_str (s :: l)) +:+ "]").
    assert (Hlen : length (s :: l) <= S (String.length (Py.join ", " (map dumps_str (s :: l))))).
    { rewrite <- (length_map dumps_str). apply join_length_ge. simpl. lia. }
    assert (Hb : exists fuel, budget text = S (S fuel) /\ length l < fuel).
    { unfold budget, text.
      change (String.length ("[" +:+ Py.join ", " (map dumps_str (s :: l)) +:+ "]"))
        with (S (String.length (Py.join ", " (map dumps_str (s :: l)) +:+ "]"))).
      assert (Happ : String.length (Py.join ", " (map dumps_str (s :: l)) +:+ "]")
                     = String.length (Py.join ", " (map dumps_str (s :: l))) + 1).
      { generalize (Py.join ", " (map dumps_str (s :: l))). intros x.
        induction x as [ | c x IHx]; [reflexivity | ].
        rewrite app_cons'. simpl. now rewrite IHx. }
      rewrite Happ. cbn [length] in Hlen.
      exists (2 * String.length (Py.join ", " (map dumps_str (s :: l))) + 4).
      split; lia. }
    destruct Hb as (fuel & -> & Hf).
    unfold text. destruct (join_dumps_head s l) as [r Hr].
    assert (Hopen : forall f x,
               scan_once (S f) (S depth) (String "[" (String (ascii_of_nat 34) x))
               = JSONArray f depth [] (String (ascii_of_nat 34) x)) by reflexivity.
    change ("[" +:+ Py.join ", " (map dumps_str (s :: l)) +:+ "]")
      with (String "[" (Py.join ", " (map dumps_str (s :: l)) +:+ "]")).
    rewrite Hr, app_cons', Hopen, <- app_cons', <- Hr.
    rewrite JSONArray_dumps by exact Hf.
    reflexivity.
Qed.

Lemma loads_dumps_list (l : list string) :
  loads (dumps_list l) = inl (json_strings l).
Proof. apply (loads_within_dumps_list 998). Qed.

(** *** Cut dumps *)

Lemma take_app_le (n : nat) (a b : string) :
  n <= String.length a -> Py.take n (a +:+ b) = Py.take n a.
Proof.
  revert a; induction n as [ | n IH]; intros a Hn; [reflexivity | ].
  destruct a as [ | c a]; [simpl in Hn; lia | ].
  rewrite app_cons'. cbn [Py.take]. f_equal. apply IH. simpl in Hn. lia.
Qed.

Lemma take_app_ge (n : nat) (a b : string) :
  String.length a <= n -> Py.take n (a +:+ b) = a +:+ Py.take (n - String.length a) b.
Proof.
  revert n; induction a as [ | c a IH]; intros n Hn.
  - cbn [String.length]. rewrite Nat.sub_0_r. reflexivity.
  - destruct n as [ | n]; [simpl in Hn; lia | ].
    rewrite !app_cons'. cbn [Py.take String.length Nat.sub]. f_equal. apply IH.
    simpl in Hn. lia.
Qed.

(** No prefix of an escaped character, the whole of it included, closes
    a string. *)
Lemma scanstring_take_escape_char (c : ascii) (k : nat) :
  scanstring (Py.take k (escape_char c)) = None.
Proof.
  destruct c as [[] [] [] [] [] [] [] []];
    do 7 (destruct k as [ | k]; [reflexivity | ]); reflexivity.
Qed.

Lemma scanstring_take_escape (s : string) (n : nat) :
  scanstring (Py.take n (escape s)) = None.
Proof.
  revert n; induction s as [ | c s IH]; intros n.
  - destruct n; reflexivity.
  - change (escape (String c s)) with (escape_char c +:+ escape s).
    destruct (Nat.le_gt_cases n (String.length (escape_char c))) as [H | H].
    + rewrite take_app_le by exact H. apply scanstring_take_escape_char.
    + rewrite take_app_ge by lia. rewrite scanstring_escape_char. now rewrite IH.
Qed.

Lemma scan_once_empty (fuel depth : nat) : rejected (scan_once fuel depth EmptyString).
Proof. destruct fuel; exact I. Qed.

Lemma JSONArray_empty (fuel depth : nat) (acc : list value) :
  rejected (JSONArray fuel depth acc EmptyString).
Proof.
  destruct fuel as [ | fuel]; [exact I | ]. rewrite JSONArray_S.
  destruct fuel; exact I.
Qed.

(** Scanning a cut item: nothing is found unless the cut lies behind the
    closing quote. *)
Lemma scan_once_take_dumps_str (fuel depth : nat) (s tail : string) (n : nat) :
  rejected (scan_once fuel depth (Py.take n (dumps_str s +:+ tail)))
  \/ exists m, scan_once fuel depth (Py.take n (dumps_str s +:+ tail))
               = Found (Str (code_points s)) (Py.take m tail).
Proof.
  destruct n as [ | n]; [left; apply scan_once_empty | ].
  destruct fuel as [ | fuel]; [left; exact I | ].
  unfold dumps_str. rewrite !append_assoc.
  change (quote +:+ escape s +:+ quote +:+ tail)
    with (String (ascii_of_nat 34) (escape s +:+ quote +:+ tail)).
  cbn [Py.take].
  assert (Hstr : forall x,
             scan_once (S fuel) depth (String (ascii_of_nat 34) x) =
               match scanstring x with
               | Some (cps, rest) => Found (Str (join_surrogates cps)) rest
               | None => Bad
               end) by reflexivity.
  rewrite Hstr.
  destruct (Nat.le_gt_cases n (String.length (escape s))) as [H | H].
  - rewrite take_app_le by exact H. rewrite scanstring_take_escape. left. exact I.
  - rewrite take_app_ge by lia.
    destruct (n - String.length (escape s)) as [ | m] eqn:E; [lia | ].
    change (Py.take (S m) (quote +:+ tail)) with (quote +:+ Py.take m tail).
    rewrite scanstring_escape, join_surrogates_code_points.
    right. exists m. reflexivity.
Qed.

Lemma skip_ws_take_join (s : string) (l : list string) (k : nat) :
  skip_ws (Py.take k (Py.join ", " (map dumps_str (s :: l))))
  = Py.take k (Py.join ", " (map dumps_str (s :: l))).
Proof.
  destruct (join_dumps_head s l) as [r ->].
  destruct k; reflexivity.
Qed.

(** The array loop finds nothing in a list cut before its closing
    bracket. *)
Lemma JSONArray_take_join (l : list string) (s : string) (acc : list value)
    (fuel depth n : nat) :
  rejected (JSONArray fuel depth acc (Py.take n (Py.join ", " (map dumps_str (s :: l))))).
Proof.
  revert s acc fuel n; induction l as [ | s' l IH]; intros s acc fuel n;
    (destruct fuel as [ | fuel]; [exact I | ]); rewrite JSONArray_S.
  - change (Py.join ", " (map dumps_str [s])) with (dumps_str s).
    rewrite <- (append_empty_r (dumps_str s)).
    destruct (scan_once_take_dumps_str fuel depth s EmptyString n) as [H | [m ->]].
    + destruct (scan_once fuel depth _); [destruct H | exact I | destruct H | exact I].
    + destruct m; exact I.
  - change (Py.join ", " (map dumps_str (s :: s' :: l)))
      with (dumps_str s +:+ ", " +:+ Py.join ", " (map dumps_str (s' :: l))).
    destruct (scan_once_take_dumps_str fuel depth s
                (", " +:+ Py.join ", " (map dumps_str (s' :: l))) n) as [H | [m ->]].
    + destruct (scan_once fuel depth _); [destruct H | exact I | destruct H | exact I].
    + destruct m as [ | [ | m]].
      * exact I.
      * change (Py.take 1 (", " +:+ Py.join ", " (map dumps_str (s' :: l))))
          with (String "," EmptyString).
        change (skip_ws ",") with (String "," EmptyString). cbv iota.
        change (Py.ord "," =? 93)%N with false. change (Py.ord "," =? 44)%N with true.
        cbv iota. apply JSONArray_empty.
      * change (Py.take (S (S m)) (", " +:+ Py.join ", " (map dumps_str (s' :: l))))
          with (String "," (String " " (Py.take m (Py.join ", " (map dumps_str (s' :: l)))))).
        change (skip_ws (String "," (String " "
                  (Py.take m (Py.join ", " (map dumps_str (s' :: l)))))))
          with (String "," (String " " (Py.take m (Py.join ", " (map dumps_str (s' :: l)))))).
        cbv iota.
        change (Py.ord "," =? 93)%N with false. change (Py.ord "," =? 44)%N with true.
        cbv iota.
        change (skip_ws (String " " (Py.take m (Py.join ", " (map dumps_str (s' :: l))))))
          with (skip_ws (Py.take m (Py.join ", " (map dumps_str (s' :: l))))).
        rewrite skip_ws_take_join. apply IH.
Qed.

Lemma string_length_app (a b : string) :
  String.length (a +:+ b) = String.length a + String.length b.
Proof.
  induction a as [ | c a IH]; [reflexivity | ].
  rewrite app_cons'. simpl. now rewrite IH.
Qed.

(** A dumped list cut anywhere before its end is not JSON. *)
Lemma loads_within_take_dumps_list (depth : nat) (l : list string) (n : nat) :
  n < String.length (dumps_list l) ->
  loads_within (S depth) (Py.take n (dumps_list l)) = inr JSONDecodeError.
Proof.
  intros Hn.
  assert (Hnf : forall x, rejected x ->
            match x with
            | Found v rest =>
                match skip_ws rest with
                | EmptyString => ret v
                | String _ _ => raise JSONDecodeError
                end
            | TooDeep container => raise (RecursionError (recursion_message container))
            | Bad | Exhausted => raise JSONDecodeError
            end = inr JSONDecodeError).
  { intros [v r | | k | ] H; [destruct H | reflexivity | destruct H | reflexivity]. }
  destruct n as [ | n]; [reflexivity | ].
  unfold dumps_list in *.
  change ("[" +:+ Py.join ", " (map dumps_str l) +:+ "]")
    with (String "[" (Py.join ", " (map dumps_str l) +:+ "]")) in *.
  cbn [Py.take String.length] in *.
  rewrite string_length_app in Hn. cbn [String.length] in Hn.
  rewrite take_app_le by lia.
  unfold loads_within.
  change (skip_ws (String "[" (Py.take n (Py.join ", " (map dumps_str l)))))
    with (String "[" (Py.take n (Py.join ", " (map dumps_str l)))).
  apply Hnf.
  destruct l as [ | s l].
  - destruct n; exact I.
  - destruct (join_dumps_head s l) as [r Hr].
    destruct n as [ | n]; [exact I | ].
    assert (Hopen : forall f x,
               scan_once (S f) (S depth) (String "[" (String (ascii_of_nat 34) x))
               = JSONArray f depth [] (String (ascii_of_nat 34) x)) by reflexivity.
    assert (HP : Py.take (S n) (Py.join ", " (map dumps_str (s :: l)))
                 = String (ascii_of_nat 34) (Py.take n r))
      by (rewrite Hr; reflexivity).
    unfold budget.
    replace (2 * String.length
                   (String "[" (Py.take (S n) (Py.join ", " (map dumps_str (s :: l))))) + 2)
      with (S (2 * String.length
                       (String "[" (Py.take (S n) (Py.join ", " (map dumps_str (s :: l))))) + 1))
      by lia.
    rewrite HP at 2. rewrite Hopen, <- HP.
    apply JSONArray_take_join.
Qed.

Lemma loads_take_dumps_list (l : list string) (n : nat) :
  n < String.length (dumps_list l) ->
  loads (Py.take n (dumps_list l)) = inr JSONDecodeError.
Proof. apply (loads_within_take_dumps_list 998). Qed.

End JsonRoundTrip.

(** ** Ingestion: what a document becomes in the store *)

Section Ingest.

Lemma take_S_cons (n : nat) (c : ascii) (s : string) :
  Py.take (S n) (String c s) = String c (Py.take n s).
Proof. reflexivity. Qed.

Lemma take_take (n m : nat) (s : string) :
  n <= m -> Py.take n (Py.take m s) = Py.take n s.
Proof.
  revert m s; induction n as [ | n IH]; intros m s H; [reflexivity | ].
  destruct m as [ | m]; [lia | ].
  destruct s as [ | c s]; [reflexivity | ].
  rewrite !take_S_cons. f_equal. apply IH. lia.
Qed.

Lemma get_or_empty_default (e : gmap string string) (k v : string) :
  e !! k = Some v -> get_or e k "" = v.
Proof.
  intros H. unfold get_or. rewrite H.
  destruct (String.eqb_spec v ""); [now subst | reflexivity].
Qed.

Lemma get_or_present (e : gmap string string) (k v d : string) :
  e !! k = Some v -> v <> "" -> get_or e k d = v.
Proof.
  intros H Hv. unfold get_or. rewrite H.
  destruct (String.eqb_spec v ""); [contradiction | reflexivity].
Qed.

Lemma column_text (id : Z) (vec : list Q) (text : string) (doc : milvus_client.Doc) :
  milvus_client.row_columns (milvus_client.insert_data id vec text doc) !! "text"
  = Some (Py.take 65535 text).
Proof.
  unfold milvus_client.insert_data. cbn [milvus_client.row_columns].
  repeat (rewrite lookup_insert_ne by discriminate).
  first [apply lookup_insert_eq | apply lookup_singleton_eq].
Qed.

Lemma column_title (id : Z) (vec : list Q) (text : string) (doc : milvus_client.Doc) :
  milvus_client.row_columns (milvus_client.insert_data id vec text doc) !! "title"
  = Some (Py.take 1024 (default "" (milvus_client.title doc))).
Proof.
  unfold milvus_client.insert_data. cbn [milvus_client.row_columns].
  repeat (rewrite lookup_insert_ne by discriminate).
  first [apply lookup_insert_eq | apply lookup_singleton_eq].
Qed.

Lemma column_url (id : Z) (vec : list Q) (text : string) (doc : milvus_client.Doc) :
  milvus_client.row_columns (milvus_client.insert_data id vec text doc) !! "url"
  = Some (Py.take 2048 (default "" (milvus_client.url doc))).
Proof.
  unfold milvus_client.insert_data. cbn [milvus_client.row_columns].
  repeat (rewrite lookup_insert_ne by discriminate).
  first [apply lookup_insert_eq | apply lookup_singleton_eq].
Qed.

Lemma column_source (id : Z) (vec : list Q) (text : string) (doc : milvus_client.Doc) :
  milvus_client.row_columns (milvus_client.insert_data id vec text doc) !! "source"
  = Some (Py.take 512 (default "" (milvus_client.source doc))).
Proof.
  unfold milvus_client.insert_data. cbn [milvus_client.row_columns].
  repeat (rewrite lookup_insert_ne by discriminate).
  first [apply lookup_insert_eq | apply lookup_singleton_eq].
Qed.

Lemma column_published_date (id : Z) (vec : list Q) (text : string)
    (doc : milvus_client.Doc) :
  milvus_client.row_columns (milvus_client.insert_data id vec text doc) !! "published_date"
  = Some (Py.take 64 (default "" (milvus_client.published_date doc))).
Proof.
  unfold milvus_client.insert_data. cbn [milvus_client.row_columns].
  repeat (rewrite lookup_insert_ne by discriminate).
  first [apply lookup_insert_eq | apply lookup_singleton_eq].
Qed.

Lemma column_tags (id : Z) (vec : list Q) (text : string) (doc : milvus_client.Doc) :
  milvus_client.row_columns (milvus_client.insert_data id vec text doc) !! "tags"
  = Some (milvus_client.stored_tags (milvus_client.tags doc)).
Proof.
  unfold milvus_client.insert_data. cbn [milvus_client.row_columns].
  repeat (rewrite lookup_insert_ne by discriminate).
  first [apply lookup_insert_eq | apply lookup_singleton_eq].
Qed.

Lemma stored_tags_head (t : option (list string)) :
  exists rest, milvus_client.stored_tags t = String "[" rest.
Proof.
  eexists. unfold milvus_client.stored_tags, Json.dumps_list.
  apply (take_S_cons 2047).
Qed.

Lemma stored_tags_not_empty (t : option (list string)) :
  milvus_client.stored_tags t <> "".
Proof. destruct (stored_tags_head t) as [rest ->]. discriminate. Qed.

Lemma loads_stored_tags (t : option (list string)) :
  (Json.loads (milvus_client.stored_tags t) = inl (json_strings (default [] t))
   /\ Py.len (Json.dumps_list (default [] t)) <= 2048)
  \/ (Json.loads (milvus_client.stored_tags t) = inr JSONDecodeError
      /\ 2048 < Py.len (Json.dumps_list (default [] t))).
Proof.
  unfold milvus_client.stored_tags.
  destruct (Nat.le_gt_cases (Py.len (Json.dumps_list (default [] t))) 2048) as [H | H].
  - left. rewrite take_all by exact H. split; [apply loads_dumps_list | exact H].
  - right. split; [now apply loads_take_dumps_list | exact H].
Qed.

Lemma source_of_written (raw_uuid : list Byte.byte) (vec : list Q)
    (doc : milvus_client.Doc) (score : Q) :
  source_of_hit (hit_of_row (row_written raw_uuid vec doc) score) =
    inl {| title := Py.take 1024 (default "" (milvus_client.title doc));
           url := Py.take 2048 (default "" (milvus_client.url doc));
           source := Py.take 512 (default "" (milvus_client.source doc));
           published_date := Py.take 64 (default "" (milvus_client.published_date doc));
           tags := match Json.loads (milvus_client.stored_tags (milvus_client.tags doc)) with
                   | inl v => v
                   | inr _ => Json.Arr []
                   end;
           distance := score;
           snippet := Py.take 800 (Py.strip (default "" (milvus_client.text doc))) |}.
Proof.
  unfold source_of_hit, source_of_hit_within, hit_of_row, row_written.
  cbn [pymilvus.entity pymilvus.score].
  rewrite (get_or_present _ _ _ _ (column_tags _ _ _ _) (stored_tags_not_empty _)).
  rewrite parse_tags_within_cases.
  change (Json.loads_within (Json.RECURSION_LIMIT - 1)) with Json.loads.
  rewrite (get_or_empty_default _ _ _ (column_text _ _ _ _)).
  rewrite (get_or_empty_default _ _ _ (column_title _ _ _ _)).
  rewrite (get_or_empty_default _ _ _ (column_url _ _ _ _)).
  rewrite (get_or_empty_default _ _ _ (column_source _ _ _ _)).
  rewrite (get_or_empty_default _ _ _ (column_published_date _ _ _ _)).
  change RAG_MAX_SOURCE_CHARS with 800.
  rewrite take_take by (apply Nat.leb_le; vm_compute; reflexivity).
  assert (Hloads : parse_result (Json.loads
                     (milvus_client.stored_tags (milvus_client.tags doc)))).
  { destruct (loads_stored_tags (milvus_client.tags doc)) as [[-> _] | [-> _]];
      exact I. }
  destruct (Json.loads (milvus_client.stored_tags (milvus_client.tags doc)))
    as [v | [ | | | | | | | | | | | ]]; try destruct Hloads; reflexivity.
Qed.

(** X1: tags written by [insert_doc] whose dump fits in the 2048
    characters of the column are read back by the retriever as the same
    list of strings. *)
Theorem ingested_tags_round_trip (raw_uuid : list Byte.byte) (vec : list Q)
    (doc : milvus_client.Doc) (score : Q) :
  Py.len (Json.dumps_list (default [] (milvus_client.tags doc))) <= 2048 ->
  exists r : SourceRecord,
    source_of_hit (hit_of_row (row_written raw_uuid vec doc) score) = inl r
    /\ tags r = json_strings (default [] (milvus_client.tags doc)).
Proof.
  intros H. rewrite source_of_written. eexists; split; [reflexivity | ].
  cbn [tags]. unfold milvus_client.stored_tags.
  rewrite take_all by exact H. now rewrite loads_dumps_list.
Qed.

Lemma ingested_tags_round_trip_witness :
  exists r : SourceRecord,
    source_of_hit
      (hit_of_row
         (row_written sample_uuid sample_vector (milvus_client.model_dump sample_article))
         (9 # 10)) = inl r
    /\ tags r = json_strings ["milvus"; "vector"].
Proof.
  apply (ingested_tags_round_trip sample_uuid sample_vector
           (milvus_client.model_dump sample_article) (9 # 10)).
  apply Nat.leb_le. vm_compute. reflexivity.
Defined.

(** X2: tags whose dump is longer than 2048 characters are cut in the
    column, and the retriever then reads the document back with no tags
    at all, not with the tags that fitted. *)
Theorem ingested_tags_cut_are_dropped (raw_uuid : list Byte.byte) (vec : list Q)
    (doc : milvus_client.Doc) (score : Q) :
  2048 < Py.len (Json.dumps_list (default [] (milvus_client.tags doc))) ->
  exists r : SourceRecord,
    source_of_hit (hit_of_row (row_written raw_uuid vec doc) score) = inl r
    /\ tags r = Json.Arr [].
Proof.
  intros H. rewrite source_of_written. eexists; split; [reflexivity | ].
  cbn [tags]. unfold milvus_client.stored_tags.
  now rewrite loads_take_dumps_list by exact H.
Qed.

Lemma ingested_tags_cut_are_dropped_witness :
  exists r : SourceRecord,
    source_of_hit
      (hit_of_row (row_written sample_uuid sample_vector doc_with_many_tags) (9 # 10))
    = inl r
    /\ tags r = Json.Arr [].
Proof.
  apply (ingested_tags_cut_are_dropped sample_uuid sample_vector doc_with_many_tags
           (9 # 10)).
  apply Nat.ltb_lt. vm_compute. reflexivity.
Defined.

Lemma ArticleIn_validate_bounds (b : schemas.ArticleBody) (a : schemas.ArticleIn) :
  schemas.ArticleIn_validate b = inl a ->
  Py.len (schemas.title a) <= 200
  /\ Py.len (schemas.url a) <= 2048
  /\ Py.len (schemas.source a) <= 200
  /\ Py.len (schemas.published_date a) <= 30
  /\ 1 <= Py.len (schemas.text a)
  /\ Py.len (schemas.text a) <= 30000.
Proof.
  unfold schemas.ArticleIn_validate.
  destruct (schemas.body_text b) as [text | ]; [ | discriminate].
  match goal with |- (if ?c then _ else _) = _ -> _ => destruct c eqn:E end;
    [ | discriminate].
  intros [= <-].
  cbn [schemas.title schemas.url schemas.source schemas.published_date schemas.text].
  unfold schemas.at_most in E.
  repeat (apply andb_prop in E; destruct E as [E ?]).
  repeat match goal with H : (_ <=? _) = true |- _ => apply Nat.leb_le in H end.
  repeat split; assumption.
Qed.

(** X3: a document that passed validation comes back from retrieval with
    the title, URL, source and date it was submitted with, none of them
    cut, and with the first 800 characters of its stripped text as the
    snippet. *)
Theorem ingested_article_round_trip (b : schemas.ArticleBody) (a : schemas.ArticleIn)
    (raw_uuid : list Byte.byte) (vec : list Q) (score : Q) :
  schemas.ArticleIn_validate b = inl a ->
  exists r : SourceRecord,
    source_of_hit
      (hit_of_row (row_written raw_uuid vec (milvus_client.model_dump a)) score) = inl r
    /\ title r = schemas.title a
    /\ url r = schemas.url a
    /\ source r = schemas.source a
    /\ published_date r = schemas.published_date a
    /\ distance r = score
    /\ snippet r = Py.take 800 (Py.strip (schemas.text a)).
Proof.
  intros Hv. apply ArticleIn_validate_bounds in Hv as (Ht & Hu & Hs & Hd & _ & _).
  rewrite source_of_written. eexists; split; [reflexivity | ].
  cbn [title url source published_date distance snippet milvus_client.model_dump
       milvus_client.title milvus_client.url milvus_client.source
       milvus_client.published_date milvus_client.text from_option id].
  rewrite !take_all by lia.
  split; [reflexivity | ]. split; [reflexivity | ]. split; [reflexivity | ].
  split; [reflexivity | ]. split; reflexivity.
Qed.

Lemma ingested_article_round_trip_witness :
  exists r : SourceRecord,
    source_of_hit
      (hit_of_row
         (row_written sample_uuid sample_vector (milvus_client.model_dump sample_article))
         (9 # 10)) = inl r
    /\ title r = "Milvus"
    /\ url r = "https://example.org/milvus"
    /\ source r = ""
    /\ published_date r = "2024-05-01"
    /\ distance r = 9 # 10
    /\ snippet r = Py.take 800 (Py.strip "  Milvus stores vectors.  ").
Proof.
  apply (ingested_article_round_trip sample_body sample_article sample_uuid
           sample_vector (9 # 10)).
  vm_compute. reflexivity.
Defined.

Lemma take_fits (n : nat) (z : Z) (s : string) :
  Z.of_nat n = z -> (Z.of_nat (Py.len (Py.take n s)) <= z)%Z.
Proof. intros <-. apply Nat2Z.inj_le, take_length. Qed.

(** X4: the row that [insert_doc] builds has exactly the string columns
    that [_build_schema] declares, and none of them holds more characters
    than the [max_length] declared for it, whatever the document. *)
Theorem inserted_columns_fit_schema (id : Z) (vec : list Q) (text : string)
    (doc : milvus_client.Doc) :
  let columns := milvus_client.row_columns (milvus_client.insert_data id vec text doc) in
  Forall
    (fun f =>
       match pymilvus.dtype f with
       | pymilvus.VARCHAR =>
           exists (v : string) (n : Z),
             columns !! pymilvus.name f = Some v
             /\ pymilvus.max_length f = Some n
             /\ (Z.of_nat (Py.len v) <= n)%Z
       | _ => columns !! pymilvus.name f = None
       end)
    (pymilvus.fields milvus_client._build_schema)
  /\ (forall (k v : string),
        columns !! k = Some v ->
        exists f, In f (pymilvus.fields milvus_client._build_schema)
                  /\ pymilvus.name f = k /\ pymilvus.dtype f = pymilvus.VARCHAR).
Proof.
  intros columns. split.
  - unfold milvus_client._build_schema. cbn [pymilvus.fields].
    repeat (apply List.Forall_cons); try apply List.Forall_nil;
      cbn [pymilvus.dtype pymilvus.name pymilvus.max_length milvus_client.varchar].
    + subst columns. unfold milvus_client.insert_data. cbn [milvus_client.row_columns].
      repeat (rewrite lookup_insert_ne by discriminate).
      now apply lookup_singleton_ne.
    + subst columns. unfold milvus_client.insert_data. cbn [milvus_client.row_columns].
      repeat (rewrite lookup_insert_ne by discriminate).
      now apply lookup_singleton_ne.
    + eexists _, _. split; [apply column_text | ]. split; [reflexivity | ].
      apply take_fits. vm_compute. reflexivity.
    + eexists _, _. split; [apply column_title | ]. split; [reflexivity | ].
      apply take_fits. reflexivity.
    + eexists _, _. split; [apply column_url | ]. split; [reflexivity | ].
      apply take_fits. reflexivity.
    + eexists _, _. split; [apply column_source | ]. split; [reflexivity | ].
      apply take_fits. reflexivity.
    + eexists _, _. split; [apply column_published_date | ]. split; [reflexivity | ].
      apply take_fits. reflexivity.
    + eexists _, _. split; [apply column_tags | ]. split; [reflexivity | ].
      unfold milvus_client.stored_tags. apply take_fits. reflexivity.
  - intros k v. subst columns. unfold milvus_client.insert_data.
    cbn [milvus_client.row_columns]. intros H.
    apply lookup_insert_Some in H as [[<- _] | [_ H]].
    { exists (milvus_client.varchar "text" 65535).
      split; [ | split; reflexivity]. right. right. left. reflexivity. }
    apply lookup_insert_Some in H as [[<- _] | [_ H]].
    { exists (milvus_client.varchar "title" 1024).
      split; [ | split; reflexivity]. do 3 right. left. reflexivity. }
    apply lookup_insert_Some in H as [[<- _] | [_ H]].
    { exists (milvus_client.varchar "url" 2048).
      split; [ | split; reflexivity]. do 4 right. left. reflexivity. }
    apply lookup_insert_Some in H as [[<- _] | [_ H]].
    { exists (milvus_client.varchar "source" 512).
      split; [ | split; reflexivity]. do 5 right. left. reflexivity. }
    apply lookup_insert_Some in H as [[<- _] | [_ H]].
    { exists (milvus_client.varchar "published_date" 64).
      split; [ | split; reflexivity]. do 6 right. left. reflexivity. }
    apply lookup_singleton_Some in H as [<- _].
    exists (milvus_client.varchar "tags" 2048).
    split; [ | split; reflexivity]. do 7 right. left. reflexivity.
Qed.

(** X5: the identifier that [_make_id] derives from a UUID is the
    big-endian value of its first eight bytes with the top bit cleared, so
    it always lies in the non-negative INT64 range; the other bytes of the
    UUID play no part. *)
Theorem make_id_range (raw : list Byte.byte) :
  (0 <= milvus_client._make_id raw < 2 ^ 63)%Z
  /\ milvus_client._make_id raw
     = (milvus_client.from_bytes_big (firstn 8 raw) mod 2 ^ 63)%Z
  /\ milvus_client._make_id raw = milvus_client._make_id (firstn 8 raw).
Proof.
  assert (E : milvus_client._make_id raw
              = (milvus_client.from_bytes_big (firstn 8 raw) mod 2 ^ 63)%Z).
  { unfold milvus_client._make_id.
    change 0x7FFFFFFFFFFFFFFF%Z with (Z.ones 63).
    apply Z.land_ones. lia. }
  split; [rewrite E; apply Z.mod_pos_bound; lia | ].
  split; [exact E | ].
  unfold milvus_client._make_id. now rewrite firstn_firstn.
Qed.

Lemma lstrip_all_space (s : string) : all_space s = true -> Py.lstrip s = "".
Proof.
  induction s as [ | c s IH]; [reflexivity | ].
  simpl. intros H. apply andb_prop in H as [Hc Hs]. rewrite Hc. now apply IH.
Qed.

(** X6: a text of whitespace only passes validation, which counts its
    characters before they are stripped, and is then stored as the empty
    text. *)
Theorem blank_text_is_stored_empty (text : string) (raw_uuid : list Byte.byte)
    (vec : list Q) :
  all_space text = true ->
  1 <= Py.len text ->
  Py.len text <= 30000 ->
  exists a : schemas.ArticleIn,
    schemas.ArticleIn_validate (body_with_text text) = inl a
    /\ schemas.text a = text
    /\ milvus_client.row_columns
         (row_written raw_uuid vec (milvus_client.model_dump a)) !! "text" = Some "".
Proof.
  intros Hs H1 H2.
  unfold schemas.ArticleIn_validate, body_with_text.
  cbn [schemas.body_text schemas.body_title schemas.body_url schemas.body_source
       schemas.body_published_date schemas.body_tags from_option id].
  unfold schemas.at_most.
  apply Nat.leb_le in H1, H2. rewrite H1, H2.
  change (Py.len "") with 0. cbn [Nat.leb andb].
  eexists. split; [reflexivity | ]. split; [reflexivity | ].
  unfold row_written. rewrite column_text.
  cbn [milvus_client.model_dump milvus_client.text schemas.text from_option id].
  unfold Py.strip. rewrite lstrip_all_space by exact Hs. reflexivity.
Qed.

Lemma blank_text_is_stored_empty_witness :
  exists a : schemas.ArticleIn,
    schemas.ArticleIn_validate (body_with_text "   ") = inl a
    /\ schemas.text a = "   "
    /\ milvus_client.row_columns
         (row_written sample_uuid sample_vector (milvus_client.model_dump a)) !! "text"
       = Some "".
Proof.
  apply (blank_text_is_stored_empty "   " sample_uuid sample_vector).
  - reflexivity.
  - simpl. lia.
  - apply Nat.leb_le. vm_compute. reflexivity.
Defined.

End Ingest.

(** ** The collection lifecycle from any server *)

Section Lifecycle.
Import pymilvus.

Lemma ensure_collection_unreachable (s : Server) :
  reachable s = false ->
  milvus_client.ensure_collection s =
    (inr (MilvusException "connection failed"), s, [Connect]).
Proof.
  intros Hr.
  unfold milvus_client.ensure_collection, sdk_bind, milvus_client._connect, connect.
  now rewrite Hr.
Qed.

(** Every run of [ensure_collection]: the server is out of reach; or the
    call goes through; or the collection is there without an index and
    without the vector field to build one on, and the index is refused. *)
Lemma ensure_collection_cases (s : Server) :
  (reachable s = false
   /\ milvus_client.ensure_collection s =
        (inr (MilvusException "connection failed"), s, [Connect]))
  \/ (reachable s = true
      /\ exists (s1 : Server) (calls1 : list Call) (c1 : CollectionState),
           milvus_client.ensure_collection s =
             (inl milvus_client.MILVUS_COLLECTION, s1, calls1)
           /\ reachable s1 = true
           /\ collections s1 !! milvus_client.MILVUS_COLLECTION = Some c1
           /\ indexes c1 <> []
           /\ loaded c1 = true
           /\ schema c1 = match collections s !! milvus_client.MILVUS_COLLECTION with
                          | Some c => schema c
                          | None => milvus_client._build_schema
                          end
           /\ (forall n, n <> milvus_client.MILVUS_COLLECTION ->
                 collections s1 !! n = collections s !! n))
  \/ (reachable s = true
      /\ exists (c : CollectionState) (calls : list Call),
           collections s !! milvus_client.MILVUS_COLLECTION = Some c
           /\ indexes c = []
           /\ has_vector_field (schema c) "embedding" = false
           /\ milvus_client.ensure_collection s =
                (inr (MilvusException "cannot create index on non-existent field"),
                 s, calls)).
Proof.
  destruct (reachable s) eqn:Hr;
    [right | left; split; [reflexivity | now apply ensure_collection_unreachable]].
  unfold milvus_client.ensure_collection.
  rewrite (sdk_bind_ok _ _ s s tt [Connect])
    by (unfold milvus_client._connect, connect; cbv beta; now rewrite Hr).
  destruct (collections s !! milvus_client.MILVUS_COLLECTION) as [c | ] eqn:Hc.
  - rewrite (sdk_bind_ok _ _ s s true _ (has_collection_present s _ c Hc)).
    cbn [negb].
    rewrite (sdk_bind_ok _ _ s s milvus_client.MILVUS_COLLECTION
               [DescribeCollection milvus_client.MILVUS_COLLECTION])
      by (unfold Collection_existing; cbv beta; now rewrite Hc).
    destruct (decide (indexes c = [])) as [Hi | Hi].
    + destruct (has_vector_field (schema c) "embedding") eqn:Hv.
      * left. split; [reflexivity | ].
        rewrite (sdk_bind_ok _ _ s _ tt _ (_ensure_index_unindexed s _ c Hc Hi Hv)).
        rewrite (sdk_bind_ok _ _ _ _ tt _
                   (load_present _ _ _ (lookup_set_collection _ _ _))).
        do 3 eexists. split; [reflexivity | ]. simpl.
        rewrite lookup_insert_eq.
        split; [exact Hr | ]. split; [reflexivity | ].
        split; [discriminate | ]. split; [reflexivity | ]. split; [reflexivity | ].
        intros n Hn. now rewrite !lookup_insert_ne by congruence.
      * right. split; [reflexivity | ]. exists c. eexists.
        split; [reflexivity | ]. split; [exact Hi | ]. split; [exact Hv | ].
        unfold sdk_bind at 1.
        rewrite (_ensure_index_refused s _ c Hc Hi Hv). reflexivity.
    + left. split; [reflexivity | ].
      rewrite (sdk_bind_ok _ _ s s tt _ (_ensure_index_indexed s _ c Hc Hi)).
      rewrite (sdk_bind_ok _ _ s _ tt _ (load_present s _ c Hc)).
      do 3 eexists. split; [reflexivity | ]. simpl.
      rewrite lookup_insert_eq.
      split; [exact Hr | ]. split; [reflexivity | ].
      split; [assumption | ]. split; [reflexivity | ]. split; [reflexivity | ].
      intros n Hn. now rewrite !lookup_insert_ne by congruence.
  - left. split; [reflexivity | ].
    rewrite (sdk_bind_ok _ _ s s false _ (has_collection_absent s _ Hc)).
    cbn [negb].
    erewrite (sdk_bind_ok _ _ s _ milvus_client.MILVUS_COLLECTION
               [CreateCollection milvus_client.MILVUS_COLLECTION])
      by (unfold Collection_with_schema; cbv beta; now rewrite Hc).
    rewrite (sdk_bind_ok _ _ _ _ tt _
               (_ensure_index_unindexed _ _
                  {| schema := milvus_client._build_schema; indexes := [];
                     loaded := false |}
                  (lookup_set_collection _ _ _) eq_refl eq_refl)).
    rewrite (sdk_bind_ok _ _ _ _ tt _
               (load_present _ _ _ (lookup_set_collection _ _ _))).
    do 3 eexists. split; [reflexivity | ]. simpl.
    rewrite lookup_insert_eq.
    split; [exact Hr | ]. split; [reflexivity | ].
    split; [discriminate | ]. split; [reflexivity | ]. split; [reflexivity | ].
    intros n Hn. now rewrite !lookup_insert_ne by congruence.
Qed.

(** X9: whenever [ensure_collection] returns, the server is reachable and
    the collection exists, has an index and is loaded.  A collection that
    was already there keeps its schema, also one that differs from
    [_build_schema], and the other collections are left as they were. *)
Theorem ensure_collection_postcondition (s s' : Server) (name : string)
    (calls : list Call) :
  milvus_client.ensure_collection s = (inl name, s', calls) ->
  name = milvus_client.MILVUS_COLLECTION
  /\ exists c' : CollectionState,
       collections s' !! milvus_client.MILVUS_COLLECTION = Some c'
       /\ indexes c' <> []
       /\ loaded c' = true
       /\ (forall c, collections s !! milvus_client.MILVUS_COLLECTION = Some c ->
             schema c' = schema c)
       /\ (collections s !! milvus_client.MILVUS_COLLECTION = None ->
             schema c' = milvus_client._build_schema)
       /\ (forall n, n <> milvus_client.MILVUS_COLLECTION ->
             collections s' !! n = collections s !! n).
Proof.
  intros E.
  destruct (ensure_collection_cases s)
    as [(_ & E1) | [(_ & s1 & calls1 & c1 & E1 & _ & Hc1 & Hi1 & Hl1 & Hs1 & Hframe)
                   | (_ & c & calls0 & _ & _ & _ & E1)]];
    rewrite E1 in E; [discriminate E | | discriminate E].
  injection E as <- <- <-.
  split; [reflexivity | ]. exists c1.
  split; [exact Hc1 | ]. split; [exact Hi1 | ]. split; [exact Hl1 | ].
  split; [intros c Hc; now rewrite Hs1, Hc | ].
  split; [intros Hc; now rewrite Hs1, Hc | exact Hframe].
Qed.

Lemma ensure_collection_postcondition_witness :
  milvus_client.MILVUS_COLLECTION = milvus_client.MILVUS_COLLECTION
  /\ exists c' : CollectionState,
       collections server_after_first_call !! milvus_client.MILVUS_COLLECTION = Some c'
       /\ indexes c' <> []
       /\ loaded c' = true
       /\ (forall c,
             collections (milvus_client.server empty_store)
               !! milvus_client.MILVUS_COLLECTION = Some c ->
             schema c' = schema c)
       /\ (collections (milvus_client.server empty_store)
             !! milvus_client.MILVUS_COLLECTION = None ->
             schema c' = milvus_client._build_schema)
       /\ (forall n, n <> milvus_client.MILVUS_COLLECTION ->
             collections server_after_first_call !! n
             = collections (milvus_client.server empty_store) !! n).
Proof.
  apply (ensure_collection_postcondition (milvus_client.server empty_store)
           server_after_first_call milvus_client.MILVUS_COLLECTION calls_of_first_call).
  vm_compute. reflexivity.
Defined.


(** X11: the memory store creates its index only together with the
    collection.  On a server that already holds the collection,
    [_ensure_collection] sends no create request, and the collection keeps
    the indexes it had: one that was created without an index stays
    without one. *)
Theorem memory_collection_is_never_reindexed (s : Server) (c : CollectionState) :
  collections s !! store.SECURITY_COLLECTION = Some c ->
  exists (r : result string) (s' : Server) (calls : list Call),
    store._ensure_collection s = (r, s', calls)
    /\ (forall call, In call calls -> is_create call = false)
    /\ exists c' : CollectionState,
         collections s' !! store.SECURITY_COLLECTION = Some c'
         /\ indexes c' = indexes c
         /\ schema c' = schema c.
Proof.
  intros Hc. unfold store._ensure_collection.
  destruct (reachable s) eqn:Hr.
  - rewrite (sdk_bind_ok _ _ s s tt [Connect])
      by (unfold connect; now rewrite Hr).
    rewrite (sdk_bind_ok _ _ s s true _ (has_collection_present s _ c Hc)).
    cbn [negb].
    rewrite (sdk_bind_ok _ _ s s store.SECURITY_COLLECTION
               [DescribeCollection store.SECURITY_COLLECTION])
      by (unfold Collection_existing; cbv beta; now rewrite Hc).
    rewrite (sdk_bind_ok _ _ s _ tt _ (load_present s _ c Hc)).
    do 3 eexists. split; [reflexivity | ]. split.
    + intros call Hin. simpl in Hin.
      repeat (destruct Hin as [<- | Hin]; [reflexivity | ]). destruct Hin.
    + exists (loaded_copy c). simpl. rewrite lookup_insert_eq.
      split; [reflexivity | ]. split; reflexivity.
  - unfold sdk_bind at 1. unfold connect at 1. rewrite Hr.
    do 3 eexists. split; [reflexivity | ]. split.
    + intros call [<- | []]. reflexivity.
    + exists c. split; [exact Hc | ]. split; reflexivity.
Qed.

Lemma memory_collection_is_never_reindexed_witness :
  exists (r : result string) (s' : Server) (calls : list Call),
    store._ensure_collection server_with_unindexed_memory = (r, s', calls)
    /\ (forall call, In call calls -> is_create call = false)
    /\ exists c' : CollectionState,
         collections s' !! store.SECURITY_COLLECTION = Some c'
         /\ indexes c' = []
         /\ schema c' = store._build_security_schema.
Proof.
  apply (memory_collection_is_never_reindexed server_with_unindexed_memory
           {| schema := store._build_security_schema; indexes := []; loaded := false |}).
  vm_compute. reflexivity.
Defined.

End Lifecycle.

(** ** [insert_doc] on the store *)

Section InsertDoc.
Import pymilvus.







End InsertDoc.

(** ** The chat handlers: keys, outcomes and counters *)

Section ChatHandlers.
Import main.

Lemma require_api_key_cases (cfg : Config) (key : option string) :
  (require_api_key cfg key = inl tt
   /\ EDGE_API_KEY cfg <> "" /\ key = Some (EDGE_API_KEY cfg))
  \/ (exists code detail,
        require_api_key cfg key = inr (HTTPException code detail)
        /\ (EDGE_API_KEY cfg = "" \/ key <> Some (EDGE_API_KEY cfg))
        /\ (EDGE_API_KEY cfg = "" -> code = 500)
        /\ (EDGE_API_KEY cfg <> "" -> key = None \/ key = Some "" -> code = 401)
        /\ (EDGE_API_KEY cfg <> "" ->
            forall k, key = Some k -> k <> "" -> code = 403)).
Proof.
  unfold require_api_key.
  destruct (String.eqb_spec (EDGE_API_KEY cfg) "") as [Hs | Hs].
  { right. do 2 eexists. split; [reflexivity | ].
    split; [now left | ]. split; [reflexivity | ].
    split; intros; contradiction. }
  destruct key as [k | ]; cbn [from_option id].
  - destruct (String.eqb_spec k "") as [Hk | Hk].
    + right. do 2 eexists. split; [reflexivity | ].
      split; [right; intros [= E]; congruence | ].
      split; [intros; contradiction | ]. split; [reflexivity | ].
      intros _ k' [= <-] Hk'. contradiction.
    + destruct (String.eqb_spec k (EDGE_API_KEY cfg)) as [He | He]; cbn [negb].
      * left. subst k. split; [reflexivity | ]. split; [exact Hs | reflexivity].
      * right. do 2 eexists. split; [reflexivity | ].
        split; [right; intros [= E]; congruence | ].
        split; [intros; contradiction | ].
        split; [intros _ [H | [= H]]; [discriminate | contradiction] | ].
        reflexivity.
  - right. do 2 eexists. split; [reflexivity | ].
    split; [right; discriminate | ].
    split; [intros; contradiction | ]. split; [reflexivity | ].
    intros _ k [=].
Qed.




(** A body that fails validation is answered 422 also when the key is
    wrong: the key is not looked at. *)
Lemma invalid_body_with_wrong_key :
  post_chat tight_config slow_generation one_letter_body (Some "guess") "rid-3"
  = inr (HTTPException 422 "validation error").
Proof. reflexivity. Qed.

(** X13: whatever the backends do, [/chat] either answers or raises an
    HTTP exception with one of the codes 401, 403, 500 and 504; no other
    exception escapes the handler. *)
Theorem chat_outcomes (cfg : Config) (w : World) (payload : ChatIn)
    (key : option string) (rid : string) :
  (exists out, chat cfg w payload key rid = inl out)
  \/ (exists (code : nat) (detail : string),
        chat cfg w payload key rid = inr (HTTPException code detail)
        /\ In code [401; 403; 500; 504]).
Proof.
  unfold chat.
  destruct (require_api_key_cases cfg key)
    as [(E & _) | (code & detail & E & Hbad & H500 & H401 & H403)]; rewrite E; cbv [bind].
  - destruct (outcome (wait_for _ _)) as [r | e].
    + left. eexists. reflexivity.
    + right. destruct e; do 2 eexists; (split; [reflexivity | simpl; tauto]).
  - right. exists code, detail. split; [reflexivity | ].
    destruct (String.eqb_spec (EDGE_API_KEY cfg) "") as [Hs | Hs].
    + rewrite (H500 Hs). simpl; tauto.
    + destruct key as [k | ].
      * destruct (String.eqb_spec k "") as [Hk | Hk].
        -- subst k. rewrite (H401 Hs (or_intror eq_refl)). simpl; tauto.
        -- rewrite (H403 Hs k eq_refl Hk). simpl; tauto.
      * rewrite (H401 Hs (or_introl eq_refl)). simpl; tauto.
Qed.

(** X14: [/chat] answers exactly when the key is right, every stage ends
    within its own budget and all of them within the total budget,
    retrieval succeeds and generation succeeds; the sources returned are
    the ones the prompt was built from, and the answer is the generation
    for that prompt. *)
Theorem chat_answers_iff (cfg : Config) (w : World) (payload : ChatIn)
    (key : option string) (rid : string) (out : ChatOut) :
  chat cfg w payload key rid = inl out
  <->
  require_api_key cfg key = inl tt
  /\ (retrieve_ms w <= 1000 * RETRIEVE_TIMEOUT_S cfg)%Z
  /\ (prompt_ms w <= 1000 * PROMPT_TIMEOUT_S cfg)%Z
  /\ (generate_ms w <= 1000 * OLLAMA_TIMEOUT_S cfg)%Z
  /\ (retrieve_ms w + prompt_ms w + generate_ms w <= 1000 * CHAT_TOTAL_TIMEOUT_S cfg)%Z
  /\ retrieve_sources w (message payload) None = inl (out_sources out)
  /\ ollama_generate w
       (build_prompt (message payload) (out_sources out) (detail_level payload))
     = inl (out_answer out).
Proof.
  unfold chat.
  destruct (require_api_key cfg key) as [[] | e0] eqn:Hk; cbv [bind];
    [ | split; [discriminate | intros (H & _); discriminate]].
  unfold _chat_impl.
  destruct (Z.ltb_spec (1000 * RETRIEVE_TIMEOUT_S cfg) (retrieve_ms w)) as [Hr | Hr].
  { rewrite (and_then_raises _ _ TimeoutError)
      by (rewrite wait_for_overrun by exact Hr; reflexivity).
    rewrite wait_for_timeout_outcome by reflexivity.
    split; [discriminate | intros (_ & H & _); lia]. }
  rewrite (wait_for_in_time _ (RETRIEVE_TIMEOUT_S cfg)) by exact Hr.
  destruct (retrieve_sources w (message payload) None) as [srcs | e] eqn:Hs.
  2:{ rewrite (and_then_raises _ _ e) by reflexivity.
      unfold wait_for. cbn [took outcome].
      destruct (_ <? _)%Z; cbn [outcome raise];
        (split; [destruct e; discriminate | intros (_ & _ & _ & _ & _ & H & _); discriminate]). }
  rewrite (and_then_ok _ _ srcs) by reflexivity. cbn [took outcome].
  destruct (Z.ltb_spec (1000 * PROMPT_TIMEOUT_S cfg) (prompt_ms w)) as [Hp | Hp].
  { rewrite (and_then_raises _ _ TimeoutError)
      by (rewrite wait_for_overrun by exact Hp; reflexivity).
    cbn [took outcome].
    rewrite wait_for_timeout_outcome by reflexivity.
    split; [discriminate | intros (_ & _ & H & _); lia]. }
  rewrite (wait_for_in_time _ (PROMPT_TIMEOUT_S cfg)) by exact Hp.
  rewrite (and_then_ok _ _ (build_prompt (message payload) srcs (detail_level payload)))
    by reflexivity.
  cbn [took outcome].
  destruct (Z.ltb_spec (1000 * OLLAMA_TIMEOUT_S cfg) (generate_ms w)) as [Hg | Hg].
  { rewrite (and_then_raises _ _ TimeoutError)
      by (rewrite wait_for_overrun by exact Hg; reflexivity).
    cbn [took outcome].
    rewrite wait_for_timeout_outcome by reflexivity.
    split; [discriminate | intros (_ & _ & _ & H & _); lia]. }
  rewrite (wait_for_in_time _ (OLLAMA_TIMEOUT_S cfg)) by exact Hg.
  destruct (ollama_generate w
              (build_prompt (message payload) srcs (detail_level payload)))
    as [ans | e] eqn:Ha.
  2:{ rewrite (and_then_raises _ _ e) by reflexivity.
      cbn [took outcome]. unfold wait_for. cbn [took outcome].
      destruct (_ <? _)%Z; cbn [outcome raise];
        (split; [destruct e; discriminate | ]);
        intros (_ & _ & _ & _ & _ & [= <-] & H); rewrite Ha in H; discriminate. }
  rewrite (and_then_ok _ _ ans) by reflexivity.
  cbn [took outcome].
  destruct (Z.ltb_spec (1000 * CHAT_TOTAL_TIMEOUT_S cfg)
              (retrieve_ms w + (prompt_ms w + (generate_ms w + 0)))) as [Ht | Ht].
  { rewrite wait_for_overrun by exact Ht. cbn [outcome raise].
    split; [discriminate | intros (_ & _ & _ & _ & H & _); lia]. }
  rewrite wait_for_in_time by exact Ht. cbn [outcome ret answer sources].
  split.
  - intros [= <-]. cbn [out_sources out_answer].
    split; [reflexivity | ]. split; [exact Hr | ]. split; [exact Hp | ].
    split; [exact Hg | ]. split; [lia | ]. split; [reflexivity | exact Ha].
  - intros (_ & _ & _ & _ & _ & [= E1] & E2). destruct out as [a ss].
    cbn [out_sources out_answer] in E1, E2. subst ss.
    rewrite Ha in E2. injection E2 as <-. reflexivity.
Qed.

(** X15: [/debug/chat] runs the same pipeline as [/chat]: it returns a
    result exactly when [/chat] answers, with the same answer and the same
    sources, and otherwise fails with the same status code. *)
Theorem debug_chat_agrees_with_chat (cfg : Config) (w : World) (payload : ChatIn)
    (key : option string) (rid : string) :
  (forall r : ChatResult,
     debug_chat cfg w payload key rid = inl r ->
     chat cfg w payload key rid
     = inl {| out_answer := answer r; out_sources := sources r |})
  /\ (forall out : ChatOut,
        chat cfg w payload key rid = inl out ->
        exists r : ChatResult,
          debug_chat cfg w payload key rid = inl r
          /\ answer r = out_answer out /\ sources r = out_sources out)
  /\ (forall (code : nat) (detail : string),
        debug_chat cfg w payload key rid = inr (HTTPException code detail) ->
        exists detail', chat cfg w payload key rid = inr (HTTPException code detail')).
Proof.
  unfold debug_chat, chat.
  destruct (require_api_key cfg key) as [[] | e0]; cbv [bind].
  - destruct (outcome (wait_for _ _)) as [r | e].
    + split; [intros r' [= <-]; reflexivity | ].
      split; [intros out [= <-]; exists r; now cbn | discriminate].
    + split; [destruct e; discriminate | ].
      split; [destruct e; discriminate | ].
      intros code detail. destruct e; intros [= <- <-]; eexists; reflexivity.
  - split; [discriminate | ]. split; [discriminate | ].
    intros code detail [= ->]. eexists; reflexivity.
Qed.

(** X16: [/debug/ollama] has a single handler for every exception, so a
    generation that overruns its budget is reported as status 500 with an
    empty detail, where [/chat] reports 504. *)
Theorem debug_ollama_timeout_is_500 (cfg : Config) (w : World) (payload : ChatIn)
    (key : option string) :
  require_api_key cfg key = inl tt ->
  (1000 * OLLAMA_TIMEOUT_S cfg < generate_ms w)%Z ->
  debug_ollama cfg w payload key = inr (HTTPException 500 "").
Proof.
  intros Hk Hg. unfold debug_ollama. rewrite Hk. cbv [bind].
  now rewrite wait_for_overrun by exact Hg.
Qed.

Lemma debug_ollama_timeout_is_500_witness :
  debug_ollama tight_config slow_generation tls_question (Some "secret")
  = inr (HTTPException 500 "").
Proof.
  apply (debug_ollama_timeout_is_500 tight_config slow_generation tls_question
           (Some "secret")).
  - reflexivity.
  - vm_compute. reflexivity.
Defined.

(** X17: the [/chat] handler with its counters gives the response of the
    handler without them and never touches the ingest counter.  A request
    rejected for its key is not counted at all; any other request adds one
    to the chat counter when it is answered and one to the error counter
    when it is not. *)
Theorem chat_counters (cfg : Config) (w : World) (payload : ChatIn)
    (key : option string) (rid : string) (c : Counters) :
  let r := fst (chat_counting cfg w payload key rid c) in
  let c' := snd (chat_counting cfg w payload key rid c) in
  r = chat cfg w payload key rid
  /\ INGEST_COUNT c' = INGEST_COUNT c
  /\ match require_api_key cfg key with
     | inr _ => c' = c
     | inl _ =>
         match r with
         | inl _ => CHAT_COUNT c' = S (CHAT_COUNT c) /\ ERROR_COUNT c' = ERROR_COUNT c
         | inr _ => CHAT_COUNT c' = CHAT_COUNT c /\ ERROR_COUNT c' = S (ERROR_COUNT c)
         end
     end.
Proof.
  unfold chat_counting, chat.
  destruct (require_api_key cfg key) as [[] | e0]; cbv [bind].
  - destruct (outcome (wait_for _ _)) as [r | e].
    + cbn. split; [reflexivity | ]. split; [reflexivity | split; reflexivity].
    + destruct e; cbn; (split; [reflexivity | ]);
        (split; [reflexivity | split; reflexivity]).
  - cbn. split; [reflexivity | ]. split; reflexivity.
Qed.

(** X18: the chat UI posts the question alone, so the request takes the
    schema default: every question asked through the UI is answered at
    the [standard] level, whatever the classifier would say of it. *)
Theorem ui_chat_is_always_standard (question : string) (payload : ChatIn) :
  ChatIn_validate (gradio_ui.chat_payload question) = inl payload ->
  message payload = question
  /\ chat_detail_level payload = standard
  /\ forall sources, build_prompt (message payload) sources (detail_level payload)
                     = build_prompt question sources (Some standard).
Proof.
  unfold ChatIn_validate, gradio_ui.chat_payload. cbn [body_message body_detail_level].
  destruct (_ && _); [ | discriminate].
  intros [= <-]. cbn [message detail_level].
  split; [reflexivity | ]. split; reflexivity.
Qed.

Lemma ui_chat_is_always_standard_witness :
  message {| message := "docker run -it ubuntu fails with error:x";
             detail_level := Some standard |}
  = "docker run -it ubuntu fails with error:x"
  /\ chat_detail_level {| message := "docker run -it ubuntu fails with error:x";
                          detail_level := Some standard |} = standard
  /\ forall sources,
       build_prompt
         (message {| message := "docker run -it ubuntu fails with error:x";
                     detail_level := Some standard |})
         sources
         (detail_level {| message := "docker run -it ubuntu fails with error:x";
                          detail_level := Some standard |})
       = build_prompt "docker run -it ubuntu fails with error:x" sources (Some standard).
Proof.
  apply (ui_chat_is_always_standard "docker run -it ubuntu fails with error:x").
  vm_compute. reflexivity.
Defined.

End ChatHandlers.

(** ** The classifier: whitespace and the log signal *)

Section ClassifierEdges.

Lemma lstrip_app (a b : string) :
  Py.lstrip (a +:+ b) = if all_space a then Py.lstrip b else Py.lstrip a +:+ b.
Proof.
  induction a as [ | c a IH]; [reflexivity | ].
  change (String c a +:+ b) with (String c (a +:+ b)). simpl.
  destruct (Py.isspace c); [exact IH | reflexivity].
Qed.

Lemma rstrip_all_space (s : string) : all_space s = true -> Py.rstrip s = "".
Proof.
  induction s as [ | c s IH]; [reflexivity | ].
  simpl. intros H. apply andb_prop in H as [Hc Hs].
  now rewrite (IH Hs), Hc.
Qed.

Lemma rstrip_app_space (a ws : string) :
  all_space ws = true -> Py.rstrip (a +:+ ws) = Py.rstrip a.
Proof.
  intros Hws. induction a as [ | c a IH]; [now apply rstrip_all_space | ].
  change (String c a +:+ ws) with (String c (a +:+ ws)). simpl. now rewrite IH.
Qed.

Lemma strip_surrounded (ws1 m ws2 : string) :
  all_space ws1 = true -> all_space ws2 = true ->
  Py.strip (ws1 +:+ m +:+ ws2) = Py.strip m.
Proof.
  intros H1 H2. unfold Py.strip.
  rewrite lstrip_app, H1, lstrip_app.
  destruct (all_space m) eqn:Hm.
  - now rewrite (lstrip_all_space _ H2), (lstrip_all_space _ Hm).
  - now apply rstrip_app_space.
Qed.

(** X19: whitespace around a message plays no part in its
    classification. *)
Theorem classify_ignores_surrounding_whitespace (ws1 m ws2 : string) :
  all_space ws1 = true -> all_space ws2 = true ->
  classify_detail_level (ws1 +:+ m +:+ ws2) = classify_detail_level m.
Proof.
  intros H1 H2. rewrite !classify_unfold.
  now rewrite (strip_surrounded ws1 m ws2 H1 H2).
Qed.

Lemma classify_ignores_surrounding_whitespace_witness :
  classify_detail_level ("  " +:+ "docker run -it ubuntu" +:+ Py.nl)
  = classify_detail_level "docker run -it ubuntu".
Proof.
  apply (classify_ignores_surrounding_whitespace "  " "docker run -it ubuntu" Py.nl).
  - reflexivity.
  - reflexivity.
Defined.

Lemma lit_then_boundary_spec (prev : option ascii) (lit s : string) :
  Py.lit_then_boundary prev lit s = true ->
  exists rest, s = lit +:+ rest
               /\ Py.boundary (last_before prev lit) (Py.head rest) = true.
Proof.
  revert prev s; induction lit as [ | a lit IH]; intros prev s H.
  - exists s. split; [reflexivity | exact H].
  - destruct s as [ | b s]; [discriminate | ].
    simpl in H. apply andb_prop in H as [Hab H].
    apply Ascii.eqb_eq in Hab. subst b.
    destruct (IH _ _ H) as (rest & -> & Hb).
    exists rest. split; [reflexivity | exact Hb].
Qed.

Lemma search_from_spec (prev : option ascii) (alts : list string) (s : string) :
  Py.search_from prev alts s = true ->
  exists (pre post lit : string) (prev' : option ascii),
    s = pre +:+ post /\ In lit alts /\ Py.lit_then_boundary prev' lit post = true.
Proof.
  revert prev; induction s as [ | c s IH]; intros prev H.
  - simpl in H. rewrite orb_false_r in H. unfold Py.match_here in H.
    apply andb_prop in H as [_ H]. apply existsb_exists in H as (lit & Hin & Hl).
    exists EmptyString, EmptyString, lit, prev. split; [reflexivity | split; assumption].
  - simpl in H. apply orb_prop in H as [H | H].
    + unfold Py.match_here in H.
      apply andb_prop in H as [_ H]. apply existsb_exists in H as (lit & Hin & Hl).
      exists EmptyString, (String c s), lit, prev.
      split; [reflexivity | split; assumption].
    + destruct (IH _ H) as (pre & post & lit & prev' & -> & Hin & Hl).
      exists (String c pre), post, lit, prev'.
      split; [reflexivity | split; assumption].
Qed.

Lemma word_follows (a : ascii) (rest : string) :
  Py.isword a = false ->
  Py.boundary (Some a) (Py.head rest) = true ->
  exists c rest', rest = String c rest' /\ Py.isword c = true.
Proof.
  unfold Py.boundary. cbn [Py.word_at]. intros ->.
  destruct rest as [ | c rest']; [discriminate | ].
  cbn [Py.head Py.word_at xorb]. intros H. exists c, rest'. split; [reflexivity | exact H].
Qed.

(** X20: the log signal fires only on [traceback], [exception],
    [stack trace], or on [error:] or [warn[] with a word character right
    after it.  The pattern closes with a word boundary, so [error:]
    followed by a space, or at the end of the message, is not a log
    signal. *)
Theorem has_logs_needs_word_after_punctuation (lower : string) :
  has_logs lower = true ->
  Py.contains "traceback" lower = true
  \/ Py.contains "exception" lower = true
  \/ Py.contains "stack trace" lower = true
  \/ followed_by_word "error:" lower
  \/ followed_by_word "warn[" lower.
Proof.
  unfold has_logs, Py.search_words. intros H.
  apply search_from_spec in H as (pre & post & lit & prev' & -> & Hin & Hl).
  apply lit_then_boundary_spec in Hl as (rest & -> & Hb).
  simpl in Hin.
  destruct Hin as [<- | [<- | [<- | [<- | [<- | []]]]]].
  - left. apply contains_spec. now exists pre, rest.
  - right; left. apply contains_spec. now exists pre, rest.
  - right; right; left. apply contains_spec. now exists pre, rest.
  - right; right; right; left.
    apply word_follows in Hb as (c & rest' & -> & Hc); [ | reflexivity].
    exists c. split; [exact Hc | ]. apply contains_spec. now exists pre, rest'.
  - right; right; right; right.
    apply word_follows in Hb as (c & rest' & -> & Hc); [ | reflexivity].
    exists c. split; [exact Hc | ]. apply contains_spec. now exists pre, rest'.
Qed.

Lemma has_logs_needs_word_after_punctuation_witness :
  Py.contains "traceback" "build failed, error:x" = true
  \/ Py.contains "exception" "build failed, error:x" = true
  \/ Py.contains "stack trace" "build failed, error:x" = true
  \/ followed_by_word "error:" "build failed, error:x"
  \/ followed_by_word "warn[" "build failed, error:x".
Proof.
  apply (has_logs_needs_word_after_punctuation "build failed, error:x").
  vm_compute. reflexivity.
Defined.

End ClassifierEdges.

(** ** From the hits of a search to the numbered context of the prompt *)

Section Citations.

Lemma source_of_hit_fields (hit : pymilvus.Hit) (r : SourceRecord) :
  source_of_hit hit = inl r ->
  title r = default "" (pymilvus.entity hit !! "title")
  /\ url r = default "" (pymilvus.entity hit !! "url")
  /\ snippet r = Py.take 800 (default "" (pymilvus.entity hit !! "text")).
Proof.
  unfold source_of_hit, source_of_hit_within.
  change RAG_MAX_SOURCE_CHARS with 800. rewrite !get_or_lookup.
  set (snip := Py.take 800 _).
  destruct (parse_tags_within _ _) as [v | e]; cbv [bind ret]; [ | discriminate].
  intros [= <-]. cbn [title url snippet]. repeat split.
Qed.

Lemma source_of_hit_raises (hit : pymilvus.Hit) (e : exn) :
  source_of_hit hit = inr e ->
  exists container, e = RecursionError (Json.recursion_message container).
Proof.
  unfold source_of_hit, source_of_hit_within. rewrite parse_tags_within_cases.
  destruct (Json.loads_within _ _) as [v | e0] eqn:E; cbv [bind ret]; [discriminate | ].
  apply loads_within_raises in E as [-> | [container ->]]; [discriminate | ].
  intros [= <-]. now exists container.
Qed.

Lemma sources_of_hits_returns (hits : list pymilvus.Hit) (rs : list SourceRecord) :
  sources_of_hits hits = inl rs ->
  Forall2 (fun hit r => source_of_hit hit = inl r) hits rs.
Proof.
  revert rs; induction hits as [ | hit hits IH]; intros rs; simpl.
  - intros [= <-]. constructor.
  - destruct (source_of_hit hit) as [r | e] eqn:Hr; cbv [bind ret]; [ | discriminate].
    destruct (sources_of_hits hits) as [rs' | e]; [ | discriminate].
    intros [= <-]. constructor; [exact Hr | now apply IH].
Qed.

Lemma sources_of_hits_raises (hits : list pymilvus.Hit) (e : exn) :
  sources_of_hits hits = inr e ->
  exists (i : nat) (hit : pymilvus.Hit),
    hits !! i = Some hit
    /\ source_of_hit hit = inr e
    /\ forall (j : nat) (earlier : pymilvus.Hit),
         j < i -> hits !! j = Some earlier -> exists r, source_of_hit earlier = inl r.
Proof.
  induction hits as [ | hit hits IH]; simpl; [discriminate | ].
  destruct (source_of_hit hit) as [r | e0] eqn:Hr; cbv [bind ret].
  - destruct (sources_of_hits hits) as [rs' | e1]; [discriminate | ].
    intros [= <-]. destruct (IH eq_refl) as (i & hit' & Hi & He & Hbefore).
    exists (S i), hit'. split; [exact Hi | ]. split; [exact He | ].
    intros [ | j] earlier Hj Hl.
    + injection Hl as <-. now exists r.
    + apply (Hbefore j earlier); [lia | exact Hl].
  - intros [= <-]. exists 0, hit. split; [reflexivity | ]. split; [exact Hr | ].
    intros j earlier Hj. lia.
Qed.

Lemma ctx_lines_lookup (k : nat) (rs : list SourceRecord) (i : nat) (r : SourceRecord) :
  rs !! i = Some r -> ctx_lines_from k rs !! i = Some (ctx_line (k + i) r).
Proof.
  revert k i; induction rs as [ | r0 rs IH]; intros k i H; [discriminate | ].
  destruct i as [ | i]; simpl in *.
  - injection H as ->. now rewrite Nat.add_0_r.
  - rewrite (IH (S k) i H). f_equal. f_equal. lia.
Qed.

Lemma ctx_lines_length (k : nat) (rs : list SourceRecord) :
  length (ctx_lines_from k rs) = length rs.
Proof. revert k; induction rs as [ | r rs IH]; intros k; simpl; [ | rewrite IH]; reflexivity. Qed.

Lemma context_of_cases (rs : list SourceRecord) :
  context_of rs = match rs with
                  | [] => "(no sources retrieved)"
                  | _ => Py.join (Py.nl +:+ Py.nl) (ctx_lines_from 1 rs)
                  end.
Proof. destruct rs; reflexivity. Qed.

(** X21: normalising the hits of a search either returns one record per
    hit, in the order of the hits, or raises the [RecursionError] of the
    first hit whose tags column nests too deeply.  When it returns, the
    hit at position [i] (from 0) becomes entry number [i + 1] of the
    context, made of the hit's own title and URL columns and of its text
    column cut to 800 characters; the context is these entries separated
    by an empty line, or a fixed line when there is no hit; and the
    prompt built from the records carries this context under the line
    ["Sources:"], between the level line and the question. *)
Theorem hits_are_cited_in_order (hits : list pymilvus.Hit) (q : string)
    (d : option DetailLevel) :
  match sources_of_hits hits with
  | inl rs =>
      length rs = length hits
      /\ length (ctx_lines_from 1 rs) = length hits
      /\ (forall (i : nat) (hit : pymilvus.Hit),
            hits !! i = Some hit ->
            exists r : SourceRecord,
              source_of_hit hit = inl r
              /\ rs !! i = Some r
              /\ ctx_lines_from 1 rs !! i
                 = Some ("[" +:+ pretty (S i) +:+ "] "
                         +:+ default "" (pymilvus.entity hit !! "title")
                         +:+ " (" +:+ default "" (pymilvus.entity hit !! "url") +:+ ")"
                         +:+ Py.nl
                         +:+ Py.take 800 (default "" (pymilvus.entity hit !! "text"))))
      /\ context_of rs
         = match hits with
           | [] => "(no sources retrieved)"
           | _ => Py.join (Py.nl +:+ Py.nl) (ctx_lines_from 1 rs)
           end
      /\ build_prompt q rs d
         = rules_preamble +:+ style_block (selected_level q d)
           +:+ level_line (selected_level q d)
           +:+ (Py.nl +:+ "Sources:" +:+ Py.nl +:+ context_of rs +:+ Py.nl +:+ Py.nl)
           +:+ question_block q
  | inr e =>
      exists (i : nat) (hit : pymilvus.Hit) (container : string),
        hits !! i = Some hit
        /\ source_of_hit hit = inr e
        /\ e = RecursionError (Json.recursion_message container)
        /\ forall (j : nat) (earlier : pymilvus.Hit),
             j < i -> hits !! j = Some earlier ->
             exists r, source_of_hit earlier = inl r
  end.
Proof.
  destruct (sources_of_hits hits) as [rs | e] eqn:E.
  - pose proof (sources_of_hits_returns hits rs E) as F.
    pose proof (Forall2_length _ _ _ F) as Hlen.
    split; [now symmetry | ].
    split; [rewrite ctx_lines_length; now symmetry | ].
    split; [ | split].
    + intros i hit Hi.
      destruct (Forall2_lookup_l _ _ _ _ _ F Hi) as (r & Hr & Hs).
      exists r. split; [exact Hs | ]. split; [exact Hr | ].
      rewrite (ctx_lines_lookup 1 rs i r Hr).
      destruct (source_of_hit_fields hit r Hs) as (Ht & Hu & Hsn).
      unfold ctx_line. cbn [Nat.add]. now rewrite Ht, Hu, Hsn.
    + rewrite context_of_cases.
      destruct hits as [ | hit hits]; destruct rs as [ | r rs];
        try discriminate Hlen; reflexivity.
    + apply build_prompt_regions.
  - destruct (sources_of_hits_raises hits e E) as (i & hit & Hi & He & Hbefore).
    destruct (source_of_hit_raises hit e He) as [container ->].
    exists i, hit, container.
    split; [exact Hi | ]. split; [exact He | ]. split; [reflexivity | exact Hbefore].
Qed.

(** Two hits, and a hit whose tags cannot be decoded within the levels
    that the interpreter has. *)
Lemma two_hits_are_cited :
  exists r : SourceRecord,
    sources_of_hits [hit_with_cut_tags; hit_with_cut_tags] = inl [r; r]
    /\ context_of [r; r]
       = ctx_line 1 r +:+ Py.nl +:+ Py.nl +:+ ctx_line 2 r.
Proof. eexists. split; reflexivity. Qed.

Lemma nested_hit_stops_retrieval :
  sources_of_hits [hit_with_cut_tags; hit_with_nested_tags]
  = inr (RecursionError (Json.recursion_message "array")).
Proof. vm_compute. reflexivity. Qed.

End Citations.

(** ** The memory query: bounds of the request, and tags that are not
       plain *)

Section MemoryQuery.
Import milvus_expr.

(** X22: for a validated memory query the search asks for 1 to 25 rows,
    six when [top_k] is left out, with a search width [ef] between 64 and
    100 that is never below the number of rows asked for. *)
Theorem memory_query_request_bounds (b p : store.MemoryQueryIn) (qvec : list Q) :
  store.MemoryQueryIn_validate b = inl p ->
  (1 <= pymilvus.limit (store.search_request p qvec) <= 25)%Z
  /\ (64 <= pymilvus.ef (store.search_request p qvec) <= 100)%Z
  /\ (pymilvus.limit (store.search_request p qvec)
      <= pymilvus.ef (store.search_request p qvec))%Z
  /\ (store.top_k p = None -> pymilvus.limit (store.search_request p qvec) = 6%Z)
  /\ (forall k, store.top_k p = Some k ->
        pymilvus.limit (store.search_request p qvec) = k).
Proof.
  unfold store.MemoryQueryIn_validate.
  match goal with |- (if ?c then _ else _) = _ -> _ => destruct c eqn:E end;
    [ | discriminate].
  intros [= <-].
  apply andb_prop in E as [_ E].
  unfold store.search_request. cbn [pymilvus.limit pymilvus.ef].
  unfold top_k_or_default_with, store.SECURITY_TOP_K.
  destruct (store.top_k b) as [k | ].
  - apply andb_prop in E as [E1 E2]. apply Z.leb_le in E1, E2.
    destruct (Z.eqb_spec k 0); [lia | ].
    split; [lia | ]. split; [lia | ]. split; [lia | ].
    split; [discriminate | intros k' [= <-]; reflexivity].
  - cbn. split; [lia | ]. split; [lia | ]. split; [lia | ].
    split; [reflexivity | discriminate].
Qed.

Lemma memory_query_request_bounds_witness :
  (1 <= pymilvus.limit (store.search_request wildcard_query [1 # 2]) <= 25)%Z
  /\ (64 <= pymilvus.ef (store.search_request wildcard_query [1 # 2]) <= 100)%Z
  /\ (pymilvus.limit (store.search_request wildcard_query [1 # 2])
      <= pymilvus.ef (store.search_request wildcard_query [1 # 2]))%Z
  /\ (store.top_k wildcard_query = None ->
      pymilvus.limit (store.search_request wildcard_query [1 # 2]) = 6%Z)
  /\ (forall k, store.top_k wildcard_query = Some k ->
        pymilvus.limit (store.search_request wildcard_query [1 # 2]) = k).
Proof.
  apply (memory_query_request_bounds wildcard_query wildcard_query [1 # 2]).
  vm_compute. reflexivity.
Defined.

Lemma tag_filter_exact_on_dumped_lists_witness :
  store.row_is_candidate docker_query (Json.dumps_list ["docker"; "security"]) = true
  <-> exists tag, In tag ["docker"] /\ In tag ["docker"; "security"].
Proof.
  apply (tag_filter_exact_on_dumped_lists docker_query "docker" [] ["docker"; "security"]).
  - reflexivity.
  - reflexivity.
  - reflexivity.
  - reflexivity.
  - simpl. intros [H | H]; [discriminate H | exact H].
Defined.

Lemma dumps_list_cons_shape (a : string) (rest : list string) :
  exists tail,
    Json.dumps_list (a :: rest)
    = "[" +:+ Json.quote +:+ Json.escape a +:+ Json.quote +:+ tail.
Proof.
  unfold Json.dumps_list. destruct rest as [ | b rest].
  - exists "]". cbn [map Py.join]. unfold Json.dumps_str.
    now rewrite !append_assoc.
  - exists (", " +:+ Py.join ", " (map Json.dumps_str (b :: rest)) +:+ "]").
    change (Py.join ", " (map Json.dumps_str (a :: b :: rest)))
      with (Json.dumps_str a +:+ ", " +:+ Py.join ", " (map Json.dumps_str (b :: rest))).
    unfold Json.dumps_str. now rewrite !append_assoc.
Qed.

(** X24: a request for the tag [", "], the text that [json.dumps] writes
    between two entries, selects every row that stores two tags or more,
    whatever the tags are. *)
Theorem separator_tag_matches_every_multi_tag_row (a b : string) (rest : list string) :
  store.row_is_candidate separator_query (Json.dumps_list (a :: b :: rest)) = true.
Proof.
  apply (row_is_candidate_quoted separator_query ", " []); [reflexivity | reflexivity | ].
  exists ", ". split; [now left | ].
  apply contains_spec.
  destruct (join_dumps_head b rest) as [r Hr].
  exists ("[" +:+ Json.quote +:+ Json.escape a), (r +:+ "]").
  unfold Json.dumps_list.
  change (Py.join ", " (map Json.dumps_str (a :: b :: rest)))
    with (Json.dumps_str a +:+ ", " +:+ Py.join ", " (map Json.dumps_str (b :: rest))).
  rewrite Hr. unfold Json.dumps_str, quoted. rewrite !append_assoc. reflexivity.
Qed.

Lemma like_skip (p x s : string) :
  like p s = true -> like (String "%" p) (x +:+ s) = true.
Proof.
  intros H. induction x as [ | c x IH].
  - change ("" +:+ s) with s. rewrite like_percent_unfold, H. reflexivity.
  - change (String c x +:+ s) with (String c (x +:+ s)).
    rewrite like_percent_unfold, IH. apply orb_true_r.
Qed.

Lemma like_quote (p s : string) :
  like (Json.quote +:+ p) (Json.quote +:+ s) = like p s.
Proof. reflexivity. Qed.

(** X25: the tag text is written into the pattern as it is, so a
    wildcard in it acts as a wildcard: a request for the tag [%] selects
    every row that stores at least one tag. *)
Theorem wildcard_tag_matches_every_tagged_row (a : string) (rest : list string) :
  store.row_is_candidate wildcard_query (Json.dumps_list (a :: rest)) = true.
Proof.
  unfold store.row_is_candidate, candidate.
  change (store.build_expr (store.tags wildcard_query))
    with (Some (store.tag_clause "%")).
  unfold eval.
  replace (parse (S (String.length (store.tag_clause "%"))) (store.tag_clause "%"))
    with (Some [("tags", tag_pattern "%")]) by (vm_compute; reflexivity).
  cbn [existsb from_option id]. rewrite orb_false_r.
  unfold clause_holds. cbn [fst snd]. rewrite lookup_singleton_eq.
  destruct (dumps_list_cons_shape a rest) as [tail ->].
  change (tag_pattern "%")
    with (String "%" (Json.quote +:+ String "%" (Json.quote +:+ "%"))).
  apply (like_skip _ "["). rewrite like_quote.
  apply like_skip. rewrite like_quote. apply like_percent_only.
Qed.

End MemoryQuery.

(** ** Budgets, the generated answer and the debug prompt *)

Section Budgets.
Import main.

Lemma took_wait_for_le {A} (aw : timed A) (timeout_s : Z) :
  (took (wait_for aw timeout_s) <= 1000 * timeout_s)%Z.
Proof.
  unfold wait_for. destruct (Z.ltb_spec (1000 * timeout_s) (took aw)); cbn [took]; lia.
Qed.

Lemma took_and_then_le {A B} (a : timed A) (k : A -> Z -> timed B) (x y : Z) :
  (0 <= y)%Z ->
  (took a <= x)%Z ->
  (forall v t, took (k v t) <= y)%Z ->
  (took (and_then a k) <= x + y)%Z.
Proof.
  intros Hy Ha Hk. unfold and_then.
  destruct (outcome a) as [v | e]; cbn [took]; [specialize (Hk v (took a)) | ]; lia.
Qed.

(** X26: when the three stage budgets together do not exceed the total
    budget, as with the defaults (10 + 5 + 120 against 180 seconds), the
    total budget never fires: the outer [wait_for] of [/chat] passes on
    what [_chat_impl] does, so that a timeout of [/chat] is always the
    timeout of one stage. *)
Theorem total_budget_never_fires (cfg : Config) (w : World) (message rid : string)
    (detail_level : option DetailLevel) :
  (0 <= PROMPT_TIMEOUT_S cfg)%Z ->
  (0 <= OLLAMA_TIMEOUT_S cfg)%Z ->
  (RETRIEVE_TIMEOUT_S cfg + PROMPT_TIMEOUT_S cfg + OLLAMA_TIMEOUT_S cfg
   <= CHAT_TOTAL_TIMEOUT_S cfg)%Z ->
  wait_for (_chat_impl cfg w message rid detail_level) (CHAT_TOTAL_TIMEOUT_S cfg)
  = _chat_impl cfg w message rid detail_level.
Proof.
  intros Hp Hg Hsum. apply wait_for_in_time.
  apply (Z.le_trans _ (1000 * RETRIEVE_TIMEOUT_S cfg
                       + (1000 * PROMPT_TIMEOUT_S cfg
                          + (1000 * OLLAMA_TIMEOUT_S cfg + 0)))); [ | lia].
  unfold _chat_impl.
  apply took_and_then_le; [lia | apply took_wait_for_le | ]. intros sources t_retr.
  apply took_and_then_le; [lia | apply took_wait_for_le | ]. intros prompt t_pr.
  apply took_and_then_le; [lia | apply took_wait_for_le | ]. intros answer t_llm.
  cbn [took]. lia.
Qed.

Lemma total_budget_never_fires_witness :
  wait_for (_chat_impl (default_config "secret") slow_overall "What protocol does X use?"
              "rid-4" None)
           (CHAT_TOTAL_TIMEOUT_S (default_config "secret"))
  = _chat_impl (default_config "secret") slow_overall "What protocol does X use?"
      "rid-4" None.
Proof.
  apply (total_budget_never_fires (default_config "secret") slow_overall
           "What protocol does X use?" "rid-4" None).
  - simpl. lia.
  - simpl. lia.
  - simpl. lia.
Defined.

Lemma rstrip_cons (c : ascii) (s : string) :
  Py.rstrip (String c s) =
    match Py.rstrip s with
    | EmptyString => if Py.isspace c then EmptyString else String c EmptyString
    | r => String c r
    end.
Proof. reflexivity. Qed.

Lemma rstrip_idempotent (s : string) : Py.rstrip (Py.rstrip s) = Py.rstrip s.
Proof.
  induction s as [ | c s IH]; [reflexivity | ].
  rewrite rstrip_cons. destruct (Py.rstrip s) as [ | d r] eqn:E.
  - destruct (Py.isspace c) eqn:Hc; [reflexivity | ].
    rewrite rstrip_cons. cbn [Py.rstrip]. now rewrite Hc.
  - rewrite rstrip_cons, IH. reflexivity.
Qed.

Lemma lstrip_head (s : string) :
  Py.lstrip s = EmptyString
  \/ exists c r, Py.lstrip s = String c r /\ Py.isspace c = false.
Proof.
  induction s as [ | c s IH]; [now left | ].
  simpl. destruct (Py.isspace c) eqn:Hc; [exact IH | ].
  right. exists c, s. split; [reflexivity | exact Hc].
Qed.

Lemma strip_idempotent (s : string) : Py.strip (Py.strip s) = Py.strip s.
Proof.
  unfold Py.strip.
  destruct (lstrip_head s) as [-> | (c & r & -> & Hc)]; [reflexivity | ].
  assert (Hhead : exists r', Py.rstrip (String c r) = String c r').
  { rewrite rstrip_cons. destruct (Py.rstrip r); [ | eexists; reflexivity].
    rewrite Hc. eexists; reflexivity. }
  destruct Hhead as [r' Hr'].
  assert (Hl : Py.lstrip (Py.rstrip (String c r)) = Py.rstrip (String c r)).
  { rewrite Hr'. cbn [Py.lstrip]. now rewrite Hc. }
  rewrite Hl. apply rstrip_idempotent.
Qed.

(** X27: an answer that [ollama_generate] returns is stripped: stripping
    it again changes nothing.  A reply with a success status and no
    [response] entry is not an error: it gives the empty answer. *)
Theorem generated_answer_is_stripped (w : World) (prompt : string) :
  (forall answer, ollama_generate w prompt = inl answer -> Py.strip answer = answer)
  /\ (forall status,
        ollama_generate_reply w prompt = Replied status None ->
        is_success status = true ->
        ollama_generate w prompt = inl "").
Proof.
  unfold ollama_generate, post_json, bind, ret, raise. split.
  - intros answer.
    destruct (ollama_generate_reply w prompt)
      as [msg | status data | status | status type_name];
      [discriminate | | destruct (is_success status); discriminate
       | destruct (is_success status); discriminate].
    destruct (is_success status); [ | discriminate].
    intros [= <-]. apply strip_idempotent.
  - intros status -> ->. reflexivity.
Qed.

(** X28: what [/debug/prompt] returns hangs together: the sources are the
    ones retrieved for the message, the prompt is the one built from them
    at the level of the request, and [prompt_chars] is its length. *)
Theorem debug_prompt_is_consistent (cfg : Config) (w : World) (payload : ChatIn)
    (key : option string) (out : PromptOut) :
  debug_prompt cfg w payload key = inl out ->
  require_api_key cfg key = inl tt
  /\ retrieve_sources w (message payload) None = inl (prompt_sources out)
  /\ prompt out
     = build_prompt (message payload) (prompt_sources out) (detail_level payload)
  /\ prompt_chars out = Py.len (prompt out).
Proof.
  unfold debug_prompt.
  destruct (require_api_key cfg key) as [[] | e0]; cbv [bind]; [ | discriminate].
  unfold and_then.
  destruct (outcome (wait_for {| took := retrieve_ms w;
                                 outcome := retrieve_sources w (message payload) None |}
                              (RETRIEVE_TIMEOUT_S cfg))) as [srcs | e] eqn:Hs.
  2:{ cbn [outcome]. destruct e; discriminate. }
  destruct (outcome (wait_for {| took := prompt_ms w;
                                 outcome := ret (build_prompt (message payload) srcs
                                                              (detail_level payload)) |}
                              (PROMPT_TIMEOUT_S cfg))) as [p | e] eqn:Hp.
  2:{ cbn [outcome]. destruct e; discriminate. }
  cbn [outcome ret]. intros [= <-]. cbn [prompt prompt_sources prompt_chars].
  unfold wait_for in Hs, Hp.
  destruct (_ <? _)%Z in Hs; [discriminate | ].
  destruct (_ <? _)%Z in Hp; [discriminate | ].
  cbn [outcome ret] in Hs, Hp. injection Hp as <-.
  split; [reflexivity | ]. split; [exact Hs | ]. split; reflexivity.
Qed.

Lemma debug_prompt_is_consistent_witness :
  require_api_key tight_config (Some "secret") = inl tt
  /\ retrieve_sources slow_generation (message tls_question) None
     = inl (prompt_sources tls_prompt_out)
  /\ prompt tls_prompt_out
     = build_prompt (message tls_question) (prompt_sources tls_prompt_out)
         (detail_level tls_question)
  /\ prompt_chars tls_prompt_out = Py.len (prompt tls_prompt_out).
Proof.
  apply (debug_prompt_is_consistent tight_config slow_generation tls_question
           (Some "secret") tls_prompt_out).
  vm_compute. reflexivity.
Defined.

Lemma append_cancel_l (a x y : string) : a +:+ x = a +:+ y -> x = y.
Proof.
  induction a as [ | c a IH]; [exact id | ].
  intros H. apply IH. now injection H.
Qed.

(** X29: the level can be read off the prompt: two prompts for the same
    question and sources are equal only when they were built at the same
    level. *)
Theorem prompt_shows_its_level (q : string) (sources : list SourceRecord)
    (l1 l2 : DetailLevel) :
  build_prompt q sources (Some l1) = build_prompt q sources (Some l2) -> l1 = l2.
Proof.
  rewrite !build_prompt_regions. cbn [selected_level].
  intros H. apply append_cancel_l in H.
  destruct l1, l2; try reflexivity; exfalso; vm_compute in H; discriminate H.
Qed.

Lemma prompt_shows_its_level_witness : advanced = advanced.
Proof.
  apply (prompt_shows_its_level "What protocol does X use?" [example_source]
           advanced advanced).
  reflexivity.
Defined.

End Budgets.
